(** * The Snuggery architect host: builder resolution, loading and target options

    A shallow embedding of [SnuggeryArchitectHost] (the self-contained
    version with [loadBuilderJson] and [resolveBuilderFromPath], and the
    later version that delegates to a [ResolverFacade] and a
    [WorkspaceFacade]), followed by the properties of the host. *)

From Stdlib Require Import ZArith Ascii String List.
From stdpp Require Import gmap strings list fin_maps.

Local Open Scope string_scope.
Local Open Scope list_scope.
Set Warnings "-register-all".

(** ** JavaScript values

    One type for everything the host reads: JSON documents returned by
    [require], module exports returned by [import], option objects.  An
    object has string-keyed own properties and, possibly, a property keyed
    by [BuilderSymbol]; a function is a callable identified by a label that
    may carry the same symbol.  JSON numbers are only ever copied by the
    host, never computed with; they are integers here. *)

Inductive Value : Type :=
| VUndefined
| VNull
| VBool (b : bool)
| VNum (n : Z)
| VStr (s : string)
| VArray (items : list Value)
| VObject (builderSymbol : option Value) (props : gmap string Value)
| VFunction (label : string) (builderSymbol : option Value).

(** A [JsonObject]: the own properties of a plain object. *)
Abbreviation JsonObject := (gmap string Value).

Definition plain (o : JsonObject) : Value := VObject None o.

(** [v == null] *)
Definition isNullish (v : Value) : bool :=
  match v with
  | VUndefined | VNull => true
  | _ => false
  end.

(** [!!v] *)
Definition truthy (v : Value) : bool :=
  match v with
  | VUndefined | VNull => false
  | VBool b => b
  | VNum n => negb (Z.eqb n 0)
  | VStr s => negb (String.eqb s EmptyString)
  | VArray _ | VObject _ _ | VFunction _ _ => true
  end.

(** [typeof v === 'object'], which holds of [null] and of arrays too. *)
Definition typeofObject (v : Value) : bool :=
  match v with
  | VNull | VArray _ | VObject _ _ => true
  | _ => false
  end.

(** [Array.isArray(v)] *)
Definition isArray (v : Value) : bool :=
  match v with
  | VArray _ => true
  | _ => false
  end.

(** [isJsonObject] of [@angular-devkit/core]:
    [value != null && typeof value === 'object' && !Array.isArray(value)]. *)
Definition isJsonObject (v : Value) : bool :=
  negb (isNullish v) && typeofObject v && negb (isArray v).

(** [v[BuilderSymbol]] on a value that is not nullish. *)
Definition symbolOf (v : Value) : Value :=
  match v with
  | VObject (Some t) _ | VFunction _ (Some t) => t
  | _ => VUndefined
  end.

(** [BuilderSymbol in v], for [v] an object or a function. *)
Definition hasSymbol (v : Value) : bool :=
  match v with
  | VObject (Some _) _ | VFunction _ (Some _) => true
  | _ => false
  end.

(** ** Strings *)

(** [s.split(sep)] for a one-character separator: never empty. *)
Fixpoint split (sep : ascii) (s : string) : list string :=
  match s with
  | EmptyString => [EmptyString]
  | String c rest =>
      if Ascii.eqb c sep then EmptyString :: split sep rest
      else match split sep rest with
           | piece :: pieces => String c piece :: pieces
           | [] => [String c EmptyString]
           end
  end.

(** [s.split(sep, limit)]: the pieces of [s.split(sep)], cut off after
    the first [limit] of them. *)
Definition splitLimit (sep : ascii) (limit : nat) (s : string) : list string :=
  take limit (split sep s).

(** [s.includes(c)] *)
Fixpoint includes (c : ascii) (s : string) : bool :=
  match s with
  | EmptyString => false
  | String d rest => Ascii.eqb d c || includes c rest
  end.

(** [s.indexOf(c)], for a [c] that occurs in [s]; the length of [s]
    otherwise. *)
Fixpoint indexOf (c : ascii) (s : string) : nat :=
  match s with
  | EmptyString => 0
  | String d rest => if Ascii.eqb d c then 0 else S (indexOf c rest)
  end.

(** [s.slice(0, n)] *)
Fixpoint sliceTo (n : nat) (s : string) : string :=
  match n, s with
  | S m, String c rest => String c (sliceTo m rest)
  | _, _ => EmptyString
  end.

(** [s.slice(n)] *)
Fixpoint sliceFrom (n : nat) (s : string) : string :=
  match n, s with
  | S m, String _ rest => sliceFrom m rest
  | _, _ => s
  end.

(** The double-quote character, and a string between double quotes, as the
    error messages print names. *)
Definition dquote : string := String (ascii_of_nat 34) EmptyString.
Definition quoted (s : string) : string := dquote +:+ s +:+ dquote.

(** ** Errors *)

Inductive ErrorName : Type :=
| UnknownBuilderError
| UnknownConfigurationError
| InvalidBuilderSpecifiedError
| InvalidBuilderError
| UnknownTargetError
| TypeError      (* thrown by the runtime: a property read on null or undefined *)
| ModuleError.   (* thrown by the module system: resolve, require or import failed *)

Record Error : Type := mkError { name : ErrorName; message : string }.

(** ** Calls that leave the host, and the monad that records them *)

Inductive Event : Type :=
| Resolved (origin request : string)   (* createRequire(origin).resolve(request) *)
| Required (path : string)             (* require(path) *)
| Imported (path : string)             (* import(path) *)
| Converted (implementation : Value).  (* the executor-to-builder adapter *)

Inductive Outcome (A : Type) : Type :=
| Return (a : A)
| Throw (e : Error)
| Diverge.   (* the loop did not end within the fuel *)
Arguments Return {A} a.
Arguments Throw {A} e.
Arguments Diverge {A}.

(** A computation: the calls it made, in order, and how it ended. *)
Definition M (A : Type) : Type := list Event * Outcome A.

Definition ret {A} (a : A) : M A := ([], Return a).
Definition throw {A} (e : Error) : M A := ([], Throw e).
Definition diverge {A} : M A := ([], Diverge).
Definition emit (ev : Event) : M unit := ([ev], Return tt).

Definition bind {A B} (k : A -> M B) (m : M A) : M B :=
  match m with
  | (tr, Return a) => let '(tr', o) := k a in (tr ++ tr', o)
  | (tr, Throw e) => (tr, Throw e)
  | (tr, Diverge) => (tr, Diverge)
  end.

#[global] Instance M_ret : MRet M := @ret.
#[global] Instance M_bind : MBind M := @bind.
#[global] Instance M_fmap : FMap M := fun A B f m => bind (fun a => ret (f a)) m.

(** [try { m } catch (e) { handler e }] *)
Definition tryCatch {A} (m : M A) (handler : Error -> M A) : M A :=
  match m with
  | (tr, Throw e) => let '(tr', o) := handler e in (tr ++ tr', o)
  | _ => m
  end.

Definition trace {A} (m : M A) : list Event := fst m.
Definition outcome {A} (m : M A) : Outcome A := snd m.

(** [v[key]] for a string key that no prototype defines: a [TypeError] on
    [null] and [undefined], the own property of an object, [undefined]
    elsewhere.  The literal keys the host reads ([builders], [executors],
    [implementation], [schema], [description], [type], [cli]) are defined
    by no primitive, array, function or object prototype, and two of its
    computed reads come after a [hasOwnProperty] test.  The computed reads
    with no such test go through [lookupProperty] below. *)
Definition propOf (v : Value) (key : string) : Value :=
  match v with
  | VObject _ o => default VUndefined (o !! key)
  | _ => VUndefined
  end.

Definition getProp (v : Value) (key : string) : M Value :=
  if isNullish v
  then throw (mkError TypeError ("Cannot read properties of null or undefined, reading " +:+ quoted key))
  else ret (propOf v key).

(** The own properties of a value known to be a JSON object. *)
Definition ownProps (v : Value) : JsonObject :=
  match v with
  | VObject _ o => o
  | _ => ∅
  end.

(** The names under which [Object.prototype] has a property.  Every
    ordinary object inherits them: an object literal, an object parsed
    from JSON, the [exports] of a module. *)
Definition objectPrototypeKeys : list string :=
  ["constructor"; "__defineGetter__"; "__defineSetter__"; "hasOwnProperty";
   "__lookupGetter__"; "__lookupSetter__"; "isPrototypeOf";
   "propertyIsEnumerable"; "toString"; "valueOf"; "__proto__";
   "toLocaleString"].

(** What an ordinary object inherits under a key: a function of
    [Object.prototype]; under [__proto__], the prototype itself, an object
    none of whose own properties is enumerable (they are left out here);
    [undefined] under any other key. *)
Definition inherited (key : string) : Value :=
  if bool_decide (key ∈ objectPrototypeKeys) then
    if String.eqb key "__proto__" then VObject None ∅ else VFunction key None
  else VUndefined.

(** [o[key]] on an ordinary object, for a computed key and with no
    [hasOwnProperty] test before it: the own property or, for want of one,
    the inherited one. *)
Definition lookupProperty (o : JsonObject) (key : string) : Value :=
  match o !! key with
  | Some v => v
  | None => inherited key
  end.

(** The own enumerable properties that [Object.assign] copies from a
    source that is not nullish: those of an object; a function has none. *)
Definition enumerableProps (source : Value) : JsonObject :=
  match source with
  | VObject _ o => o
  | _ => ∅
  end.

(** ** The workspace *)

(** [Target], as [@angular-devkit/architect] declares it. *)
Record Target : Type := mkTarget {
  project : string;
  target : string;
  configuration : option string;
}.

(** [configurations] holds the entries of the object: the option objects
    under the names the target declares. *)
Record TargetDefinition : Type := mkTargetDefinition {
  builder : string;
  options : option JsonObject;
  configurations : option (gmap string JsonObject);
}.

(** Of a project, the host's operations below read the targets only. *)
Record ProjectDefinition : Type := mkProjectDefinition {
  targets : gmap string TargetDefinition;
}.

Record CliWorkspace : Type := mkCliWorkspace {
  basePath : string;
  projects : gmap string ProjectDefinition;
}.

Record Context : Type := mkContext { startCwd : string }.

(** ** The platform under the host

    Node's [path] and module system, and the executor adapter of
    [utils/tao], are outside the host: it runs on whatever they answer. *)

(** A [require] function made by [createRequire]: [None] when the call
    throws. *)
Record NodeRequire : Type := mkNodeRequire {
  resolve : string -> option string;
  load : string -> option Value;
}.

Record Platform : Type := mkPlatform {
  join : string -> string -> string;
  dirname : string -> string;
  basename : string -> string;
  createRequire : string -> NodeRequire;
  (* the [require] of the host's own module *)
  require : string -> option Value;
  (* [import(path)]: the message of the error it rejects with, or the
     exports of the module, the own properties of the object it resolves to *)
  importModule : string -> string + JsonObject;
  makeExecutorIntoBuilder : Value -> option CliWorkspace -> Value;
}.

(** [new Set(items)], iterated: insertion order, first occurrences only. *)
Fixpoint setOrder (seen : list string) (items : list string) : list string :=
  match items with
  | [] => []
  | x :: rest =>
      if bool_decide (x ∈ seen) then setOrder seen rest
      else x :: setOrder (x :: seen) rest
  end.

(** [module.default ?? module] *)
Definition defaultOrModule (exports : JsonObject) : Value :=
  match exports !! "default" with
  | Some v => if isNullish v then plain exports else v
  | None => plain exports
  end.

(** The descriptor a resolution returns. *)
Record SnuggeryBuilderInfo : Type := mkInfo {
  packageName : option string;
  builderName : string;
  description : option string;
  optionSchema : Value;
  implementationPath : string;
  implementationExport : option string;
  isNx : option bool;
}.

Definition isString (v : Value) : bool :=
  match v with VStr _ => true | _ => false end.

Definition isBoolean (v : Value) : bool :=
  match v with VBool _ => true | _ => false end.

(** The string held by a value that a [typeof v === 'string'] test has
    narrowed to a string. *)
Definition asString (v : Value) : string :=
  match v with VStr s => s | _ => EmptyString end.

(** [Object.assign(target, source)] on plain objects: the own properties
    of [source] are copied over those of [target], values as they are. *)
Definition assign (target source : JsonObject) : JsonObject := source ∪ target.

(** [const [packageName, builderName] = builderSpec.split(':', 2)]: the
    first two pieces; [split] returns at least one, the second is
    [undefined] when there is none. *)
Definition specifierParts (builderSpec : string) : string * option string :=
  let pieces := splitLimit ":" 2 builderSpec in
  (default EmptyString (pieces !! 0%nat), pieces !! 1%nat).

(** A [string | null] inside a template literal. *)
Definition printed (s : option string) : string := default "null" s.

(** The export [loadBuilder] takes from the imported module:
    [module[info.implementationExport]] if there is a name, a plain
    property read that finds what the module object inherits where the
    module exports nothing under the name; else the default export or the
    module itself. *)
Definition selectExport (info : SnuggeryBuilderInfo) (module : JsonObject) : Value :=
  match implementationExport info with
  | Some key => lookupProperty module key
  | None => defaultOrModule module
  end.

(** The condition of the [if] in [loadBuilder] that sends the
    implementation to the executor adapter:
    [info.isNx || (info.isNx !== false && typeof info.optionSchema === 'object'
    && info.optionSchema.cli === 'nx')]. *)
Definition isExecutor (info : SnuggeryBuilderInfo) : M bool :=
  if bool_decide (isNx info = Some true) then ret true
  else if bool_decide (isNx info ≠ Some false) && typeofObject (optionSchema info)
  then cli ← getProp (optionSchema info) "cli";
       ret (if cli is VStr s then String.eqb s "nx" else false)
  else ret false.

(** A schema that is an object with [cli === 'nx']. *)
Definition marksNx (schema : Value) : Prop :=
  ∃ sym o, schema = VObject sym o ∧ o !! "cli" = Some (VStr "nx").

(** The condition under which [loadBuilder] is claimed to go through the
    executor adapter. *)
Definition adapts (info : SnuggeryBuilderInfo) : Prop :=
  isNx info = Some true ∨ (isNx info ≠ Some false ∧ marksNx (optionSchema info)).

(** The error of [getOptionsForTarget] for a configuration the target
    does not have. *)
Definition unknownConfiguration (t : Target) (configuration : string) : Error :=
  mkError UnknownConfigurationError
    ("Target " +:+ quoted (target t) +:+ " in project " +:+ quoted (project t)
     +:+ " doesn't have a configuration named " +:+ quoted configuration).

(** The target has a configuration of the name: an entry of its own in
    [configurations]. *)
Definition declares (td : TargetDefinition) (configuration : string) : Prop :=
  is_Some (configurations td ≫= (fun c => c !! configuration)).

(** [targetDefinition.configurations?.[configuration]]: [undefined] where
    the target has no [configurations]; else a plain property read. *)
Definition readConfiguration (td : TargetDefinition) (configuration : string) : Value :=
  match configurations td with
  | Some c => lookupProperty (plain <$> c) configuration
  | None => VUndefined
  end.

(** A value that is not [null] or [undefined] and on which the [in]
    operator throws: a boolean, a number or a string. *)
Definition isPrimitive (v : Value) : bool :=
  match v with
  | VBool _ | VNum _ | VStr _ => true
  | _ => false
  end.

(** [v?.key] *)
Definition optProp (v : Value) (key : string) : Value :=
  if isNullish v then VUndefined else propOf v key.

(** [Object.keys(o)]: the own keys, each once.  The map keeps no insertion
    order; the keys come in the order in which the map enumerates them. *)
Definition objectKeys (o : JsonObject) : list string := (map_to_list o).*1.

(** An element of the array [listBuilders] returns: [{name}] or
    [{name, description}]. *)
Module Listed.
Record t : Type := make { name : string; description : option string }.
End Listed.

(** The names [listBuilders] goes through:
    [new Set([...Object.keys(builderJson), ...Object.keys(executorsJson || {})])]. *)
Definition listedNames (builderJson : JsonObject) (executorsJson : option JsonObject)
    : list string :=
  setOrder [] (objectKeys builderJson ++ objectKeys (default ∅ executorsJson)).

(** The callback of [Array.from] in [listBuilders]:
    [builderJson[name]?.description ?? executorsJson?.[name]?.description],
    kept when it is a string. *)
Definition listed (builderJson : JsonObject) (executorsJson : option JsonObject)
    (name : string) : Listed.t :=
  let fromBuilders := optProp (lookupProperty builderJson name) "description" in
  let description :=
    if isNullish fromBuilders then
      match executorsJson with
      | Some executors => optProp (lookupProperty executors name) "description"
      | None => VUndefined
      end
    else fromBuilders in
  if isString description then Listed.make name (Some (asString description))
  else Listed.make name None.

(** ** What both versions of the host share *)

Section Shared.

Context (P : Platform).

(** The calls of the platform, recorded. *)
Definition requireResolve (origin request : string) : M string :=
  emit (Resolved origin request);;
  match resolve (createRequire P origin) request with
  | Some path => ret path
  | None => throw (mkError ModuleError ("Cannot find module " +:+ quoted request))
  end.

Definition requireFrom (origin path : string) : M Value :=
  emit (Required path);;
  match load (createRequire P origin) path with
  | Some v => ret v
  | None => throw (mkError ModuleError ("Cannot load " +:+ quoted path))
  end.

Definition requireModule (path : string) : M Value :=
  emit (Required path);;
  match require P path with
  | Some v => ret v
  | None => throw (mkError ModuleError ("Cannot load " +:+ quoted path))
  end.

Definition import (path : string) : M JsonObject :=
  emit (Imported path);;
  match importModule P path with
  | inr exports => ret exports
  | inl msg => throw (mkError ModuleError msg)
  end.

(** The second half of [resolveBuilder], the same text in both versions
    of the host: from the validation of the selected entry to the
    descriptor. *)
Definition describeBuilder (packageName builderName builderPath : string)
    (builderInfo : Value) (isNx : option bool) : M SnuggeryBuilderInfo :=
  if negb (isJsonObject builderInfo)
     || negb (isString (propOf builderInfo "implementation"))
     || (negb (isString (propOf builderInfo "schema"))
         && negb (isBoolean (propOf builderInfo "schema")))
  then
    throw (mkError InvalidBuilderError
      (if negb (String.eqb packageName "$direct")
       then "Invalid configuration for builder " +:+ quoted builderName
            +:+ " in package " +:+ quoted packageName
       else "Invalid configuration for builder " +:+ quoted builderName))
  else
    optionSchema ←
      (if isBoolean (propOf builderInfo "schema") then ret (propOf builderInfo "schema")
       else
         let schemaPath :=
           join P (dirname P builderPath) (asString (propOf builderInfo "schema")) in
         optionSchema ← tryCatch (requireModule schemaPath)
           (fun _ => throw (mkError InvalidBuilderError
              ("Couldn't load schema " +:+ quoted schemaPath +:+ " for builder "
               +:+ quoted builderName +:+ " in package " +:+ quoted packageName)));
         if negb (isJsonObject optionSchema) then
           throw (mkError InvalidBuilderError
             ("Invalid schema at " +:+ quoted schemaPath +:+ " for builder "
              +:+ quoted builderName +:+ " in package " +:+ quoted packageName))
         else ret optionSchema);
    let description :=
      if isString (propOf builderInfo "description")
      then Some (asString (propOf builderInfo "description")) else None in
    let implementationPath := asString (propOf builderInfo "implementation") in
    let '(implementationPath, implementationExport) :=
      if includes "#" implementationPath then
        let index := indexOf "#" implementationPath in
        (sliceTo index implementationPath,
         Some (sliceFrom (index + 1) implementationPath))
      else (implementationPath, None) in
    ret {| packageName := Some packageName;
           builderName := builderName;
           description := description;
           optionSchema := optionSchema;
           implementationPath := join P (dirname P builderPath) implementationPath;
           implementationExport := implementationExport;
           isNx := isNx |}.

End Shared.

(** Where [loadBuilderJson] starts in a base directory: what the package's
    [package.json] resolves to from there or, failing that, what the bare
    package name resolves to; [None] when neither resolves. *)
Definition startJsonPath (P : Platform) (basePath packageName : string) : option string :=
  let origin := join P basePath "<synthetic>" in
  match resolve (createRequire P origin) (join P packageName "package.json") with
  | Some path => Some path
  | None => resolve (createRequire P origin) packageName
  end.

(** The [resolve] calls [loadBuilderJson] makes in a base directory: for
    the [package.json] of the package and, when that fails, for the bare
    package name. *)
Definition resolveCalls (P : Platform) (basePath packageName : string) : list Event :=
  let origin := join P basePath "<synthetic>" in
  Resolved origin (join P packageName "package.json")
  :: match resolve (createRequire P origin) (join P packageName "package.json") with
     | Some _ => []
     | None => [Resolved origin packageName]
     end.

(** The chain of manifest documents [loadBuilderJson] goes along from a
    loaded document: while [builders] is a string, the document it names,
    beside the current one, is the next.  [chain P origin path doc hops
    lastPath last]: the chain from [doc] at [path] loads all along, and
    after [hops] hops comes to [last] at [lastPath], whose [builders] is
    not a string. *)
Inductive chain (P : Platform) (origin : string)
    : string → Value → nat → string → Value → Prop :=
| chain_end path doc :
    isString (propOf doc "builders") = false →
    chain P origin path doc 0 path doc
| chain_hop path doc next doc' hops lastPath last :
    propOf doc "builders" = VStr next →
    load (createRequire P origin) (join P (dirname P path) next) = Some doc' →
    chain P origin (join P (dirname P path) next) doc' hops lastPath last →
    chain P origin path doc (S hops) lastPath last.

(** What a module path resolves to from a base directory. *)
Definition resolvesFrom (P : Platform) (path basePath : string) : option string :=
  resolve (createRequire P (join P basePath "<synthetic>")) path.

(** ** The self-contained host *)

Module Host.
Section Host.

Context (P : Platform) (context : Context) (workspace : option CliWorkspace).

(** [isBuilder]: [BuilderSymbol in value && value[BuilderSymbol]] *)
Definition isBuilder (value : Value) : bool :=
  hasSymbol value && truthy (symbolOf value).

(** The base directories both searches go through. *)
Definition basePaths : list string :=
  setOrder []
    match workspace with
    | Some ws => [startCwd context; basePath ws]
    | None => [startCwd context]
    end.

(** The [while (typeof buildersJson.builders === 'string')] loop of
    [loadBuilderJson]; nothing bounds it in the source. *)
Fixpoint followBuilders (fuel : nat) (origin buildersJsonPath : string)
    (buildersJson : Value) : M (string * Value) :=
  b ← getProp buildersJson "builders";
  match b with
  | VStr next =>
      match fuel with
      | O => diverge
      | S fuel' =>
          let buildersJsonPath := join P (dirname P buildersJsonPath) next in
          buildersJson ← tryCatch (requireFrom P origin buildersJsonPath)
            (fun _ => throw (mkError InvalidBuilderError
               ("Failed to load builder configuration file " +:+ quoted buildersJsonPath)));
          followBuilders fuel' origin buildersJsonPath buildersJson
      end
  | _ => ret (buildersJsonPath, buildersJson)
  end.

(** The body of the loop of [loadBuilderJson] below the two resolution
    attempts: load the document the package resolved to, follow its
    [builders] while that is a string, check what the last document has. *)
Definition loadManifest (fuel : nat) (origin startJsonPath : string)
    (packageName builderSpec : string)
    : M (string * JsonObject * option JsonObject) :=
  buildersJson ← tryCatch (requireFrom P origin startJsonPath)
    (fun _ => throw (mkError InvalidBuilderError
       ("Failed to load builder configuration file " +:+ quoted startJsonPath)));
  '(buildersJsonPath, buildersJson) ←
    followBuilders fuel origin startJsonPath buildersJson;
  builders ← getProp buildersJson "builders";
  if isNullish builders then
    throw (mkError InvalidBuilderError
      ("No builder configuration found in " +:+ quoted packageName
       +:+ " for builder " +:+ quoted builderSpec))
  else if negb (isJsonObject builders) then
    throw (mkError InvalidBuilderError
      ("Builder configuration file " +:+ quoted buildersJsonPath
       +:+ " for " +:+ quoted builderSpec +:+ " doesn't match the schema"))
  else
    executors ← getProp buildersJson "executors";
    ret (buildersJsonPath, ownProps builders,
         if isJsonObject executors then Some (ownProps executors) else None).

(** The [for ... of] loop of [loadBuilderJson]: a base directory in which
    the package does not resolve is passed over; the first one in which it
    does decides. *)
Fixpoint loadBuilderJsonIn (fuel : nat) (bases : list string)
    (packageName builderSpec : string)
    : M (string * JsonObject * option JsonObject) :=
  match bases with
  | [] =>
      throw (mkError UnknownBuilderError
        ("Couldn't find builder configuration in " +:+ quoted packageName
         +:+ " for builder " +:+ quoted builderSpec))
  | basePath :: rest =>
      let origin := join P basePath "<synthetic>" in
      start ← tryCatch (Some <$> requireResolve P origin (join P packageName "package.json"))
        (fun _ => tryCatch (Some <$> requireResolve P origin packageName)
           (fun _ => ret None));
      match start with
      | None => loadBuilderJsonIn fuel rest packageName builderSpec
      | Some startJsonPath =>
          loadManifest fuel origin startJsonPath packageName builderSpec
      end
  end.

Definition loadBuilderJson (fuel : nat) (packageName builderSpec : string)
    : M (string * JsonObject * option JsonObject) :=
  loadBuilderJsonIn fuel basePaths packageName builderSpec.

Definition listBuilders (fuel : nat) (packageName : string) : M (list Listed.t) :=
  '(_, builderJson, executorsJson) ← loadBuilderJson fuel packageName packageName;
  ret (listed builderJson executorsJson <$> listedNames builderJson executorsJson).

Definition getProject (projectName : string) : M ProjectDefinition :=
  match workspace ≫= (fun ws => projects ws !! projectName) with
  | Some p => ret p
  | None => throw (mkError UnknownTargetError ("Unknown project: " +:+ quoted projectName))
  end.

Definition getTarget (t : Target) : M TargetDefinition :=
  p ← getProject (project t);
  match targets p !! target t with
  | Some projectTarget => ret projectTarget
  | None =>
      throw (mkError UnknownTargetError
        ("No target named " +:+ quoted (target t) +:+ " found in project "
         +:+ quoted (project t)))
  end.

Definition getBuilderNameForTarget (t : Target) : M string :=
  builder <$> getTarget t.

(** The body of the loop of [resolveBuilderFromPath] below the resolution
    attempt: import the resolved module and turn what it exports into a
    builder entry. *)
Definition loadDirect (resolvedPath path : string) : M (string * Value) :=
  schemaOrBuilder ← tryCatch (defaultOrModule <$> import P resolvedPath)
    (fun _ => throw (mkError InvalidBuilderError
       ("Failed to load builder file " +:+ quoted resolvedPath
        +:+ " for builder " +:+ quoted path)));
  if isNullish schemaOrBuilder || negb (typeofObject schemaOrBuilder)
     || isArray schemaOrBuilder
  then
    throw (mkError InvalidBuilderError
      ("File " +:+ quoted resolvedPath +:+ " for builder " +:+ quoted path
       +:+ " does not contain a valid builder"))
  else if isBuilder schemaOrBuilder then
    ret (resolvedPath,
         plain {[ "schema" := VBool true;
                  "implementation" := VStr (basename P resolvedPath) ]})
  else if isString (propOf schemaOrBuilder "type")
          && isString (propOf schemaOrBuilder "implementation")
  then
    ret (resolvedPath,
         plain {[ "schema" := VStr (basename P resolvedPath);
                  "implementation" := propOf schemaOrBuilder "implementation" ]})
  else ret (resolvedPath, schemaOrBuilder).

(** The [for ... of] loop of [resolveBuilderFromPath]. *)
Fixpoint resolveBuilderFromPathIn (bases : list string) (path : string)
    : M (string * Value) :=
  match bases with
  | [] =>
      throw (mkError UnknownBuilderError ("Can't resolve builder " +:+ quoted path))
  | basePath :: rest =>
      let origin := join P basePath "<synthetic>" in
      resolved ← tryCatch (Some <$> requireResolve P origin path) (fun _ => ret None);
      match resolved with
      | None => resolveBuilderFromPathIn rest path
      | Some resolvedPath => loadDirect resolvedPath path
      end
  end.

Definition resolveBuilderFromPath (path : string) : M (string * Value) :=
  resolveBuilderFromPathIn basePaths path.

(** [hasOwnProperty.call(o, key)] *)
Definition hasOwnProperty (o : JsonObject) (key : string) : bool :=
  bool_decide (is_Some (o !! key)).

Definition resolveBuilder (fuel : nat) (builderSpec : string) : M SnuggeryBuilderInfo :=
  let '(packageName, builderName) := specifierParts builderSpec in
  match builderName with
  | None =>
      throw (mkError InvalidBuilderSpecifiedError
        "Builders must list a collection, use $direct as collection if you want to use a builder directly")
  | Some builderName =>
      '(builderPath, builderInfo, isNx) ←
        (if String.eqb packageName "$direct" then
           '(builderPath, builderInfo) ← resolveBuilderFromPath builderName;
           ret (builderPath, builderInfo, None)
         else
           '(builderPath, builderJson, executorsJson) ←
             loadBuilderJson fuel packageName builderSpec;
           if match executorsJson with
              | Some executors => hasOwnProperty executors builderName
              | None => false
              end
           then
             ret (builderPath, propOf (plain (default ∅ executorsJson)) builderName,
                  Some true)
           else if hasOwnProperty builderJson builderName then
             ret (builderPath, propOf (plain builderJson) builderName,
                  if executorsJson is Some _ then Some false else None)
           else
             throw (mkError UnknownBuilderError
               ("Can't find " +:+ quoted builderName +:+ " in " +:+ quoted packageName)));
      describeBuilder P packageName builderName builderPath builderInfo isNx
  end.

Definition loadBuilder (info : SnuggeryBuilderInfo) : M Value :=
  implementation ← tryCatch
    (module ← import P (implementationPath info);
     ret (selectExport info module))
    (fun e => throw (mkError InvalidBuilderError
       ("Failed to load implementation for builder " +:+ quoted (builderName info)
        +:+ " in package " +:+ quoted (printed (packageName info)) +:+ ": "
        +:+ message e)));
  if isNullish implementation then
    throw (mkError InvalidBuilderError
      ("Failed to load implementation for builder " +:+ quoted (builderName info)
       +:+ " in package " +:+ printed (packageName info)))
  else
    asExecutor ← isExecutor info;
    if (asExecutor : bool) then
      emit (Converted implementation);;
      ret (makeExecutorIntoBuilder P implementation workspace)
    else if negb (truthy (symbolOf implementation)) then
      throw (mkError InvalidBuilderError
        ("Implementation for builder " +:+ quoted (builderName info) +:+ " in package "
         +:+ quoted (printed (packageName info)) +:+ " is not a builder"))
    else ret implementation.

Definition getCurrentDirectory : M string := ret (startCwd context).

Definition getWorkspaceRoot : M string :=
  ret (default (startCwd context) (basePath <$> workspace)).

(** The [for ... of] loop of [getOptionsForTarget]. *)
Fixpoint overlay (t : Target) (targetDefinition : TargetDefinition)
    (names : list string) (options : JsonObject) : M JsonObject :=
  match names with
  | [] => ret options
  | configuration :: rest =>
      let configurationOptions := readConfiguration targetDefinition configuration in
      if isNullish configurationOptions then
        throw (unknownConfiguration t configuration)
      else
        overlay t targetDefinition rest
          (assign options (enumerableProps configurationOptions))
  end.

Definition getOptionsForTarget (t : Target) : M JsonObject :=
  targetDefinition ← getTarget t;
  let options :=
    match options targetDefinition with
    | Some o => assign ∅ o
    | None => ∅
    end in
  overlay t targetDefinition
    (match configuration t with
     | Some c => split "," c
     | None => []
     end)
    options.

End Host.
End Host.

(** ** The host over a resolver and a workspace facade *)

Module ResolverFacade.
Record t : Type := make {
  loadBuilders : string -> string -> M (string * JsonObject * option JsonObject);
  resolveBuilder : string -> string -> string -> M (string * Value * option bool);
  resolveDirectBuilder : string -> M (string * Value);
}.
End ResolverFacade.

Module WorkspaceFacade.
Record t : Type := make {
  basePath : option string;
  getProject : string -> M ProjectDefinition;
  getProjectMetadata : string -> M JsonObject;
  getTarget : Target -> M TargetDefinition;
  getOptionsForTarget : Target -> M (option JsonObject);
  convertExecutorIntoBuilder : Value -> Value;
}.
End WorkspaceFacade.

Module FacadeHost.
Section FacadeHost.

Context (P : Platform) (context : Context)
        (resolver : ResolverFacade.t) (workspace : WorkspaceFacade.t).

(** [isBuilder]: [BuilderSymbol in value && value[BuilderSymbol]]; the
    [in] operator throws on a primitive. *)
Definition isBuilder (value : Value) : M bool :=
  match value with
  | VUndefined | VNull | VBool _ | VNum _ | VStr _ =>
      throw (mkError TypeError "Cannot use 'in' operator to search for a symbol in a primitive")
  | _ => ret (hasSymbol value && truthy (symbolOf value))
  end.

Definition getBuilderNameForTarget (t : Target) : M string :=
  builder <$> WorkspaceFacade.getTarget workspace t.

Definition listBuilders (packageName : string) : M (list Listed.t) :=
  '(_, builderJson, executorsJson) ←
    ResolverFacade.loadBuilders resolver packageName packageName;
  ret (listed builderJson executorsJson <$> listedNames builderJson executorsJson).

Definition resolveBuilder (builderSpec : string) : M SnuggeryBuilderInfo :=
  let '(packageName, builderName) := specifierParts builderSpec in
  match builderName with
  | None =>
      throw (mkError InvalidBuilderSpecifiedError
        "Builders must list a collection, use $direct as collection if you want to use a builder directly")
  | Some builderName =>
      '(builderPath, builderInfo, isNx) ←
        (if String.eqb packageName "$direct" then
           '(builderPath, builderInfo) ←
             ResolverFacade.resolveDirectBuilder resolver builderName;
           ret (builderPath, builderInfo, None)
         else
           ResolverFacade.resolveBuilder resolver packageName builderName builderSpec);
      describeBuilder P packageName builderName builderPath builderInfo isNx
  end.

Definition loadBuilder (info : SnuggeryBuilderInfo) : M Value :=
  implementation ← tryCatch
    (module ← import P (implementationPath info);
     ret (selectExport info module))
    (fun e => throw (mkError InvalidBuilderError
       ("Failed to load implementation for builder " +:+ quoted (builderName info)
        +:+ " in package " +:+ quoted (printed (packageName info)) +:+ ": "
        +:+ message e)));
  if isNullish implementation then
    throw (mkError InvalidBuilderError
      ("Failed to load implementation for builder " +:+ quoted (builderName info)
       +:+ " in package " +:+ printed (packageName info)))
  else
    asExecutor ← isExecutor info;
    if (asExecutor : bool) then
      emit (Converted implementation);;
      ret (WorkspaceFacade.convertExecutorIntoBuilder workspace implementation)
    else
      tagged ← isBuilder implementation;
      if negb tagged then
        throw (mkError InvalidBuilderError
          ("Implementation for builder " +:+ quoted (builderName info) +:+ " in package "
           +:+ quoted (printed (packageName info)) +:+ " is not a builder"))
      else ret implementation.

Definition getCurrentDirectory : M string := ret (startCwd context).

Definition getWorkspaceRoot : M string :=
  ret (default (startCwd context) (WorkspaceFacade.basePath workspace)).

Definition getOptionsForTarget (t : Target) : M (option JsonObject) :=
  WorkspaceFacade.getOptionsForTarget workspace t.

Definition getProjectMetadata (projectNameOrTarget : string + Target) : M JsonObject :=
  WorkspaceFacade.getProjectMetadata workspace
    match projectNameOrTarget with
    | inl projectName => projectName
    | inr t => project t
    end.

End FacadeHost.
End FacadeHost.

(** ** Project metadata

    The lookups of the self-contained host read the targets of a project
    and nothing else, and the [ProjectDefinition] above keeps nothing else.
    [getProjectMetadata] reads the other fields; here is a project with
    all of them, and the same [getProject] over it. *)

Module Metadata.

Record ProjectDefinition : Type := mkProjectDefinition {
  root : string;
  sourceRoot : option string;
  prefix : option string;
  extensions : option JsonObject;
  targets : gmap string TargetDefinition;
}.

Record CliWorkspace : Type := mkCliWorkspace {
  basePath : string;
  projects : gmap string ProjectDefinition;
}.

(** A [string | undefined] as a property value. *)
Definition optional (s : option string) : Value :=
  match s with
  | Some s => VStr s
  | None => VUndefined
  end.

Section Metadata.

Context (workspace : option CliWorkspace).

Definition getProject (projectName : string) : M ProjectDefinition :=
  match workspace ≫= (fun ws => projects ws !! projectName) with
  | Some p => ret p
  | None => throw (mkError UnknownTargetError ("Unknown project: " +:+ quoted projectName))
  end.

(** The object literal
    [{root, sourceRoot, prefix, ...projectDefinition.extensions}]: the
    spread comes last and copies over the three keys before it. *)
Definition getProjectMetadata (projectNameOrTarget : string + Target) : M JsonObject :=
  projectDefinition ← getProject
    match projectNameOrTarget with
    | inl projectName => projectName
    | inr t => project t
    end;
  ret (assign {[ "root" := VStr (root projectDefinition);
                 "sourceRoot" := optional (sourceRoot projectDefinition);
                 "prefix" := optional (prefix projectDefinition) ]}
         (default ∅ (extensions projectDefinition))).

End Metadata.
End Metadata.

(** ** A platform to run the host on

    POSIX renderings of [path.join], [path.dirname] and [path.basename],
    and a module system read from three tables.  The closed examples below
    run on platforms built here. *)

Module Sample.

Fixpoint joinWith (sep : string) (pieces : list string) : string :=
  match pieces with
  | [] => EmptyString
  | [piece] => piece
  | piece :: rest => piece +:+ sep +:+ joinWith sep rest
  end.

Definition isEmpty (s : string) : bool := String.eqb s EmptyString.

Definition startsWithSlash (s : string) : bool :=
  match s with String c _ => Ascii.eqb c "/" | EmptyString => false end.

Definition endsWithSlash (s : string) : bool :=
  match rev (split "/" s) with
  | last :: _ :: _ => isEmpty last
  | _ => false
  end.

(** The segments of [normalizeString]: [.] and empty segments go, [..]
    takes the segment before it with it. *)
Fixpoint normalizeSegments (absolute : bool) (kept segments : list string)
    : list string :=
  match segments with
  | [] => rev kept
  | segment :: rest =>
      if isEmpty segment || String.eqb segment "." then
        normalizeSegments absolute kept rest
      else if String.eqb segment ".." then
        match kept with
        | top :: kept' =>
            if String.eqb top ".." then normalizeSegments absolute (segment :: kept) rest
            else normalizeSegments absolute kept' rest
        | [] =>
            if absolute then normalizeSegments absolute kept rest
            else normalizeSegments absolute [segment] rest
        end
      else normalizeSegments absolute (segment :: kept) rest
  end.

Definition normalize (path : string) : string :=
  if isEmpty path then "." else
  let absolute := startsWithSlash path in
  let body := joinWith "/" (normalizeSegments absolute [] (split "/" path)) in
  if isEmpty body then
    if absolute then "/" else if endsWithSlash path then "./" else "."
  else
    let body := if endsWithSlash path then body +:+ "/" else body in
    if absolute then "/" +:+ body else body.

Definition posixJoin (a b : string) : string :=
  if isEmpty a then normalize b
  else if isEmpty b then normalize a
  else normalize (a +:+ "/" +:+ b).

(** The segments of a path without its trailing slashes. *)
Fixpoint dropTrailingEmpty (segmentsReversed : list string) : list string :=
  match segmentsReversed with
  | segment :: rest =>
      if isEmpty segment then dropTrailingEmpty rest else segmentsReversed
  | [] => []
  end.

Definition posixDirname (path : string) : string :=
  match dropTrailingEmpty (rev (split "/" path)) with
  | _ :: parent =>
      let dir := joinWith "/" (rev parent) in
      if isEmpty dir then (if startsWithSlash path then "/" else ".") else dir
  | [] => if startsWithSlash path then "/" else "."
  end.

Definition posixBasename (path : string) : string :=
  match dropTrailingEmpty (rev (split "/" path)) with
  | last :: _ => last
  | [] => EmptyString
  end.

(** What [createBuilder] hands back for an executor: a fresh object that
    carries the builder symbol and keeps the executor as its handler. *)
Definition wrapExecutor (implementation : Value) (workspace : option CliWorkspace)
    : Value :=
  VObject (Some (VBool true)) {[ "handler" := implementation ]}.

(** A platform read from tables: what each [resolve] call answers per
    origin and request, the documents [require] loads, the modules
    [import] loads. *)
Definition platform (resolutions : gmap (string * string) string)
    (documents : gmap string Value) (modules : gmap string JsonObject) : Platform :=
  {| join := posixJoin;
     dirname := posixDirname;
     basename := posixBasename;
     createRequire := fun origin =>
       {| resolve := fun request => resolutions !! (origin, request);
          load := fun path => documents !! path |};
     require := fun path => documents !! path;
     importModule := fun path =>
       match modules !! path with
       | Some exports => inr exports
       | None => inl ("Cannot find module " +:+ quoted path)
       end;
     makeExecutorIntoBuilder := wrapExecutor |}.

(** A value as [createBuilder] makes it. *)
Definition nativeBuilder (label : string) : Value :=
  VObject (Some (VBool true)) {[ "handler" := VFunction label None ]}.

(** A workspace in [/ws] with four installed packages: [pkg], whose
    [package.json] points at a [builders.json] that declares [foo] both as
    a builder and as an executor, and [a] and [h] as builders only; [bare], which
    declares no builders; [broken], whose [package.json] points at a
    [builders.json] in which [builders] is a number; [legacy], which
    declares the builder [run] with a schema marked [cli: nx] and no
    executors.  Three more builder modules are under [/ws/tools]. *)
Definition documents : gmap string Value :=
  {[ "/ws/node_modules/pkg/package.json" :=
       plain {[ "name" := VStr "pkg"; "builders" := VStr "./builders.json" ]};
     "/ws/node_modules/pkg/builders.json" :=
       plain {[ "builders" :=
                  plain {[ "foo" := plain {[ "implementation" := VStr "./native.js";
                                             "schema" := VBool true ]};
                           "h" := plain {[ "implementation" := VStr "./both.js#helper";
                                           "schema" := VBool true ]};
                           "a" := plain {[ "implementation" := VStr "./a.js";
                                           "schema" := VBool false;
                                           "description" := VStr "builder a" ]} ]};
                "executors" :=
                  plain {[ "foo" := plain {[ "implementation" := VStr "./exec.js#run";
                                             "schema" := VStr "./schema.json" ]} ]} ]};
     "/ws/node_modules/pkg/schema.json" :=
       plain {[ "cli" := VStr "nx"; "type" := VStr "object" ]};
     "/ws/node_modules/bare/package.json" :=
       plain {[ "name" := VStr "bare" ]};
     "/ws/node_modules/broken/package.json" :=
       plain {[ "builders" := VStr "./builders.json" ]};
     "/ws/node_modules/broken/builders.json" :=
       plain {[ "builders" := VNum 42 ]};
     "/ws/node_modules/legacy/package.json" :=
       plain {[ "builders" :=
                  plain {[ "run" := plain {[ "implementation" := VStr "./run.js";
                                             "schema" := VStr "./schema.json" ]} ]} ]};
     "/ws/node_modules/legacy/schema.json" :=
       plain {[ "cli" := VStr "nx" ]} ]}.

Definition modules : gmap string JsonObject :=
  {[ "/ws/node_modules/pkg/native.js" := {[ "default" := nativeBuilder "native" ]};
     "/ws/node_modules/pkg/a.js" := {[ "default" := nativeBuilder "a" ]};
     "/ws/node_modules/pkg/exec.js" := {[ "run" := VFunction "run" None ]};
     "/ws/node_modules/pkg/both.js" :=
       {[ "default" := nativeBuilder "both"; "helper" := VFunction "helper" None ]};
     "/ws/tools/x:y.js" := {[ "default" := nativeBuilder "x:y" ]};
     "/ws/node_modules/legacy/run.js" := {[ "default" := nativeBuilder "run" ]};
     "/ws/tools/build.js" := {[ "default" := nativeBuilder "build" ]};
     "/ws/tools/b#c.js" := {[ "default" := nativeBuilder "b#c" ]} ]}.

Definition resolutions : gmap (string * string) string :=
  {[ ("/ws/<synthetic>", "pkg/package.json") := "/ws/node_modules/pkg/package.json";
     ("/ws/<synthetic>", "bare/package.json") := "/ws/node_modules/bare/package.json";
     ("/ws/<synthetic>", "legacy/package.json") := "/ws/node_modules/legacy/package.json";
     ("/ws/<synthetic>", "broken/package.json") := "/ws/node_modules/broken/package.json";
     ("/ws/<synthetic>", "./tools/build.js") := "/ws/tools/build.js";
     ("/ws/<synthetic>", "./tools/b#c.js") := "/ws/tools/b#c.js";
     ("/ws/<synthetic>", "./tools/x:y.js") := "/ws/tools/x:y.js" ]}.

Definition node : Platform := platform resolutions documents modules.

Definition context : Context := {| startCwd := "/ws" |}.

Definition buildTarget : TargetDefinition :=
  {| builder := "pkg:foo";
     options := Some {[ "a" := VNum 1; "b" := plain {[ "x" := VNum 1 ]} ]};
     configurations :=
       Some {[ "c1" := {[ "b" := plain {[ "y" := VNum 1 ]} ]};
               "c2" := {[ "a" := VNum 2 ]} ]} |}.

(** A target two of whose configurations give a value to the same key. *)
Definition serveTarget : TargetDefinition :=
  {| builder := "pkg:a";
     options := Some {[ "port" := VNum 1; "host" := VStr "localhost" ]};
     configurations :=
       Some {[ "dev" := {[ "port" := VNum 2; "open" := VBool true ]};
               "ci" := {[ "port" := VNum 3 ]} ]} |}.

Definition workspace : CliWorkspace :=
  {| basePath := "/ws";
     projects :=
       {[ "app" := {| targets := {[ "build" := buildTarget;
                                    "serve" := serveTarget ]} |} ]} |}.

(** What [import] of a module of this workspace gives to
    [resolveBuilderFromPath]: the default export, or the module. *)
Definition defaultOrModule_of (path : string) : option Value :=
  defaultOrModule <$> modules !! path.

(** The descriptors [resolveBuilder] returns on this workspace for
    [pkg:foo], [pkg:a], [pkg:h] and [legacy:run]. *)
Definition fooInfo : SnuggeryBuilderInfo :=
  {| packageName := Some "pkg"; builderName := "foo"; description := None;
     optionSchema := plain {[ "cli" := VStr "nx"; "type" := VStr "object" ]};
     implementationPath := "/ws/node_modules/pkg/exec.js";
     implementationExport := Some "run"; isNx := Some true |}.

Definition aInfo : SnuggeryBuilderInfo :=
  {| packageName := Some "pkg"; builderName := "a"; description := Some "builder a";
     optionSchema := VBool false;
     implementationPath := "/ws/node_modules/pkg/a.js";
     implementationExport := None; isNx := Some false |}.

Definition hInfo : SnuggeryBuilderInfo :=
  {| packageName := Some "pkg"; builderName := "h"; description := None;
     optionSchema := VBool true;
     implementationPath := "/ws/node_modules/pkg/both.js";
     implementationExport := Some "helper"; isNx := Some false |}.

Definition legacyRunInfo : SnuggeryBuilderInfo :=
  {| packageName := Some "legacy"; builderName := "run"; description := None;
     optionSchema := plain {[ "cli" := VStr "nx" ]};
     implementationPath := "/ws/node_modules/legacy/run.js";
     implementationExport := None; isNx := None |}.

(** Facades over the same workspace. *)
Definition facade : WorkspaceFacade.t :=
  {| WorkspaceFacade.basePath := Some "/ws";
     WorkspaceFacade.getProject := Host.getProject (Some workspace);
     WorkspaceFacade.getProjectMetadata := fun _ => ret ∅;
     WorkspaceFacade.getTarget := Host.getTarget (Some workspace);
     WorkspaceFacade.getOptionsForTarget :=
       fun t => Some <$> Host.getOptionsForTarget (Some workspace) t;
     WorkspaceFacade.convertExecutorIntoBuilder :=
       fun implementation => wrapExecutor implementation (Some workspace) |}.

Definition resolver : ResolverFacade.t :=
  {| ResolverFacade.loadBuilders := Host.loadBuilderJson node context (Some workspace) 8;
     ResolverFacade.resolveBuilder := fun packageName builderName _ =>
       throw (mkError UnknownBuilderError
         ("Can't find " +:+ quoted builderName +:+ " in " +:+ quoted packageName));
     ResolverFacade.resolveDirectBuilder :=
       Host.resolveBuilderFromPath node context (Some workspace) |}.

End Sample.

(** A second workspace: the host is started in [/repo/app], the workspace
    is in [/repo].  The package [tools] is installed in [/repo] only; its
    [package.json] points at a [builders.json] and has executors of its own
    beside the pointer.  The [package.json] of [loop] points at itself, that
    of [dangling] at a file that is not there; [ghost] resolves from both
    directories, and cannot be read in the first; [colon] has an entry named
    [a:b] in both maps of its manifest, and a builder named [a]; the
    [package.json] of [void] points at a document that is [null].  Of the
    modules, one exports the description of a builder, one a function that
    carries the builder symbol, one a number. *)

Module Monorepo.

Definition documents : gmap string Value :=
  {[ "/repo/node_modules/tools/package.json" :=
       plain {[ "builders" := VStr "./builders.json";
                "executors" :=
                  plain {[ "lint" := plain {[ "implementation" := VStr "./ignored.js";
                                              "schema" := VBool true ]} ]} ]};
     "/repo/node_modules/tools/builders.json" :=
       plain {[ "builders" :=
                  plain {[ "lint" := plain {[ "implementation" := VStr "./lint.js#rules#strict";
                                              "schema" := VBool true;
                                              "description" := VStr "Lint" ]};
                           "fmt" := plain {[ "implementation" := VStr "./fmt.js";
                                             "schema" := VBool true;
                                             "description" := VStr "Format, as builder" ]};
                           "doc" := plain {[ "implementation" := VStr "./doc.js";
                                             "schema" := VBool true;
                                             "description" := VNum 7 ]} ]};
                "executors" :=
                  plain {[ "fmt" := plain {[ "implementation" := VStr "./fmt-exec.js";
                                             "schema" := VBool true;
                                             "description" := VStr "Format, as executor" ]};
                           "doc" := plain {[ "implementation" := VStr "./doc-exec.js";
                                             "schema" := VBool true;
                                             "description" := VStr "Document" ]};
                           "test" := plain {[ "implementation" := VStr "./test.js";
                                              "schema" := VBool true ]} ]} ]};
     "/repo/app/node_modules/loop/package.json" :=
       plain {[ "builders" := VStr "./package.json" ]};
     "/repo/app/node_modules/dangling/package.json" :=
       plain {[ "builders" := VStr "./missing.json" ]};
     "/repo/node_modules/ghost/package.json" :=
       plain {[ "builders" := plain ∅ ]};
     "/repo/app/node_modules/colon/package.json" :=
       plain {[ "builders" :=
                  plain {[ "a:b" := plain {[ "implementation" := VStr "./native.js";
                                             "schema" := VBool true ]};
                           "a" := plain {[ "implementation" := VStr "./a.js";
                                           "schema" := VBool true ]} ]};
                "executors" :=
                  plain {[ "a:b" := plain {[ "implementation" := VStr "./exec.js";
                                             "schema" := VBool true ]} ]} ]};
     "/repo/app/node_modules/void/package.json" :=
       plain {[ "builders" := VStr "./builders.json" ]};
     "/repo/app/node_modules/void/builders.json" := VNull;
     "/repo/app/described.js" :=
       plain {[ "type" := VStr "object"; "implementation" := VStr "./impl.js#make" ]} ]}.

Definition modules : gmap string JsonObject :=
  {[ "/repo/app/described.js" :=
       {[ "default" := plain {[ "type" := VStr "object";
                                "implementation" := VStr "./impl.js#make" ]} ]};
     "/repo/app/fn.js" := {[ "default" := VFunction "build" (Some (VBool true)) ]};
     "/repo/app/answer.js" := {[ "default" := VNum 42 ]};
     "/repo/shared.js" := {[ "default" := Sample.nativeBuilder "shared" ]};
     "/repo/node_modules/tools/fmt-exec.js" := {[ "default" := VFunction "fmt" None ]} ]}.

Definition resolutions : gmap (string * string) string :=
  {[ ("/repo/<synthetic>", "tools/package.json") := "/repo/node_modules/tools/package.json";
     ("/repo/app/<synthetic>", "loop/package.json") :=
       "/repo/app/node_modules/loop/package.json";
     ("/repo/app/<synthetic>", "dangling/package.json") :=
       "/repo/app/node_modules/dangling/package.json";
     ("/repo/app/<synthetic>", "ghost/package.json") :=
       "/repo/app/node_modules/ghost/package.json";
     ("/repo/<synthetic>", "ghost/package.json") := "/repo/node_modules/ghost/package.json";
     ("/repo/app/<synthetic>", "colon/package.json") :=
       "/repo/app/node_modules/colon/package.json";
     ("/repo/app/<synthetic>", "void/package.json") :=
       "/repo/app/node_modules/void/package.json";
     ("/repo/app/<synthetic>", "./described.js") := "/repo/app/described.js";
     ("/repo/app/<synthetic>", "./fn.js") := "/repo/app/fn.js";
     ("/repo/<synthetic>", "./shared.js") := "/repo/shared.js" ]}.

Definition node : Platform := Sample.platform resolutions documents modules.

Definition context : Context := {| startCwd := "/repo/app" |}.

Definition workspace : CliWorkspace := {| basePath := "/repo"; projects := ∅ |}.

(** A descriptor for the module that exports a number. *)
Definition answerInfo : SnuggeryBuilderInfo :=
  {| packageName := Some "$direct"; builderName := "./answer.js"; description := None;
     optionSchema := VBool true;
     implementationPath := "/repo/app/answer.js";
     implementationExport := None; isNx := None |}.

(** The same workspace with a project in it, for the metadata: the
    project has no source root, and an extension named [root]. *)
Definition app : Metadata.ProjectDefinition :=
  {| Metadata.root := "apps/app";
     Metadata.sourceRoot := None;
     Metadata.prefix := Some "app";
     Metadata.extensions := Some {[ "root" := VStr "elsewhere"; "tags" := VArray [VStr "ui"] ]};
     Metadata.targets := ∅ |}.

Definition described : Metadata.CliWorkspace :=
  {| Metadata.basePath := "/repo"; Metadata.projects := {[ "app" := app ]} |}.

End Monorepo.

(** * Properties *)

(** ** Splitting strings *)

Section Splitting.

Variable sep : ascii.

(** A string without the separator is its own single piece. *)
Lemma split_without s : includes sep s = false → split sep s = [s].
Proof.
  induction s as [|c s IH]; simpl; [reflexivity|].
  destruct (Ascii.eqb c sep); simpl; [discriminate|].
  intros H. rewrite (IH H). reflexivity.
Qed.

(** Every occurrence of the separator starts a new piece. *)
Lemma split_app a b :
  includes sep a = false →
  split sep (a +:+ String sep b) = a :: split sep b.
Proof.
  induction a as [|c a IH]; simpl.
  - intros _. rewrite Ascii.eqb_refl. reflexivity.
  - destruct (Ascii.eqb c sep); simpl; [discriminate|].
    intros H. rewrite (IH H). reflexivity.
Qed.

(** The first piece is the text before the first separator. *)
Lemma split_head s :
  ∃ pieces, split sep s = sliceTo (indexOf sep s) s :: pieces.
Proof.
  induction s as [|c s [pieces IH]]; simpl.
  - by exists [].
  - destruct (Ascii.eqb c sep); simpl; [by eexists|].
    rewrite IH. by eexists.
Qed.

Lemma sliceTo_without s : includes sep s = false → sliceTo (indexOf sep s) s = s.
Proof.
  induction s as [|c s IH]; simpl; [reflexivity|].
  destruct (Ascii.eqb c sep); simpl; [discriminate|].
  intros H. by rewrite (IH H).
Qed.

Lemma includes_sliceTo s : includes sep (sliceTo (indexOf sep s) s) = false.
Proof.
  induction s as [|c s IH]; simpl; [reflexivity|].
  destruct (Ascii.eqb c sep) eqn:E; simpl; [reflexivity|].
  by rewrite E, IH.
Qed.

End Splitting.

(** The two names [resolveBuilder] reads from a specifier with a colon:
    the text before the first colon, and the text from there to the next
    colon or, if there is none, to the end. *)
Lemma specifierParts_colon pkg rest :
  includes ":" pkg = false →
  specifierParts (pkg +:+ String ":" rest)
  = (pkg, Some (sliceTo (indexOf ":" rest) rest)).
Proof.
  intros H. unfold specifierParts, splitLimit.
  rewrite (split_app _ _ _ H).
  destruct (split_head ":" rest) as [pieces ->]. reflexivity.
Qed.

Lemma specifierParts_without spec :
  includes ":" spec = false → specifierParts spec = (spec, None).
Proof.
  intros H. unfold specifierParts, splitLimit.
  by rewrite (split_without _ _ H).
Qed.

(** ** Computations *)

Lemma bind_Return {A B} (k : A → M B) (m : M A) tr b :
  m ≫= k = (tr, Return b) →
  ∃ tr1 a tr2, m = (tr1, Return a) ∧ k a = (tr2, Return b) ∧ tr = tr1 ++ tr2.
Proof.
  unfold mbind, M_bind, bind. destruct m as [tr1 [a|e|]]; try discriminate.
  destruct (k a) as [tr2 o] eqn:E. intros [= <- ->]. by exists tr1, a, tr2.
Qed.

Lemma bind_outcome_Return {A B} (k : A → M B) (m : M A) b :
  outcome (m ≫= k) = Return b →
  ∃ a, outcome m = Return a ∧ outcome (k a) = Return b.
Proof.
  destruct (m ≫= k) as [tr o] eqn:E. simpl. intros ->.
  apply bind_Return in E as (tr1 & a & tr2 & -> & E & _).
  exists a. by rewrite E.
Qed.

Lemma bind_outcome {A B} (k : A → M B) (m : M A) a :
  outcome m = Return a → outcome (m ≫= k) = outcome (k a).
Proof.
  destruct m as [tr o]. simpl. intros ->. unfold mbind, M_bind, bind.
  by destruct (k a).
Qed.

Lemma bind_run {A B} (k : A → M B) (m : M A) tr a :
  m = (tr, Return a) → m ≫= k = (tr ++ trace (k a), outcome (k a)).
Proof. intros ->. unfold mbind, M_bind, bind. by destruct (k a). Qed.

(** ** The descriptor of a selected entry *)

Section Describe.

Context (P : Platform).

(** What the second half of [resolveBuilder] puts in a descriptor, read
    off the entry it was given. *)
Lemma describeBuilder_Return pkg bname path entry nx d :
  outcome (describeBuilder P pkg bname path entry nx) = Return d →
  packageName d = Some pkg ∧ builderName d = bname ∧ isNx d = nx ∧
  ∃ impl,
    propOf entry "implementation" = VStr impl ∧
    implementationPath d
      = join P (dirname P path) (sliceTo (indexOf "#" impl) impl) ∧
    implementationExport d
      = (if includes "#" impl then Some (sliceFrom (indexOf "#" impl + 1) impl)
         else None) ∧
    match propOf entry "schema" with
    | VBool b => optionSchema d = VBool b
    | VStr s =>
        require P (join P (dirname P path) s) = Some (optionSchema d)
        ∧ isJsonObject (optionSchema d) = true
    | _ => False
    end.
Proof.
  unfold describeBuilder.
  destruct (isJsonObject entry); simpl; [|discriminate].
  destruct (propOf entry "implementation") as [| | | |impl| | |]; simpl;
    try discriminate.
  destruct (propOf entry "schema") as [| |b| |s| | |]; simpl; try discriminate.
  - destruct (includes "#" impl) eqn:I; simpl; intros [= <-]; simpl;
      (repeat split; try done); exists impl; rewrite I; repeat split; try done.
    by rewrite sliceTo_without.
  - unfold requireModule.
    destruct (require P (join P (dirname P path) s)) as [schema|] eqn:R; simpl;
      [|discriminate].
    destruct (isJsonObject schema) eqn:J; simpl; [|discriminate].
    destruct (includes "#" impl) eqn:I; simpl; intros [= <-]; simpl;
      (repeat split; try done); exists impl; rewrite I; repeat split; try done.
    by rewrite sliceTo_without.
Qed.

End Describe.

(** ** Parsing the specifier *)

Lemma slice_at_separator sep s :
  includes sep s = true →
  s = sliceTo (indexOf sep s) s +:+ String sep (sliceFrom (indexOf sep s + 1) s).
Proof.
  induction s as [|c s IH]; simpl; [discriminate|].
  destruct (Ascii.eqb c sep) eqn:E; simpl.
  - intros _. apply Ascii.eqb_eq in E as ->. by destruct s.
  - intros H. rewrite (IH H) at 1. reflexivity.
Qed.

(** The two names read from a specifier with a colon, in terms of the
    specifier alone. *)
Lemma specifierParts_includes spec :
  includes ":" spec = true →
  specifierParts spec
  = (sliceTo (indexOf ":" spec) spec,
     Some (let remainder := sliceFrom (indexOf ":" spec + 1) spec in
           sliceTo (indexOf ":" remainder) remainder)).
Proof.
  intros H. rewrite (slice_at_separator _ _ H) at 1.
  apply specifierParts_colon, includes_sliceTo.
Qed.

(** A descriptor returned by either version of [resolveBuilder] carries
    the two names read from the specifier. *)
Lemma resolveBuilder_names P ctx ws fuel spec d :
  outcome (Host.resolveBuilder P ctx ws fuel spec) = Return d →
  ∃ bname, specifierParts spec = (default EmptyString (packageName d), Some bname)
           ∧ is_Some (packageName d) ∧ builderName d = bname.
Proof.
  unfold Host.resolveBuilder.
  destruct (specifierParts spec) as [pkg [bname|]]; [|discriminate].
  intros H. apply bind_outcome_Return in H as ([[path entry] nx] & _ & H).
  apply describeBuilder_Return in H as (-> & <- & _).
  by exists (builderName d).
Qed.

Lemma facade_resolveBuilder_names P resolver spec d :
  outcome (FacadeHost.resolveBuilder P resolver spec) = Return d →
  ∃ bname, specifierParts spec = (default EmptyString (packageName d), Some bname)
           ∧ is_Some (packageName d) ∧ builderName d = bname.
Proof.
  unfold FacadeHost.resolveBuilder.
  destruct (specifierParts spec) as [pkg [bname|]]; [|discriminate].
  intros H. apply bind_outcome_Return in H as ([[path entry] nx] & _ & H).
  apply describeBuilder_Return in H as (-> & <- & _).
  by exists (builderName d).
Qed.

(** C5, as the code has it: for a specifier with a colon, the package
    segment is the text before the first colon; the name segment is the
    text between the first colon and the next one, or the whole remainder
    when the remainder has no colon.  Whatever follows a second colon is
    dropped.  Both versions of [resolveBuilder] put exactly these two
    segments in the descriptor they return. *)
Theorem resolveBuilder_specifier_segments spec :
  includes ":" spec = true →
  let pkg := sliceTo (indexOf ":" spec) spec in
  let remainder := sliceFrom (indexOf ":" spec + 1) spec in
  let segment := sliceTo (indexOf ":" remainder) remainder in
  specifierParts spec = (pkg, Some segment)
  ∧ (includes ":" remainder = false → segment = remainder)
  ∧ (∀ P ctx ws fuel d,
       outcome (Host.resolveBuilder P ctx ws fuel spec) = Return d →
       packageName d = Some pkg ∧ builderName d = segment)
  ∧ (∀ P resolver d,
       outcome (FacadeHost.resolveBuilder P resolver spec) = Return d →
       packageName d = Some pkg ∧ builderName d = segment).
Proof.
  intros H pkg remainder segment.
  assert (E : specifierParts spec = (pkg, Some segment))
    by exact (specifierParts_includes spec H).
  split; [exact E|]. split; [apply sliceTo_without|].
  split.
  - intros P ctx ws fuel d R.
    apply resolveBuilder_names in R as (bname & E' & [p Hp] & <-).
    rewrite E, Hp in E'. simpl in E'. by injection E' as -> ->.
  - intros P resolver d R.
    apply facade_resolveBuilder_names in R as (bname & E' & [p Hp] & <-).
    rewrite E, Hp in E'. simpl in E'. by injection E' as -> ->.
Qed.

Lemma resolveBuilder_specifier_segments_witness :
  specifierParts "pkg:a:b" = ("pkg", Some "a").
Proof.
  exact (proj1 (resolveBuilder_specifier_segments "pkg:a:b" eq_refl)).
Defined.

(** C5 fails as stated: on [pkg:a:b] the remainder after the first colon
    is [a:b], yet the host looks up, finds and returns the builder [a]. *)
Lemma resolveBuilder_drops_after_second_colon :
  ∃ d, outcome (Host.resolveBuilder Sample.node Sample.context (Some Sample.workspace)
                  5 "pkg:a:b") = Return d
       ∧ sliceFrom (indexOf ":" "pkg:a:b" + 1) "pkg:a:b" = "a:b"
       ∧ builderName d = "a"
       ∧ builderName d ≠ "a:b".
Proof.
  eexists. split; [vm_compute; reflexivity|]. by repeat split.
Qed.

(** C6: a specifier without a colon is rejected with
    [InvalidBuilderSpecifiedError] before the host calls anything: no
    resolution, no [require], no [import] is made, in either version. *)
Theorem resolveBuilder_without_colon spec :
  includes ":" spec = false →
  ∀ P ctx ws fuel resolver,
    let rejected : M SnuggeryBuilderInfo :=
      ([], Throw (mkError InvalidBuilderSpecifiedError
             "Builders must list a collection, use $direct as collection if you want to use a builder directly")) in
    Host.resolveBuilder P ctx ws fuel spec = rejected
    ∧ FacadeHost.resolveBuilder P resolver spec = rejected.
Proof.
  intros H P ctx ws fuel resolver.
  unfold Host.resolveBuilder, FacadeHost.resolveBuilder.
  by rewrite (specifierParts_without _ H).
Qed.

Lemma resolveBuilder_without_colon_witness :
  trace (Host.resolveBuilder Sample.node Sample.context (Some Sample.workspace) 5 "pkg") = []
  ∧ ∃ msg, outcome (Host.resolveBuilder Sample.node Sample.context
                      (Some Sample.workspace) 5 "pkg")
           = Throw (mkError InvalidBuilderSpecifiedError msg).
Proof.
  destruct (resolveBuilder_without_colon "pkg" eq_refl Sample.node Sample.context
              (Some Sample.workspace) 5
              Sample.resolver) as [-> _].
  split; [reflexivity|]. eexists. reflexivity.
Defined.

(** C10: a descriptor returned by [resolveBuilder] never has a null
    [packageName]: it is the text of the specifier before its first colon,
    so for [$direct:path] it is the string [$direct] itself. *)
Theorem resolveBuilder_packageName_not_null P ctx ws resolver fuel spec d :
  outcome (Host.resolveBuilder P ctx ws fuel spec) = Return d
  ∨ outcome (FacadeHost.resolveBuilder P resolver spec) = Return d →
  packageName d = Some (sliceTo (indexOf ":" spec) spec)
  ∧ packageName d ≠ None
  ∧ ∀ path, spec = "$direct:" +:+ path → packageName d = Some "$direct".
Proof.
  intros R.
  assert (∃ bname, specifierParts spec = (default EmptyString (packageName d), Some bname)
                   ∧ is_Some (packageName d) ∧ builderName d = bname)
    as (bname & E & [p Hp] & _).
  { destruct R as [R|R];
      [by apply resolveBuilder_names in R|by apply facade_resolveBuilder_names in R]. }
  rewrite Hp in *. simpl in E.
  assert (I : includes ":" spec = true).
  { destruct (includes ":" spec) eqn:I; [done|].
    by rewrite (specifierParts_without _ I) in E. }
  pose proof (specifierParts_includes spec I) as E'.
  rewrite E in E'. injection E' as -> _.
  split; [done|]. split; [done|]. by intros path ->.
Qed.

Lemma resolveBuilder_packageName_not_null_witness :
  ∃ d, outcome (Host.resolveBuilder Sample.node Sample.context (Some Sample.workspace)
                  5 "$direct:./tools/build.js") = Return d
       ∧ packageName d = Some "$direct".
Proof.
  eexists. split; [vm_compute; reflexivity|].
  refine (proj2 (proj2 (resolveBuilder_packageName_not_null
            Sample.node Sample.context (Some Sample.workspace)
            Sample.resolver
            5 "$direct:./tools/build.js" _ (or_introl _))) "./tools/build.js" eq_refl).
  vm_compute. reflexivity.
Defined.

(** ** Options of a target *)

Section Options.

Context (workspace : option CliWorkspace).

(** The lookups make no call outside the host. *)
Lemma getTarget_pure t td :
  outcome (Host.getTarget workspace t) = Return td →
  Host.getTarget workspace t = ([], Return td).
Proof.
  unfold Host.getTarget, Host.getProject.
  destruct (workspace ≫= _) as [p|]; simpl; [|discriminate].
  destruct (targets p !! target t); simpl; [|discriminate].
  by intros [= ->].
Qed.

(** A copied property wins over the one the target had; the others stay. *)
Lemma assign_lookup (o source : JsonObject) key :
  assign o source !! key
  = match source !! key with
    | Some v => Some v
    | None => o !! key
    end.
Proof.
  unfold assign. rewrite lookup_union.
  destruct (source !! key), (o !! key); reflexivity.
Qed.

(** What the plain property read of a configuration finds. *)
Lemma readConfiguration_declared td cfgs n o :
  configurations td = Some cfgs → cfgs !! n = Some o →
  readConfiguration td n = plain o.
Proof.
  intros Hc Ho. unfold readConfiguration, lookupProperty.
  by rewrite Hc, lookup_fmap, Ho.
Qed.

Lemma readConfiguration_undeclared td n :
  ¬ declares td n →
  readConfiguration td n
  = (if configurations td is Some _ then inherited n else VUndefined).
Proof.
  unfold declares, readConfiguration, lookupProperty.
  destruct (configurations td) as [c|]; [|done]. simpl. rewrite lookup_fmap.
  destruct (c !! n) as [o|]; simpl; [|done].
  intros H. destruct H. by exists o.
Qed.

Lemma inherited_found key :
  isNullish (inherited key) = false ↔ key ∈ objectPrototypeKeys.
Proof.
  unfold inherited. case_bool_decide; [|done].
  by destruct (String.eqb key "__proto__").
Qed.

(** Nothing that is inherited has a property that [Object.assign] copies. *)
Lemma inherited_props key : enumerableProps (inherited key) = ∅.
Proof.
  unfold inherited. case_bool_decide; [|done].
  by destruct (String.eqb key "__proto__").
Qed.

(** The read finds something under the names the target declares and,
    when the target has configurations at all, under the names of the
    members of [Object.prototype]; under no other name. *)
Lemma readConfiguration_found td c :
  isNullish (readConfiguration td c) = false
  ↔ declares td c ∨ (is_Some (configurations td) ∧ c ∈ objectPrototypeKeys).
Proof.
  destruct (configurations td ≫= (fun m => m !! c)) as [o|] eqn:E.
  - destruct (configurations td) as [cfgs|] eqn:Hc; [|done]. simpl in E.
    rewrite (readConfiguration_declared _ _ _ _ Hc E). simpl.
    split; [|done]. intros _. left. unfold declares. rewrite Hc. simpl. by exists o.
  - assert (D : ¬ declares td c).
    { intros [o Ho]. unfold declares in *. congruence. }
    rewrite (readConfiguration_undeclared _ _ D).
    destruct (configurations td) as [cfgs|]; simpl.
    + rewrite inherited_found. split; [by right|]. by intros [?|[_ ?]].
    + split; [done|]. intros [?|[[? [=]] _]]. done.
Qed.

(** When the read finds something under every name of the list, the loop
    copies what it finds over the options, one after the other, in list
    order. *)
Lemma overlay_all_found t td names : ∀ options,
  Forall (fun n => isNullish (readConfiguration td n) = false) names →
  Host.overlay t td names options
  = ([], Return (foldl (fun acc n =>
                          assign acc (enumerableProps (readConfiguration td n)))
                   options names)).
Proof.
  intros options Hn. revert options.
  induction Hn as [|n names F _ IH]; intros options; simpl; [reflexivity|].
  rewrite F. apply IH.
Qed.

(** When the target has every name of the list, the loop copies the
    configurations over the options one after the other, in list order. *)
Lemma overlay_all_declared t td cfgs names : ∀ options,
  configurations td = Some cfgs →
  Forall (declares td) names →
  Host.overlay t td names options
  = ([], Return (foldl (fun acc n => assign acc (default ∅ (cfgs !! n))) options names)).
Proof.
  intros options Hc Hn. revert options.
  induction Hn as [|n names [o Ho] _ IH]; intros options; simpl; [reflexivity|].
  rewrite Hc in Ho. simpl in Ho.
  rewrite (readConfiguration_declared _ _ _ _ Hc Ho), Ho. simpl. apply IH.
Qed.

(** The loop stops at the first name under which the read finds nothing. *)
Lemma overlay_first_missing t td pre c post options :
  Forall (fun n => isNullish (readConfiguration td n) = false) pre →
  isNullish (readConfiguration td c) = true →
  Host.overlay t td (pre ++ c :: post) options = ([], Throw (unknownConfiguration t c)).
Proof.
  intros Hpre Hc. revert options.
  induction Hpre as [|n pre F _ IH]; intros options; simpl.
  - by rewrite Hc.
  - rewrite F. apply IH.
Qed.

(** What a fold of [assign] leaves under a key no configuration has. *)
Lemma overlay_fold_untouched (cfgs : gmap string JsonObject) key names : ∀ acc,
  Forall (fun n => default ∅ (cfgs !! n) !! key = None) names →
  foldl (fun acc n => assign acc (default ∅ (cfgs !! n))) acc names !! key = acc !! key.
Proof.
  induction names as [|n names IH]; intros acc H; simpl; [done|].
  inversion H as [|? ? Hn Hr]; subst. rewrite (IH _ Hr), assign_lookup. by rewrite Hn.
Qed.

(** The base options the loop starts from are a copy of those of the
    target. *)
Lemma base_options (td : TargetDefinition) :
  match options td with Some o => assign ∅ o | None => ∅ end = default ∅ (options td).
Proof.
  destruct (options td) as [o|]; [|done]. unfold assign. simpl.
  by rewrite (right_id_L ∅ (∪)).
Qed.

End Options.

(** C9: a target that does not declare [constructor], or any other name
    under which [Object.prototype] has a member, has no configuration of
    that name; yet [getOptionsForTarget] raises no
    [UnknownConfigurationError] when the configuration list names it: as
    soon as the target has a [configurations] object, the read
    [configurations?.[name]] finds the inherited member, nothing is copied
    from it, and the base options are returned as if no configuration had
    been asked for. *)
Theorem getOptionsForTarget_inherited_configuration workspace t td cfgs c :
  outcome (Host.getTarget workspace t) = Return td →
  configurations td = Some cfgs →
  configuration t = Some c →
  c ∈ objectPrototypeKeys →
  ¬ declares td c →
  Host.getOptionsForTarget workspace t = ([], Return (default ∅ (options td)))
  ∧ Host.getOptionsForTarget workspace t ≠ ([], Throw (unknownConfiguration t c)).
Proof.
  intros Ht Hc Hn Hk Hd.
  assert (E : Host.getOptionsForTarget workspace t
              = ([], Return (default ∅ (options td)))).
  { assert (S : split "," c = [c]).
    { repeat (apply elem_of_cons in Hk as [->|Hk]; [reflexivity|]).
      by apply elem_of_nil in Hk. }
    unfold Host.getOptionsForTarget.
    rewrite (getTarget_pure _ _ _ Ht), Hn, S. unfold mbind, M_bind, bind.
    rewrite overlay_all_found.
    - simpl. rewrite (readConfiguration_undeclared _ _ Hd), Hc, inherited_props.
      rewrite base_options. unfold assign. by rewrite (left_id_L ∅ (∪)).
    - constructor; [|constructor]. apply readConfiguration_found. right.
      split; [by rewrite Hc|done]. }
  split; [exact E|]. by rewrite E.
Qed.

Lemma getOptionsForTarget_inherited_configuration_witness :
  ¬ declares Sample.buildTarget "constructor"
  ∧ Host.getOptionsForTarget (Some Sample.workspace)
      (mkTarget "app" "build" (Some "constructor"))
    = ([], Return {[ "a" := VNum 1; "b" := plain {[ "x" := VNum 1 ]} ]}).
Proof.
  assert (D : ¬ declares Sample.buildTarget "constructor").
  { intros [o Ho]. vm_compute in Ho. discriminate. }
  split; [exact D|].
  refine (proj1 (getOptionsForTarget_inherited_configuration (Some Sample.workspace)
                   (mkTarget "app" "build" (Some "constructor")) Sample.buildTarget
                   _ "constructor" eq_refl eq_refl eq_refl _ D)).
  apply elem_of_cons. by left.
Defined.

(** C4: the configurations of the list are copied over the base options
    one after the other, in list order, key by key: a key has the value
    that the last listed configuration with that key gives it, whatever the
    base options and the configurations before it say, and the value is
    taken as it is, an object as a whole; a key that no listed configuration
    has keeps the value of the base options.  So with base options
    [{a:1, b:{x:1}}], configurations [c1 = {b:{y:1}}] and [c2 = {a:2}], and
    the configuration list [c1,c2], [getOptionsForTarget] returns exactly
    [{a:2, b:{y:1}}]: the [x] of [b] is gone. *)
Theorem getOptionsForTarget_shallow_overlay workspace t td cfgs names :
  outcome (Host.getTarget workspace t) = Return td →
  configurations td = Some cfgs →
  configuration t = Some names →
  Forall (fun n => is_Some (cfgs !! n)) (split "," names) →
  ∃ result,
    Host.getOptionsForTarget workspace t = ([], Return result)
    ∧ (∀ key pre c post o v,
         split "," names = pre ++ c :: post →
         cfgs !! c = Some o → o !! key = Some v →
         Forall (fun n => default ∅ (cfgs !! n) !! key = None) post →
         result !! key = Some v)
    ∧ (∀ key,
         Forall (fun n => default ∅ (cfgs !! n) !! key = None) (split "," names) →
         result !! key = default ∅ (options td) !! key)
    ∧ (options td = Some {[ "a" := VNum 1; "b" := plain {[ "x" := VNum 1 ]} ]} →
       cfgs !! "c1" = Some {[ "b" := plain {[ "y" := VNum 1 ]} ]} →
       cfgs !! "c2" = Some {[ "a" := VNum 2 ]} →
       names = "c1,c2" →
       result = {[ "a" := VNum 2; "b" := plain {[ "y" := VNum 1 ]} ]}).
Proof.
  intros Ht Hc Hn Hd.
  assert (D : Forall (declares td) (split "," names)).
  { eapply Forall_impl; [exact Hd|]. intros n [o Ho]. exists o.
    by rewrite Hc. }
  eexists. split; [|split; [|split]].
  - unfold Host.getOptionsForTarget.
    rewrite (getTarget_pure _ _ _ Ht), Hn. unfold mbind, M_bind, bind.
    rewrite (overlay_all_declared _ _ _ _ _ Hc D). reflexivity.
  - intros key pre c post o v E Ho Hv Hp. rewrite E, foldl_app. simpl.
    rewrite (overlay_fold_untouched _ _ _ _ Hp), assign_lookup, Ho. simpl.
    by rewrite Hv.
  - intros key Hk. by rewrite (overlay_fold_untouched _ _ _ _ Hk), base_options.
  - intros Ho H1 H2 ->. rewrite Ho.
    change (split "," "c1,c2") with ["c1"; "c2"]. simpl. rewrite H1, H2. simpl.
    unfold assign. by vm_compute.
Qed.

Lemma getOptionsForTarget_shallow_overlay_witness :
  Host.getOptionsForTarget (Some Sample.workspace) (mkTarget "app" "build" (Some "c1,c2"))
  = ([], Return {[ "a" := VNum 2; "b" := plain {[ "y" := VNum 1 ]} ]})
  ∧ (∃ result,
       Host.getOptionsForTarget (Some Sample.workspace)
         (mkTarget "app" "serve" (Some "dev,ci")) = ([], Return result)
       ∧ result !! "port" = Some (VNum 3)
       ∧ result !! "open" = Some (VBool true)
       ∧ result !! "host" = Some (VStr "localhost"))
  ∧ (∃ result,
       Host.getOptionsForTarget (Some Sample.workspace)
         (mkTarget "app" "serve" (Some "ci,dev")) = ([], Return result)
       ∧ result !! "port" = Some (VNum 2)).
Proof.
  split; [|split].
  - destruct (getOptionsForTarget_shallow_overlay (Some Sample.workspace)
                (mkTarget "app" "build" (Some "c1,c2")) Sample.buildTarget
                {[ "c1" := {[ "b" := plain {[ "y" := VNum 1 ]} ]};
                   "c2" := {[ "a" := VNum 2 ]} ]} "c1,c2")
      as (result & E & _ & _ & I).
    + reflexivity.
    + reflexivity.
    + reflexivity.
    + repeat constructor; eexists; vm_compute; reflexivity.
    + rewrite E, I; reflexivity.
  - destruct (getOptionsForTarget_shallow_overlay (Some Sample.workspace)
                (mkTarget "app" "serve" (Some "dev,ci")) Sample.serveTarget
                {[ "dev" := {[ "port" := VNum 2; "open" := VBool true ]};
                   "ci" := {[ "port" := VNum 3 ]} ]} "dev,ci")
      as (result & E & L & B & _).
    + reflexivity.
    + reflexivity.
    + reflexivity.
    + repeat constructor; eexists; vm_compute; reflexivity.
    + exists result. split; [exact E|]. split; [|split].
      * apply (L "port" ["dev"] "ci" [] {[ "port" := VNum 3 ]} (VNum 3));
          [reflexivity..|constructor].
      * apply (L "open" [] "dev" ["ci"] {[ "port" := VNum 2; "open" := VBool true ]}
                 (VBool true)); [reflexivity..|].
        repeat constructor.
      * rewrite (B "host"); [reflexivity|]. repeat constructor.
  - destruct (getOptionsForTarget_shallow_overlay (Some Sample.workspace)
                (mkTarget "app" "serve" (Some "ci,dev")) Sample.serveTarget
                {[ "dev" := {[ "port" := VNum 2; "open" := VBool true ]};
                   "ci" := {[ "port" := VNum 3 ]} ]} "ci,dev")
      as (result & E & L & _).
    + reflexivity.
    + reflexivity.
    + reflexivity.
    + repeat constructor; eexists; vm_compute; reflexivity.
    + exists result. split; [exact E|].
      apply (L "port" ["ci"] "dev" [] {[ "port" := VNum 2; "open" := VBool true ]}
               (VNum 2)); [reflexivity..|constructor].
Defined.

(** ** Loading an implementation *)

Section Loading.

Context (P : Platform).

Lemma import_selected info exports handler :
  importModule P (implementationPath info) = inr exports →
  tryCatch (module ← import P (implementationPath info); ret (selectExport info module))
    handler
  = ([Imported (implementationPath info)], Return (selectExport info exports)).
Proof. intros H. unfold import. rewrite H. reflexivity. Qed.

Lemma marksNx_cli schema :
  marksNx schema ↔
  typeofObject schema = true ∧ isNullish schema = false
  ∧ (if propOf schema "cli" is VStr s then String.eqb s "nx" else false) = true.
Proof.
  split.
  - intros (sym & o & -> & H). simpl. by rewrite H.
  - intros (T & N & H). destruct schema; try discriminate.
    exists builderSymbol, props. split; [done|]. simpl in H.
    destruct (props !! "cli") as [[]|]; try discriminate.
    by apply String.eqb_eq in H as ->.
Qed.

(** The condition never calls out of the host, and it holds exactly under
    [adapts]. *)
Lemma isExecutor_trace info : trace (isExecutor info) = [].
Proof.
  unfold isExecutor, getProp.
  repeat case_bool_decide; simpl; try done.
  destruct (typeofObject _); simpl; [|done].
  by destruct (isNullish _).
Qed.

Lemma isExecutor_true info : outcome (isExecutor info) = Return true ↔ adapts info.
Proof.
  unfold isExecutor, adapts, getProp. split.
  - case_bool_decide; [by left|]. case_bool_decide; simpl; [|discriminate].
    destruct (typeofObject _) eqn:T; simpl; [|discriminate].
    destruct (isNullish _) eqn:N; simpl; [discriminate|].
    intros [= C]. right. split; [done|]. by apply marksNx_cli.
  - intros [->|[F M]]; [done|]. apply marksNx_cli in M as (T & N & C).
    case_bool_decide; [done|]. case_bool_decide; [|done].
    rewrite T, N. simpl. by rewrite C.
Qed.

Lemma isExecutor_run info b :
  outcome (isExecutor info) = Return b → isExecutor info = ([], Return b).
Proof.
  intros H. pose proof (isExecutor_trace info) as T.
  destruct (isExecutor info) as [tr o]. simpl in *. by subst.
Qed.

Lemma isExecutor_false info :
  ¬ adapts info → (isNx info = None → optionSchema info ≠ VNull) →
  isExecutor info = ([], Return false).
Proof.
  intros A S. apply isExecutor_run.
  destruct (outcome (isExecutor info)) as [[]| |] eqn:E; try done.
  - by apply isExecutor_true in E.
  - exfalso. revert E. unfold isExecutor, getProp.
    repeat case_bool_decide; simpl; try done.
    destruct (optionSchema info) eqn:O; simpl; try done.
    destruct (isNx info) as [[]|]; try done. by destruct S.
  - exfalso. revert E. unfold isExecutor, getProp.
    repeat case_bool_decide; simpl; try done.
    destruct (typeofObject _); simpl; [|done].
    by destruct (isNullish _).
Qed.

(** Both versions of [loadBuilder], once the import has gone well, reduce
    to what follows the adapter condition. *)
Lemma loadBuilder_loaded workspace info exports :
  importModule P (implementationPath info) = inr exports →
  isNullish (selectExport info exports) = false →
  ∀ b, isExecutor info = ([], Return b) →
  Host.loadBuilder P workspace info
  = (if b then
       ([Imported (implementationPath info); Converted (selectExport info exports)],
        Return (makeExecutorIntoBuilder P (selectExport info exports) workspace))
     else if truthy (symbolOf (selectExport info exports)) then
       ([Imported (implementationPath info)], Return (selectExport info exports))
     else
       ([Imported (implementationPath info)],
        Throw (mkError InvalidBuilderError
          ("Implementation for builder " +:+ quoted (builderName info) +:+ " in package "
           +:+ quoted (printed (packageName info)) +:+ " is not a builder")))).
Proof.
  intros I N b E. unfold Host.loadBuilder.
  rewrite (bind_run _ _ _ _ (import_selected _ _ _ I)), N, E.
  destruct b; [reflexivity|]. simpl.
  by destruct (truthy _).
Qed.

Lemma facade_loadBuilder_loaded workspace info exports :
  importModule P (implementationPath info) = inr exports →
  isNullish (selectExport info exports) = false →
  ∀ b, isExecutor info = ([], Return b) →
  FacadeHost.loadBuilder P workspace info
  = (if b then
       ([Imported (implementationPath info); Converted (selectExport info exports)],
        Return (WorkspaceFacade.convertExecutorIntoBuilder workspace
                  (selectExport info exports)))
     else
       ([Imported (implementationPath info)],
        outcome (tagged ← FacadeHost.isBuilder (selectExport info exports);
                 if negb tagged then
                   throw (mkError InvalidBuilderError
                     ("Implementation for builder " +:+ quoted (builderName info)
                      +:+ " in package " +:+ quoted (printed (packageName info))
                      +:+ " is not a builder"))
                 else ret (selectExport info exports)))).
Proof.
  intros I N b E. unfold FacadeHost.loadBuilder.
  rewrite (bind_run _ _ _ _ (import_selected _ _ _ I)), N, E.
  destruct b; [reflexivity|]. simpl.
  destruct (selectExport info exports) as [| | | | | |[t|] ?|? [t|]]; simpl; try done;
    by destruct (truthy t).
Qed.

(** Without the adapter condition, neither version calls anything but the
    import. *)
Lemma loadBuilder_not_converted workspace facade info exports :
  importModule P (implementationPath info) = inr exports →
  isNullish (selectExport info exports) = false →
  ¬ adapts info →
  trace (Host.loadBuilder P workspace info) = [Imported (implementationPath info)]
  ∧ trace (FacadeHost.loadBuilder P facade info) = [Imported (implementationPath info)].
Proof.
  intros I N A.
  destruct (isExecutor info) as [tr o] eqn:E.
  pose proof (isExecutor_trace info) as T. rewrite E in T. simpl in T. subst tr.
  destruct o as [b| |].
  - assert (b = false) as ->.
    { destruct b; [|done]. destruct A. apply isExecutor_true. by rewrite E. }
    rewrite (loadBuilder_loaded _ _ _ I N _ E), (facade_loadBuilder_loaded _ _ _ I N _ E).
    split; [by destruct (truthy _)|done].
  - unfold Host.loadBuilder, FacadeHost.loadBuilder.
    by rewrite (bind_run _ _ _ _ (import_selected _ _ _ I)),
               (bind_run _ _ _ _ (import_selected _ _ _ I)), N, E.
  - unfold Host.loadBuilder, FacadeHost.loadBuilder.
    by rewrite (bind_run _ _ _ _ (import_selected _ _ _ I)),
               (bind_run _ _ _ _ (import_selected _ _ _ I)), N, E.
Qed.

(** C3: once the implementation is loaded, [loadBuilder] hands it to the
    executor adapter exactly when [isNx] is true, or [isNx] is not false and
    the option schema is an object with [cli === 'nx']; with [isNx] false
    the adapter is never called, whatever the schema says.  In both
    versions of the host. *)
Theorem loadBuilder_adapter_decision workspace facade info exports :
  importModule P (implementationPath info) = inr exports →
  isNullish (selectExport info exports) = false →
  let implementation := selectExport info exports in
  let converted (run : M Value) := Converted implementation ∈ trace run in
  (converted (Host.loadBuilder P workspace info) ↔ adapts info)
  ∧ (converted (FacadeHost.loadBuilder P facade info) ↔ adapts info)
  ∧ (adapts info →
     outcome (Host.loadBuilder P workspace info)
     = Return (makeExecutorIntoBuilder P implementation workspace)
     ∧ outcome (FacadeHost.loadBuilder P facade info)
       = Return (WorkspaceFacade.convertExecutorIntoBuilder facade implementation))
  ∧ (isNx info = Some false →
     ¬ adapts info
     ∧ ∀ v, (Converted v ∉ trace (Host.loadBuilder P workspace info))
            ∧ (Converted v ∉ trace (FacadeHost.loadBuilder P facade info))).
Proof.
  intros I N implementation converted. unfold converted.
  assert (Yes : adapts info →
                (Host.loadBuilder P workspace info
                 = ([Imported (implementationPath info); Converted implementation],
                    Return (makeExecutorIntoBuilder P implementation workspace)))
                ∧ (FacadeHost.loadBuilder P facade info
                   = ([Imported (implementationPath info); Converted implementation],
                      Return (WorkspaceFacade.convertExecutorIntoBuilder facade
                                implementation)))).
  { intros A. apply isExecutor_true, isExecutor_run in A.
    by rewrite (loadBuilder_loaded _ _ _ I N _ A),
               (facade_loadBuilder_loaded _ _ _ I N _ A). }
  assert (No : ¬ adapts info →
               ∀ v, (Converted v ∉ trace (Host.loadBuilder P workspace info))
                    ∧ (Converted v ∉ trace (FacadeHost.loadBuilder P facade info))).
  { intros A v.
    destruct (loadBuilder_not_converted workspace facade _ _ I N A) as [-> ->].
    split; intros H; inversion H as [|? ? ? H']; inversion H'. }
  assert (D : adapts info ∨ ¬ adapts info).
  { destruct (outcome (isExecutor info)) as [[]| |] eqn:E;
      [left; by apply isExecutor_true|right..];
      intros A; apply isExecutor_true in A; congruence. }
  split; [|split; [|split]].
  - split.
    + intros C. destruct D as [A|A]; [done|]. by destruct (proj1 (No A implementation)).
    + intros A. destruct (Yes A) as [-> _]. simpl. by right; left.
  - split.
    + intros C. destruct D as [A|A]; [done|]. by destruct (proj2 (No A implementation)).
    + intros A. destruct (Yes A) as [_ ->]. simpl. by right; left.
  - intros A. by destruct (Yes A) as [-> ->].
  - intros F.
    assert (A : ¬ adapts info) by (intros [A|[A _]]; congruence).
    split; [done|]. by apply No.
Qed.

End Loading.

Lemma loadBuilder_adapter_decision_witness :
  Converted (VFunction "run" None)
  ∈ trace (Host.loadBuilder Sample.node (Some Sample.workspace) Sample.fooInfo).
Proof.
  refine (proj2 (proj1 (loadBuilder_adapter_decision Sample.node (Some Sample.workspace)
            Sample.facade Sample.fooInfo {[ "run" := VFunction "run" None ]} _ _)) _).
  - reflexivity.
  - reflexivity.
  - left. reflexivity.
Defined.

(** C2, as the code has it: when [isNx] is false, or null with an option
    schema that is neither null nor an object with [cli === 'nx'], and the
    descriptor names no export, a module whose default export carries a
    truthy [BuilderSymbol] has that very value returned by [loadBuilder];
    the adapter is not called. *)
Theorem loadBuilder_returns_tagged_default P workspace facade info exports implementation :
  isNx info ≠ Some true →
  (isNx info = None → optionSchema info ≠ VNull ∧ ¬ marksNx (optionSchema info)) →
  implementationExport info = None →
  importModule P (implementationPath info) = inr exports →
  exports !! "default" = Some implementation →
  hasSymbol implementation = true →
  truthy (symbolOf implementation) = true →
  Host.loadBuilder P workspace info
  = ([Imported (implementationPath info)], Return implementation)
  ∧ FacadeHost.loadBuilder P facade info
    = ([Imported (implementationPath info)], Return implementation).
Proof.
  intros T S X I D B Y.
  assert (Sel : selectExport info exports = implementation).
  { unfold selectExport, defaultOrModule. rewrite X, D.
    by destruct implementation as [| | | | | |[]|? []]. }
  assert (N : isNullish (selectExport info exports) = false).
  { rewrite Sel. by destruct implementation as [| | | | | |[]|? []]. }
  assert (E : isExecutor info = ([], Return false)).
  { apply isExecutor_false.
    - intros [A|[F M]]; [done|]. destruct (isNx info) as [[]|]; try done.
      by destruct S.
    - intros O. by destruct S. }
  rewrite (loadBuilder_loaded P _ _ _ I N _ E),
          (facade_loadBuilder_loaded P _ _ _ I N _ E), Sel, Y.
  split; [done|]. f_equal.
  destruct implementation as [| | | | | |[]|? []]; try done; simpl in *; by rewrite Y.
Qed.

Lemma loadBuilder_returns_tagged_default_witness :
  Host.loadBuilder Sample.node (Some Sample.workspace) Sample.aInfo
  = ([Imported "/ws/node_modules/pkg/a.js"], Return (Sample.nativeBuilder "a")).
Proof.
  refine (proj1 (loadBuilder_returns_tagged_default Sample.node (Some Sample.workspace)
            Sample.facade Sample.aInfo {[ "default" := Sample.nativeBuilder "a" ]}
            (Sample.nativeBuilder "a") _ _ _ _ _ _ _));
    try reflexivity; discriminate.
Defined.

(** C2 fails as stated, twice.  [legacy:run] resolves to a descriptor
    whose [isNx] is null and whose module default-exports a builder-tagged
    value, yet [loadBuilder] passes that value to the adapter, because the
    schema says [cli: nx], and returns the adapter's result instead.
    [pkg:h] resolves to a descriptor whose [isNx] is false and whose module
    default-exports a builder-tagged value, yet [loadBuilder] takes the
    export named in the descriptor and rejects it. *)
Lemma loadBuilder_wraps_tagged_default :
  (outcome (Host.resolveBuilder Sample.node Sample.context (Some Sample.workspace)
              5 "legacy:run") = Return Sample.legacyRunInfo
   ∧ isNx Sample.legacyRunInfo = None
   ∧ importModule Sample.node (implementationPath Sample.legacyRunInfo)
     = inr {[ "default" := Sample.nativeBuilder "run" ]}
   ∧ Host.isBuilder (Sample.nativeBuilder "run") = true
   ∧ Host.loadBuilder Sample.node (Some Sample.workspace) Sample.legacyRunInfo
     = ([Imported "/ws/node_modules/legacy/run.js";
         Converted (Sample.nativeBuilder "run")],
        Return (Sample.wrapExecutor (Sample.nativeBuilder "run") (Some Sample.workspace)))
   ∧ Sample.wrapExecutor (Sample.nativeBuilder "run") (Some Sample.workspace)
     ≠ Sample.nativeBuilder "run")
  ∧ (outcome (Host.resolveBuilder Sample.node Sample.context (Some Sample.workspace)
                5 "pkg:h") = Return Sample.hInfo
     ∧ isNx Sample.hInfo = Some false
     ∧ importModule Sample.node (implementationPath Sample.hInfo)
       = inr {[ "default" := Sample.nativeBuilder "both";
                "helper" := VFunction "helper" None ]}
     ∧ Host.isBuilder (Sample.nativeBuilder "both") = true
     ∧ ∃ msg, outcome (Host.loadBuilder Sample.node (Some Sample.workspace) Sample.hInfo)
              = Throw (mkError InvalidBuilderError msg)).
Proof.
  split.
  - repeat split; try (vm_compute; reflexivity).
    intros H. apply (f_equal (fun v => propOf v "handler")) in H.
    vm_compute in H. discriminate.
  - repeat split; try (vm_compute; reflexivity).
    eexists. vm_compute. reflexivity.
Qed.

(** ** Loading a manifest *)

Section Manifest.

Context (P : Platform).

(** The two resolution attempts of [loadBuilderJson] in one base. *)
Lemma resolve_start base pkg :
  ∃ tr,
    tryCatch (Some <$> requireResolve P (join P base "<synthetic>")
                         (join P pkg "package.json"))
      (fun _ => tryCatch (Some <$> requireResolve P (join P base "<synthetic>") pkg)
                  (fun _ => ret None))
    = (tr, Return (startJsonPath P base pkg)).
Proof.
  unfold startJsonPath, requireResolve.
  destruct (resolve _ (join P pkg "package.json")); [by eexists|].
  destruct (resolve _ pkg); by eexists.
Qed.

(** More fuel does not change a chain of manifests that has ended. *)
Lemma followBuilders_more_fuel fuel0 : ∀ fuel origin path doc tr r,
  Host.followBuilders P fuel0 origin path doc = (tr, Return r) →
  (fuel0 ≤ fuel)%nat →
  Host.followBuilders P fuel origin path doc = (tr, Return r).
Proof.
  induction fuel0 as [|fuel0 IH]; intros fuel origin path doc tr r.
  - destruct fuel as [|fuel]; [done|]. simpl. unfold getProp.
    destruct (isNullish doc); [done|]. simpl.
    by destruct (propOf doc "builders").
  - intros H L. destruct fuel as [|fuel]; [lia|]. revert H. simpl. unfold getProp.
    destruct (isNullish doc); [done|]. simpl.
    destruct (propOf doc "builders"); try done.
    unfold requireFrom.
    destruct (load _ _) as [doc'|]; simpl; [|done].
    destruct (Host.followBuilders P fuel0 _ _ doc') as [tr' [r'| |]] eqn:E;
      try done.
    rewrite (IH fuel _ _ _ _ _ E); [done|lia].
Qed.

(** Where a chain ends, the [builders] field can be read and is not a
    string. *)
Lemma followBuilders_end fuel : ∀ origin path doc tr fpath fdoc,
  Host.followBuilders P fuel origin path doc = (tr, Return (fpath, fdoc)) →
  isNullish fdoc = false ∧ isString (propOf fdoc "builders") = false.
Proof.
  induction fuel as [|fuel IH]; intros origin path doc tr fpath fdoc; simpl;
    unfold getProp; destruct (isNullish doc) eqn:N; try done; simpl.
  - destruct (propOf doc "builders") eqn:B; try done; intros [= _ <- <-];
      by rewrite B.
  - destruct (propOf doc "builders") eqn:B; try (intros [= _ <- <-]; by rewrite B).
    unfold requireFrom.
    destruct (load _ _) as [doc'|]; simpl; [|done].
    destruct (Host.followBuilders P fuel _ _ doc') as [tr' [[p' d']| |]] eqn:E;
      try done.
    intros [= _ <- <-]. by eapply IH.
Qed.

(** A chain fails with an [InvalidBuilderError] or a [TypeError] only. *)
Lemma followBuilders_Throw fuel : ∀ origin path doc e,
  outcome (Host.followBuilders P fuel origin path doc) = Throw e →
  name e = InvalidBuilderError ∨ name e = TypeError.
Proof.
  induction fuel as [|fuel IH]; intros origin path doc e; simpl;
    unfold getProp; destruct (isNullish doc) eqn:N; simpl;
    try (intros [= <-]; by right).
  - by destruct (propOf doc "builders").
  - destruct (propOf doc "builders"); try done.
    unfold requireFrom.
    destruct (load _ _) as [doc'|]; simpl; [|intros [= <-]; by left].
    destruct (Host.followBuilders P fuel _ _ doc') as [tr' [r'| |]] eqn:E; try done.
    simpl. intros [= <-]. eapply IH. by rewrite E.
Qed.

(** The loop passes over the bases in which the package does not resolve,
    and the first base in which it does decides the result. *)
Lemma loadBuilderJsonIn_first fuel pkg spec skipped : ∀ base rest start,
  Forall (fun b => startJsonPath P b pkg = None) skipped →
  startJsonPath P base pkg = Some start →
  outcome (Host.loadBuilderJsonIn P fuel (skipped ++ base :: rest) pkg spec)
  = outcome (Host.loadManifest P fuel (join P base "<synthetic>") start pkg spec).
Proof.
  intros base rest start Hs Hb.
  induction Hs as [|b skipped Hn _ IH]; simpl.
  - destruct (resolve_start base pkg) as [tr E].
    rewrite (bind_run _ _ _ _ E), Hb. reflexivity.
  - destruct (resolve_start b pkg) as [tr E].
    rewrite (bind_run _ _ _ _ E), Hn. exact IH.
Qed.

Lemma loadBuilderJsonIn_none fuel pkg spec bases :
  Forall (fun b => startJsonPath P b pkg = None) bases →
  outcome (Host.loadBuilderJsonIn P fuel bases pkg spec)
  = Throw (mkError UnknownBuilderError
      ("Couldn't find builder configuration in " +:+ quoted pkg
       +:+ " for builder " +:+ quoted spec)).
Proof.
  induction 1 as [|b bases Hn _ IH]; simpl; [reflexivity|].
  destruct (resolve_start b pkg) as [tr E].
  rewrite (bind_run _ _ _ _ E), Hn. exact IH.
Qed.

(** Below a resolved package, the failures are [InvalidBuilderError]s and
    [TypeError]s. *)
Lemma loadManifest_Throw fuel origin start pkg spec e :
  outcome (Host.loadManifest P fuel origin start pkg spec) = Throw e →
  name e = InvalidBuilderError ∨ name e = TypeError.
Proof.
  unfold Host.loadManifest, requireFrom.
  destruct (load _ _) as [doc|]; simpl; [|intros [= <-]; by left].
  destruct (Host.followBuilders P fuel origin start doc) as [tr [[fpath fdoc]|e'|]] eqn:E;
    simpl; try done.
  - apply followBuilders_end in E as [N _]. unfold getProp. rewrite N. simpl.
    destruct (isNullish (propOf fdoc "builders")); simpl; [intros [= <-]; by left|].
    destruct (isJsonObject (propOf fdoc "builders")); simpl; [done|].
    intros [= <-]; by left.
  - intros [= <-]. eapply followBuilders_Throw. by rewrite E.
Qed.

Lemma loadBuilderJsonIn_unknown fuel pkg spec msg bases :
  outcome (Host.loadBuilderJsonIn P fuel bases pkg spec)
  = Throw (mkError UnknownBuilderError msg) →
  Forall (fun b => startJsonPath P b pkg = None) bases.
Proof.
  induction bases as [|b bases IH]; simpl; [constructor|].
  destruct (resolve_start b pkg) as [tr E].
  rewrite (bind_run _ _ _ _ E).
  destruct (startJsonPath P b pkg) as [start|] eqn:S; simpl.
  - intros H. by apply loadManifest_Throw in H as [H|H].
  - intros H. constructor; [done|]. by apply IH.
Qed.

(** A chain that ends at a document whose [builders] is not an object
    makes the manifest an invalid one. *)
Lemma loadManifest_malformed fuel0 fuel origin start pkg spec doc tr fpath fdoc :
  load (createRequire P origin) start = Some doc →
  Host.followBuilders P fuel0 origin start doc = (tr, Return (fpath, fdoc)) →
  (fuel0 ≤ fuel)%nat →
  isJsonObject (propOf fdoc "builders") = false →
  ∃ msg, outcome (Host.loadManifest P fuel origin start pkg spec)
         = Throw (mkError InvalidBuilderError msg).
Proof.
  intros L F Le B. unfold Host.loadManifest, requireFrom. rewrite L. simpl.
  rewrite (followBuilders_more_fuel _ _ _ _ _ _ _ F Le). simpl.
  apply followBuilders_end in F as [N _]. unfold getProp. rewrite N. simpl.
  destruct (isNullish (propOf fdoc "builders")); simpl; [by eexists|].
  rewrite B. simpl. by eexists.
Qed.

(** A chain that loads all along and comes to a document that is not
    [null] is the one the loop goes along. *)
Lemma chain_followBuilders origin path doc hops lastPath last :
  chain P origin path doc hops lastPath last →
  isNullish last = false →
  ∃ tr, Host.followBuilders P hops origin path doc = (tr, Return (lastPath, last)).
Proof.
  induction 1 as [path doc B|path doc next doc' hops lastPath last B L C IH];
    intros N.
  - exists []. simpl. unfold getProp. rewrite N. simpl.
    by destruct (propOf doc "builders").
  - destruct (IH N) as [tr E].
    assert (Nd : isNullish doc = false) by (by destruct doc).
    eexists. simpl. unfold getProp. rewrite Nd. simpl. rewrite B.
    unfold requireFrom. rewrite L. simpl. rewrite E. reflexivity.
Qed.

(** The two resolution attempts of [loadBuilderJson] in one base, with
    the calls they make. *)
Lemma resolve_start_calls base pkg :
  tryCatch (Some <$> requireResolve P (join P base "<synthetic>")
                       (join P pkg "package.json"))
    (fun _ => tryCatch (Some <$> requireResolve P (join P base "<synthetic>") pkg)
                (fun _ => ret None))
  = (resolveCalls P base pkg, Return (startJsonPath P base pkg)).
Proof.
  unfold startJsonPath, resolveCalls, requireResolve.
  destruct (resolve _ (join P pkg "package.json")); [done|].
  by destruct (resolve _ pkg).
Qed.

(** The calls of the loop: the resolution attempts in the bases it passes
    over and in the first base in which the package resolves, then what
    loading the manifest from there calls. *)
Lemma loadBuilderJsonIn_first_run fuel pkg spec skipped : ∀ base rest start,
  Forall (fun b => startJsonPath P b pkg = None) skipped →
  startJsonPath P base pkg = Some start →
  Host.loadBuilderJsonIn P fuel (skipped ++ base :: rest) pkg spec
  = (flat_map (fun b => resolveCalls P b pkg) skipped ++ resolveCalls P base pkg
     ++ trace (Host.loadManifest P fuel (join P base "<synthetic>") start pkg spec),
     outcome (Host.loadManifest P fuel (join P base "<synthetic>") start pkg spec)).
Proof.
  intros base rest start Hs Hb.
  induction Hs as [|b skipped Hn _ IH]; simpl.
  - by rewrite (bind_run _ _ _ _ (resolve_start_calls base pkg)), Hb.
  - rewrite (bind_run _ _ _ _ (resolve_start_calls b pkg)), Hn, IH. simpl.
    by rewrite <- app_assoc.
Qed.

End Manifest.

(** C8: when the package resolves from a base directory, the documents
    of its manifest chain all load, the last one is not [null], and its
    [builders] field is missing or not an object, [loadBuilderJson] fails
    with an [InvalidBuilderError]; and [loadBuilderJson] fails with an
    [UnknownBuilderError] exactly when the package resolves from none of
    the base directories. *)
Theorem loadBuilderJson_malformed_manifest
    P ctx ws pkg spec skipped base rest start doc hops fuel lastPath last :
  Host.basePaths ctx ws = skipped ++ base :: rest →
  Forall (fun b => startJsonPath P b pkg = None) skipped →
  startJsonPath P base pkg = Some start →
  load (createRequire P (join P base "<synthetic>")) start = Some doc →
  chain P (join P base "<synthetic>") start doc hops lastPath last →
  (hops ≤ fuel)%nat →
  isNullish last = false →
  isJsonObject (propOf last "builders") = false →
  (∃ msg, outcome (Host.loadBuilderJson P ctx ws fuel pkg spec)
          = Throw (mkError InvalidBuilderError msg))
  ∧ (∀ fuel' pkg' spec',
       (∃ msg, outcome (Host.loadBuilderJson P ctx ws fuel' pkg' spec')
               = Throw (mkError UnknownBuilderError msg))
       ↔ Forall (fun b => startJsonPath P b pkg' = None) (Host.basePaths ctx ws)).
Proof.
  intros Hb Hs Hr Hl Hc Hle Hn Hm. split.
  - destruct (chain_followBuilders P _ _ _ _ _ _ Hc Hn) as [tr Hf].
    unfold Host.loadBuilderJson. rewrite Hb.
    rewrite (loadBuilderJsonIn_first P _ _ _ _ _ _ _ Hs Hr).
    by eapply loadManifest_malformed.
  - intros fuel' pkg' spec'. unfold Host.loadBuilderJson. split.
    + intros [msg H]. by eapply loadBuilderJsonIn_unknown.
    + intros H. eexists. by apply loadBuilderJsonIn_none.
Qed.

Lemma loadBuilderJson_malformed_manifest_witness :
  ∃ msg, outcome (Host.loadBuilderJson Sample.node Sample.context
                    (Some Sample.workspace) 5 "broken" "broken:x")
         = Throw (mkError InvalidBuilderError msg).
Proof.
  eapply proj1.
  eapply (loadBuilderJson_malformed_manifest Sample.node Sample.context
            (Some Sample.workspace) "broken" "broken:x" [] "/ws" []
            "/ws/node_modules/broken/package.json"
            (plain {[ "builders" := VStr "./builders.json" ]}) 1 5
            "/ws/node_modules/broken/builders.json"
            (plain {[ "builders" := VNum 42 ]})).
  - vm_compute. reflexivity.
  - constructor.
  - vm_compute. reflexivity.
  - vm_compute. reflexivity.
  - eapply chain_hop; [reflexivity|vm_compute; reflexivity|].
    change (join Sample.node
              (dirname Sample.node "/ws/node_modules/broken/package.json")
              "./builders.json")
      with "/ws/node_modules/broken/builders.json".
    by apply chain_end.
  - lia.
  - reflexivity.
  - reflexivity.
Defined.

(** The manifest chain of [void] loads all along, and its last document
    is [null]: its [builders] field is missing, and [loadBuilderJson] fails
    with the [TypeError] of the read of [builders] on [null], not with an
    [InvalidBuilderError]. *)
Lemma loadBuilderJson_null_document :
  Host.basePaths Monorepo.context (Some Monorepo.workspace) = ["/repo/app"; "/repo"]
  ∧ startJsonPath Monorepo.node "/repo/app" "void"
    = Some "/repo/app/node_modules/void/package.json"
  ∧ load (createRequire Monorepo.node "/repo/app/<synthetic>")
      "/repo/app/node_modules/void/package.json"
    = Some (plain {[ "builders" := VStr "./builders.json" ]})
  ∧ chain Monorepo.node "/repo/app/<synthetic>"
      "/repo/app/node_modules/void/package.json"
      (plain {[ "builders" := VStr "./builders.json" ]}) 1
      "/repo/app/node_modules/void/builders.json" VNull
  ∧ isJsonObject (propOf VNull "builders") = false
  ∧ (∃ msg, outcome (Host.loadBuilderJson Monorepo.node Monorepo.context
                       (Some Monorepo.workspace) 5 "void" "void:x")
            = Throw (mkError TypeError msg))
  ∧ (∀ msg, outcome (Host.loadBuilderJson Monorepo.node Monorepo.context
                       (Some Monorepo.workspace) 5 "void" "void:x")
            ≠ Throw (mkError InvalidBuilderError msg)).
Proof.
  repeat split; try (vm_compute; reflexivity).
  - eapply chain_hop; [reflexivity|vm_compute; reflexivity|].
    change (join Monorepo.node
              (dirname Monorepo.node "/repo/app/node_modules/void/package.json")
              "./builders.json")
      with "/repo/app/node_modules/void/builders.json".
    by apply chain_end.
  - eexists. vm_compute. reflexivity.
  - intros msg. vm_compute. discriminate.
Qed.

(** ** Resolving a builder *)

Lemma hasOwnProperty_Some (o : JsonObject) key v :
  o !! key = Some v → Host.hasOwnProperty o key = true ∧ propOf (plain o) key = v.
Proof.
  intros H. unfold Host.hasOwnProperty. simpl. rewrite H.
  split; [by apply bool_decide_eq_true|done].
Qed.

(** C1: for a package name and an entry name without [:], the package
    name not being [$direct], when the manifest of the package has the
    entry name in its [builders] and in its [executors], [resolveBuilder]
    on the package name, a [:] and the entry name describes the executors
    entry and nothing else: the result is the descriptor (or the failure)
    that the executors entry gives with [isNx] true, so the path, the
    export and the schema of a returned descriptor are those of the
    executors entry; the builders entry does not occur in it. *)
Theorem resolveBuilder_prefers_executors
    P ctx ws fuel pkg bname tr path builders executors native entry :
  includes ":" pkg = false →
  includes ":" bname = false →
  pkg ≠ "$direct" →
  Host.loadBuilderJson P ctx ws fuel pkg (pkg +:+ ":" +:+ bname)
  = (tr, Return (path, builders, Some executors)) →
  builders !! bname = Some native →
  executors !! bname = Some entry →
  Host.resolveBuilder P ctx ws fuel (pkg +:+ ":" +:+ bname)
  = (tr ++ trace (describeBuilder P pkg bname path entry (Some true)),
     outcome (describeBuilder P pkg bname path entry (Some true)))
  ∧ ∀ d, outcome (Host.resolveBuilder P ctx ws fuel (pkg +:+ ":" +:+ bname)) = Return d →
         isNx d = Some true
         ∧ ∃ impl,
             propOf entry "implementation" = VStr impl
             ∧ implementationPath d
               = join P (dirname P path) (sliceTo (indexOf "#" impl) impl)
             ∧ implementationExport d
               = (if includes "#" impl
                  then Some (sliceFrom (indexOf "#" impl + 1) impl) else None)
             ∧ match propOf entry "schema" with
               | VBool b => optionSchema d = VBool b
               | VStr s =>
                   require P (join P (dirname P path) s) = Some (optionSchema d)
                   ∧ isJsonObject (optionSchema d) = true
               | _ => False
               end.
Proof.
  intros Hp Hn Hd. set (spec := pkg +:+ ":" +:+ bname). intros Hl Hb He.
  assert (Hs : specifierParts spec = (pkg, Some bname)).
  { subst spec. change (":" +:+ bname) with (String ":" bname).
    by rewrite (specifierParts_colon _ _ Hp), (sliceTo_without _ _ Hn). }
  assert (E : Host.resolveBuilder P ctx ws fuel spec
              = (tr ++ trace (describeBuilder P pkg bname path entry (Some true)),
                 outcome (describeBuilder P pkg bname path entry (Some true)))).
  { unfold Host.resolveBuilder. rewrite Hs.
    destruct (String.eqb pkg "$direct") eqn:D; [by apply String.eqb_eq in D|].
    destruct (hasOwnProperty_Some _ _ _ He) as [Ho Hv].
    match goal with
    | |- ?m ≫= _ = _ => assert (S : m = (tr, Return (path, entry, Some true)))
    end.
    { rewrite (bind_run _ _ _ _ Hl). simpl. rewrite Ho. simpl.
      rewrite He. simpl. by rewrite app_nil_r. }
    by rewrite (bind_run _ _ _ _ S). }
  split; [exact E|].
  intros d. rewrite E. simpl. intros H.
  by apply describeBuilder_Return in H as (_ & _ & ? & ?).
Qed.

Lemma resolveBuilder_prefers_executors_witness :
  outcome (Host.resolveBuilder Sample.node Sample.context (Some Sample.workspace)
             5 "pkg:foo") = Return Sample.fooInfo.
Proof.
  edestruct (resolveBuilder_prefers_executors Sample.node Sample.context
               (Some Sample.workspace) 5 "pkg" "foo") as [E _].
  - reflexivity.
  - reflexivity.
  - discriminate.
  - vm_compute. reflexivity.
  - vm_compute. reflexivity.
  - vm_compute. reflexivity.
  - change ("pkg" +:+ ":" +:+ "foo") with "pkg:foo" in E.
    rewrite E. vm_compute. reflexivity.
Defined.

(** The manifest of [colon] has the name [a:b] in both maps, and
    [resolveBuilder] on [colon:a:b] does not select the executors entry of
    [a:b]: it reads the name [a], finds it among the builders only, and
    returns the descriptor of that builder, with [isNx] false. *)
Lemma resolveBuilder_colon_in_name :
  ∃ tr path builders executors native entry d,
    Host.loadBuilderJson Monorepo.node Monorepo.context (Some Monorepo.workspace)
      5 "colon" "colon:a:b" = (tr, Return (path, builders, Some executors))
    ∧ builders !! "a:b" = Some native
    ∧ executors !! "a:b" = Some entry
    ∧ propOf entry "implementation" = VStr "./exec.js"
    ∧ Host.resolveBuilder Monorepo.node Monorepo.context (Some Monorepo.workspace)
        5 "colon:a:b" = (tr, Return d)
    ∧ builderName d = "a"
    ∧ isNx d = Some false
    ∧ implementationPath d = "/repo/app/node_modules/colon/a.js"
    ∧ implementationPath d ≠ "/repo/app/node_modules/colon/exec.js".
Proof.
  do 7 eexists.
  split; [vm_compute; reflexivity|].
  split; [vm_compute; reflexivity|].
  split; [vm_compute; reflexivity|].
  split; [vm_compute; reflexivity|].
  split; [vm_compute; reflexivity|].
  by repeat split.
Qed.

Section Direct.

Context (P : Platform).

Lemma resolveBuilderFromPathIn_first path skipped : ∀ base rest resolved,
  Forall (fun b => resolvesFrom P path b = None) skipped →
  resolvesFrom P path base = Some resolved →
  outcome (Host.resolveBuilderFromPathIn P (skipped ++ base :: rest) path)
  = outcome (Host.loadDirect P resolved path).
Proof.
  intros base rest resolved Hs Hb. unfold resolvesFrom in *.
  induction Hs as [|b skipped Hn _ IH]; simpl; unfold requireResolve.
  - rewrite Hb. simpl. by destruct (Host.loadDirect P resolved path).
  - rewrite Hn. simpl. rewrite <- IH.
    by destruct (Host.resolveBuilderFromPathIn P _ path).
Qed.

(** The entry made for a module that exports a builder. *)
Lemma loadDirect_builder resolved path exports sym props :
  importModule P resolved = inr exports →
  defaultOrModule exports = VObject (Some sym) props →
  truthy sym = true →
  outcome (Host.loadDirect P resolved path)
  = Return (resolved, plain {[ "schema" := VBool true;
                               "implementation" := VStr (basename P resolved) ]}).
Proof.
  intros I D T. unfold Host.loadDirect, import. rewrite I. simpl.
  rewrite D. simpl. unfold Host.isBuilder. simpl. by rewrite T.
Qed.

End Direct.

(** C7, as the code has it: for [$direct:X] with no colon in [X], when
    [X] resolves to a file whose name has no [#], and the value loaded from
    it is an object with a truthy [BuilderSymbol], [resolveBuilder] returns
    a descriptor with [optionSchema] true, the resolved path of [X] as
    [implementationPath], no [implementationExport] and [isNx] null.  The
    resolved path is one that [join] rebuilds from its [dirname] and
    [basename], as the absolute paths [require.resolve] answers are. *)
Theorem resolveBuilder_direct_builder
    P ctx ws fuel X skipped base rest resolved exports sym props :
  includes ":" X = false →
  Host.basePaths ctx ws = skipped ++ base :: rest →
  Forall (fun b => resolvesFrom P X b = None) skipped →
  resolvesFrom P X base = Some resolved →
  importModule P resolved = inr exports →
  defaultOrModule exports = VObject (Some sym) props →
  truthy sym = true →
  includes "#" (basename P resolved) = false →
  join P (dirname P resolved) (basename P resolved) = resolved →
  outcome (Host.resolveBuilder P ctx ws fuel ("$direct:" +:+ X))
  = Return {| packageName := Some "$direct";
              builderName := X;
              description := None;
              optionSchema := VBool true;
              implementationPath := resolved;
              implementationExport := None;
              isNx := None |}.
Proof.
  intros Hx Hb Hs Hr Hi Hd Ht Hh Hj.
  unfold Host.resolveBuilder.
  change ("$direct:" +:+ X) with ("$direct" +:+ String ":" X).
  rewrite (specifierParts_colon "$direct" X eq_refl), (sliceTo_without _ _ Hx).
  change (String.eqb "$direct" "$direct") with true. cbv iota.
  assert (R : outcome (Host.resolveBuilderFromPath P ctx ws X)
              = Return (resolved,
                        plain {[ "schema" := VBool true;
                                 "implementation" := VStr (basename P resolved) ]})).
  { unfold Host.resolveBuilderFromPath. rewrite Hb.
    rewrite (resolveBuilderFromPathIn_first P _ _ _ _ _ Hs Hr).
    by eapply loadDirect_builder. }
  match goal with
  | |- outcome (?m ≫= _) = _ =>
      assert (S : outcome m
                  = Return (resolved,
                            plain {[ "schema" := VBool true;
                                     "implementation" := VStr (basename P resolved) ]},
                            None))
  end.
  { by rewrite (bind_outcome _ _ _ R). }
  rewrite (bind_outcome _ _ _ S).
  unfold describeBuilder. simpl.
  rewrite lookup_insert_ne, lookup_singleton_eq by done.
  rewrite lookup_insert_eq, lookup_insert_ne, lookup_singleton_ne by done.
  simpl. rewrite Hh. simpl. by rewrite Hj.
Qed.

Lemma resolveBuilder_direct_builder_witness :
  outcome (Host.resolveBuilder Sample.node Sample.context (Some Sample.workspace)
             5 "$direct:./tools/build.js")
  = Return {| packageName := Some "$direct";
              builderName := "./tools/build.js";
              description := None;
              optionSchema := VBool true;
              implementationPath := "/ws/tools/build.js";
              implementationExport := None;
              isNx := None |}.
Proof.
  eapply (resolveBuilder_direct_builder Sample.node Sample.context
            (Some Sample.workspace) 5 "./tools/build.js" [] "/ws" []).
  - reflexivity.
  - vm_compute. reflexivity.
  - constructor.
  - vm_compute. reflexivity.
  - vm_compute. reflexivity.
  - vm_compute. reflexivity.
  - reflexivity.
  - vm_compute. reflexivity.
  - vm_compute. reflexivity.
Defined.

(** C7 fails as stated, twice.  The file [/ws/tools/b#c.js] exports a
    builder and [$direct:./tools/b#c.js] resolves to it, yet the descriptor
    takes [c.js] for an export name and [/ws/tools/b] for the path.  The
    file [/ws/tools/x:y.js] exports a builder and [./tools/x:y.js] resolves
    to it, yet for [$direct:./tools/x:y.js] the host resolves [./tools/x],
    and finds nothing. *)
Lemma resolveBuilder_direct_hash_in_file_name :
  (resolvesFrom Sample.node "./tools/b#c.js" "/ws" = Some "/ws/tools/b#c.js"
   ∧ Sample.defaultOrModule_of "/ws/tools/b#c.js" = Some (Sample.nativeBuilder "b#c")
   ∧ Host.isBuilder (Sample.nativeBuilder "b#c") = true
   ∧ ∃ d, outcome (Host.resolveBuilder Sample.node Sample.context
                     (Some Sample.workspace) 5 "$direct:./tools/b#c.js") = Return d
          ∧ implementationExport d = Some "c.js"
          ∧ implementationExport d ≠ None
          ∧ implementationPath d = "/ws/tools/b"
          ∧ implementationPath d ≠ "/ws/tools/b#c.js")
  ∧ (resolvesFrom Sample.node "./tools/x:y.js" "/ws" = Some "/ws/tools/x:y.js"
     ∧ Sample.defaultOrModule_of "/ws/tools/x:y.js" = Some (Sample.nativeBuilder "x:y")
     ∧ Host.isBuilder (Sample.nativeBuilder "x:y") = true
     ∧ Host.resolveBuilder Sample.node Sample.context (Some Sample.workspace) 5
         "$direct:./tools/x:y.js"
       = ([Resolved "/ws/<synthetic>" "./tools/x"],
          Throw (mkError UnknownBuilderError
                   ("Can't resolve builder " +:+ quoted "./tools/x")))).
Proof.
  split.
  - repeat split; try (vm_compute; reflexivity).
    eexists. split; [vm_compute; reflexivity|]. by repeat split.
  - repeat split; vm_compute; reflexivity.
Qed.

(** * Further properties *)

(** ** The base directories *)

Lemma setOrder_elem items : ∀ seen x,
  x ∈ setOrder seen items ↔ x ∈ items ∧ x ∉ seen.
Proof.
  induction items as [|y items IH]; intros seen x; simpl.
  - rewrite elem_of_nil. tauto.
  - case_bool_decide as Hy.
    + rewrite IH, elem_of_cons. split; [by intros [? ?]; split; [right|]|].
      intros [[->|H] Hs]; [done|by split].
    + rewrite !elem_of_cons, IH, elem_of_cons. split.
      * intros [->|[H Hs]]; [by split; [left|]|]. split; [by right|]. tauto.
      * intros [[->|H] Hs]; [by left|].
        destruct (decide (x = y)) as [->|Hn]; [by left|right]. split; [done|tauto].
Qed.

Lemma setOrder_NoDup items : ∀ seen, NoDup (setOrder seen items).
Proof.
  induction items as [|y items IH]; intros seen; simpl; [constructor|].
  case_bool_decide; [apply IH|]. constructor; [|apply IH].
  rewrite setOrder_elem, elem_of_cons. tauto.
Qed.

(** X1: the base directories of the two searches are the start directory
    first and then the base path of the workspace, if there is a workspace
    and its base path is another directory: no directory comes twice, and
    the workspace root the host reports is always one of them. *)
Theorem basePaths_candidates ctx ws :
  NoDup (Host.basePaths ctx ws)
  ∧ head (Host.basePaths ctx ws) = Some (startCwd ctx)
  ∧ (∀ b, b ∈ Host.basePaths ctx ws
          ↔ b = startCwd ctx ∨ ∃ w, ws = Some w ∧ b = basePath w)
  ∧ (∀ w, ws = Some w → basePath w = startCwd ctx →
          Host.basePaths ctx ws = [startCwd ctx])
  ∧ ∃ r, Host.getWorkspaceRoot ctx ws = ([], Return r) ∧ r ∈ Host.basePaths ctx ws.
Proof.
  unfold Host.basePaths, Host.getWorkspaceRoot.
  split; [apply setOrder_NoDup|].
  split; [by destruct ws|].
  split; [|split].
  - intros b. rewrite setOrder_elem. destruct ws as [w|].
    + rewrite !elem_of_cons, elem_of_nil. split.
      * intros [[->|[->|[]]] _]; [by left|right; by exists w].
      * intros [->|(w' & [= <-] & ->)]; tauto.
    + rewrite elem_of_cons, elem_of_nil. split.
      * intros [[->|[]] _]. by left.
      * intros [->|(w' & [=] & _)]. tauto.
  - intros w -> E. simpl. rewrite E.
    repeat case_bool_decide; try done.
    all: repeat match goal with
         | H : _ ∈ [] |- _ => by apply elem_of_nil in H
         | H : ?x ∉ [?x] |- _ => destruct H; by left
         end.
  - destruct ws as [w|]; eexists; (split; [reflexivity|]);
      rewrite setOrder_elem, elem_of_nil; (split; [simpl|tauto]).
    + by right; left.
    + by left.
Qed.

(** ** Targets and their options *)

(** Under which names the read of a configuration finds nothing. *)
Lemma readConfiguration_missing td c :
  isNullish (readConfiguration td c) = true
  ↔ ¬ declares td c ∧ (configurations td = None ∨ c ∉ objectPrototypeKeys).
Proof.
  pose proof (readConfiguration_found td c) as F.
  destruct (isNullish (readConfiguration td c)); split; try done.
  - intros _. split.
    { intros D. assert (true = false); [|done]. apply F. by left. }
    destruct (configurations td) as [cfgs|]; [right|by left].
    intros K. assert (true = false); [|done]. apply F. right. by split; [eexists|].
  - intros [D K]. destruct (proj1 F eq_refl) as [?|[[cfgs E] ?]]; [done|].
    destruct K as [K|K]; [congruence|done].
Qed.

(** The loop of [getOptionsForTarget] calls nothing, and it fails only
    with the error about the first listed name under which the read of a
    configuration finds nothing. *)
Lemma overlay_outcomes t td names : ∀ options,
  trace (Host.overlay t td names options) = []
  ∧ match outcome (Host.overlay t td names options) with
    | Return _ => Forall (fun c => isNullish (readConfiguration td c) = false) names
    | Throw e =>
        ∃ c, c ∈ names ∧ isNullish (readConfiguration td c) = true
             ∧ e = unknownConfiguration t c
    | Diverge => False
    end.
Proof.
  induction names as [|n names IH]; intros options; simpl; [by split|].
  destruct (isNullish (readConfiguration td n)) eqn:E.
  - split; [done|]. exists n. split; [by left|done].
  - match goal with
    | |- context [Host.overlay t td names ?o] => destruct (IH o) as [T O]
    end.
    split; [done|].
    destruct (outcome _) as [r|e|]; [|destruct O as (c & Hc & Hd & ->)|done].
    + by constructor.
    + exists c. split; [by right|done].
Qed.

(** X2: [getOptionsForTarget] calls nothing outside the host, and it
    fails in two ways only: with the [UnknownTargetError] of the target
    lookup, whatever the configuration list says, or, once the target is
    found, with the [UnknownConfigurationError] of a listed name that the
    target does not declare and under which nothing is inherited either:
    the target has no configurations at all, or the name is not that of a
    member of [Object.prototype].  When it returns, every listed name is a
    configuration of the target or, the target having configurations, the
    name of such a member. *)
Theorem getOptionsForTarget_outcomes workspace t :
  let names := match configuration t with Some c => split "," c | None => [] end in
  trace (Host.getOptionsForTarget workspace t) = []
  ∧ match outcome (Host.getOptionsForTarget workspace t) with
    | Return _ =>
        ∃ td, outcome (Host.getTarget workspace t) = Return td
              ∧ Forall (fun c => declares td c
                                 ∨ (is_Some (configurations td)
                                    ∧ c ∈ objectPrototypeKeys)) names
    | Throw e =>
        (outcome (Host.getTarget workspace t) = Throw e ∧ name e = UnknownTargetError)
        ∨ (∃ td c, outcome (Host.getTarget workspace t) = Return td
                   ∧ c ∈ names ∧ ¬ declares td c
                   ∧ (configurations td = None ∨ c ∉ objectPrototypeKeys)
                   ∧ e = unknownConfiguration t c)
    | Diverge => False
    end.
Proof.
  intros names. unfold Host.getOptionsForTarget.
  destruct (Host.getTarget workspace t) as [tr [td|e|]] eqn:G.
  - pose proof (getTarget_pure workspace t td) as Hp. rewrite G in Hp.
    specialize (Hp eq_refl). injection Hp as ->.
    unfold mbind, M_bind, bind.
    subst names.
    match goal with
    | |- context [Host.overlay t td ?l ?o] =>
        destruct (overlay_outcomes t td l o) as [T O];
        destruct (Host.overlay t td l o) as [tr' o'] eqn:E
    end.
    simpl in *. subst tr'. split; [done|].
    destruct o' as [r|e|]; [| |done].
    + exists td. split; [done|]. eapply Forall_impl; [exact O|].
      intros c. apply readConfiguration_found.
    + destruct O as (c & Hc & Hd & ->). right.
      apply readConfiguration_missing in Hd as [Hd Hk]. by exists td, c.
  - revert G. unfold Host.getTarget, Host.getProject.
    destruct (workspace ≫= _) as [p|]; simpl.
    + destruct (targets p !! target t); simpl; [done|].
      intros [= <- <-]. split; [done|]. by left.
    + intros [= <- <-]. split; [done|]. by left.
  - revert G. unfold Host.getTarget, Host.getProject.
    destruct (workspace ≫= _) as [p|]; simpl; [|done].
    by destruct (targets p !! target t).
Qed.

(** X26: the [UnknownConfigurationError] of [getOptionsForTarget] names
    the target, the project, and the first name of the list under which
    nothing is found, whatever comes after it in the list: a name that the
    target does not declare and that is not the name of a member of
    [Object.prototype], or any name the target does not declare when the
    target has no configurations. *)
Theorem getOptionsForTarget_first_missing workspace t td names pre c post :
  outcome (Host.getTarget workspace t) = Return td →
  configuration t = Some names →
  split "," names = pre ++ c :: post →
  Forall (fun n => declares td n
                   ∨ (is_Some (configurations td) ∧ n ∈ objectPrototypeKeys)) pre →
  ¬ declares td c →
  configurations td = None ∨ c ∉ objectPrototypeKeys →
  Host.getOptionsForTarget workspace t
  = ([], Throw (mkError UnknownConfigurationError
           ("Target " +:+ quoted (target t) +:+ " in project " +:+ quoted (project t)
            +:+ " doesn't have a configuration named " +:+ quoted c))).
Proof.
  intros Ht Hn E Hpre Hd Hk.
  unfold Host.getOptionsForTarget.
  rewrite (getTarget_pure _ _ _ Ht), Hn, E. unfold mbind, M_bind, bind.
  rewrite overlay_first_missing; [reflexivity| |].
  - eapply Forall_impl; [exact Hpre|]. intros n. apply readConfiguration_found.
  - by apply readConfiguration_missing.
Qed.

Lemma getOptionsForTarget_first_missing_witness :
  Host.getOptionsForTarget (Some Sample.workspace)
    (mkTarget "app" "build" (Some "c1,toString,zz,c2"))
  = ([], Throw (unknownConfiguration
                  (mkTarget "app" "build" (Some "c1,toString,zz,c2")) "zz")).
Proof.
  apply (getOptionsForTarget_first_missing (Some Sample.workspace)
           (mkTarget "app" "build" (Some "c1,toString,zz,c2")) Sample.buildTarget
           "c1,toString,zz,c2" ["c1"; "toString"] "zz" ["c2"]).
  - reflexivity.
  - reflexivity.
  - reflexivity.
  - constructor; [left; eexists; vm_compute; reflexivity|].
    constructor; [|constructor]. right. split; [by eexists|].
    apply list_elem_of_In. simpl. tauto.
  - intros [o Ho]. vm_compute in Ho. discriminate.
  - right. intros H. apply list_elem_of_In in H. simpl in H.
    repeat destruct H as [H|H]; try discriminate. done.
Defined.

(** X4: no configuration and an empty configuration are two things.
    Without a configuration list the base options are returned as they are
    (none: the empty object); with the empty string as list, the host
    looks for a configuration whose name is the empty string, and fails
    when the target has none. *)
Theorem getOptionsForTarget_empty_configuration workspace p n td :
  outcome (Host.getTarget workspace (mkTarget p n None)) = Return td →
  Host.getOptionsForTarget workspace (mkTarget p n None)
  = ([], Return (default ∅ (options td)))
  ∧ (¬ declares td EmptyString →
     Host.getOptionsForTarget workspace (mkTarget p n (Some EmptyString))
     = ([], Throw (mkError UnknownConfigurationError
              ("Target " +:+ quoted n +:+ " in project " +:+ quoted p
               +:+ " doesn't have a configuration named " +:+ quoted EmptyString)))).
Proof.
  intros Ht.
  assert (Ht' : outcome (Host.getTarget workspace (mkTarget p n (Some EmptyString)))
                = Return td) by exact Ht.
  split.
  - unfold Host.getOptionsForTarget. rewrite (getTarget_pure _ _ _ Ht).
    unfold mbind, M_bind, bind. simpl.
    destruct (options td) as [o|]; [|done]. unfold assign. simpl.
    by rewrite (right_id_L ∅ (∪)).
  - intros Hd. unfold Host.getOptionsForTarget. rewrite (getTarget_pure _ _ _ Ht').
    unfold mbind, M_bind, bind. simpl.
    rewrite (readConfiguration_undeclared _ _ Hd).
    by destruct (configurations td).
Qed.

Lemma getOptionsForTarget_empty_configuration_witness :
  Host.getOptionsForTarget (Some Sample.workspace) (mkTarget "app" "build" None)
  = ([], Return {[ "a" := VNum 1; "b" := plain {[ "x" := VNum 1 ]} ]})
  ∧ ∃ e, Host.getOptionsForTarget (Some Sample.workspace)
           (mkTarget "app" "build" (Some EmptyString)) = ([], Throw e)
         ∧ name e = UnknownConfigurationError.
Proof.
  destruct (getOptionsForTarget_empty_configuration (Some Sample.workspace)
              "app" "build" Sample.buildTarget eq_refl) as [E F].
  split; [exact E|]. eexists. split; [apply F|reflexivity].
  intros [o Ho]. vm_compute in Ho. discriminate.
Defined.

(** X3: the options of a target are made key by key: a key has the
    value of the last configuration in the list that has it, whatever the
    base options and the earlier configurations say; a key that no listed
    configuration has keeps the value of the base options. *)
Theorem getOptionsForTarget_last_wins workspace t td cfgs names :
  outcome (Host.getTarget workspace t) = Return td →
  configurations td = Some cfgs →
  configuration t = Some names →
  Forall (fun n => is_Some (cfgs !! n)) (split "," names) →
  ∃ result,
    Host.getOptionsForTarget workspace t = ([], Return result)
    ∧ (∀ key pre c post o v,
         split "," names = pre ++ c :: post →
         cfgs !! c = Some o → o !! key = Some v →
         Forall (fun n => default ∅ (cfgs !! n) !! key = None) post →
         result !! key = Some v)
    ∧ (∀ key,
         Forall (fun n => default ∅ (cfgs !! n) !! key = None) (split "," names) →
         result !! key = default ∅ (options td) !! key).
Proof.
  intros Ht Hc Hn Hd.
  assert (D : Forall (declares td) (split "," names)).
  { eapply Forall_impl; [exact Hd|]. intros n [o Ho]. exists o.
    by rewrite Hc. }
  assert (B : match options td with Some o => assign ∅ o | None => ∅ end
              = default ∅ (options td)).
  { destruct (options td) as [o|]; [|done]. unfold assign. simpl.
    by rewrite (right_id_L ∅ (∪)). }
  eexists. split; [|split].
  - unfold Host.getOptionsForTarget.
    rewrite (getTarget_pure _ _ _ Ht), Hn. unfold mbind, M_bind, bind.
    rewrite (overlay_all_declared _ _ _ _ _ Hc D). reflexivity.
  - intros key pre c post o v E Ho Hv Hp. rewrite E, foldl_app. simpl.
    rewrite (overlay_fold_untouched _ _ _ _ Hp), assign_lookup, Ho. simpl.
    by rewrite Hv.
  - intros key Hk. by rewrite (overlay_fold_untouched _ _ _ _ Hk), B.
Qed.

Lemma getOptionsForTarget_last_wins_witness :
  ∃ result,
    Host.getOptionsForTarget (Some Sample.workspace)
      (mkTarget "app" "build" (Some "c2,c1,c2")) = ([], Return result)
    ∧ result !! "a" = Some (VNum 2)
    ∧ result !! "b" = Some (plain {[ "y" := VNum 1 ]}).
Proof.
  destruct (getOptionsForTarget_last_wins (Some Sample.workspace)
              (mkTarget "app" "build" (Some "c2,c1,c2")) Sample.buildTarget
              {[ "c1" := {[ "b" := plain {[ "y" := VNum 1 ]} ]};
                 "c2" := {[ "a" := VNum 2 ]} ]} "c2,c1,c2")
    as (result & E & L & _).
  - reflexivity.
  - reflexivity.
  - reflexivity.
  - repeat constructor; eexists; vm_compute; reflexivity.
  - exists result. split; [exact E|]. split.
    + apply (L "a" ["c2"; "c1"] "c2" [] {[ "a" := VNum 2 ]} (VNum 2));
        [reflexivity..|constructor].
    + apply (L "b" ["c2"] "c1" ["c2"] {[ "b" := plain {[ "y" := VNum 1 ]} ]}
               (plain {[ "y" := VNum 1 ]})); [reflexivity..|].
      repeat constructor.
Defined.

(** ** Loading an implementation, continued *)

Lemma loadBuilder_import_failed P workspace facade info msg :
  importModule P (implementationPath info) = inl msg →
  let failed : M Value :=
    ([Imported (implementationPath info)],
     Throw (mkError InvalidBuilderError
       ("Failed to load implementation for builder " +:+ quoted (builderName info)
        +:+ " in package " +:+ quoted (printed (packageName info)) +:+ ": " +:+ msg))) in
  Host.loadBuilder P workspace info = failed
  ∧ FacadeHost.loadBuilder P facade info = failed.
Proof.
  intros I. unfold Host.loadBuilder, FacadeHost.loadBuilder, import.
  by rewrite I.
Qed.

Lemma loadBuilder_nullish P workspace facade info exports :
  importModule P (implementationPath info) = inr exports →
  isNullish (selectExport info exports) = true →
  let failed : M Value :=
    ([Imported (implementationPath info)],
     Throw (mkError InvalidBuilderError
       ("Failed to load implementation for builder " +:+ quoted (builderName info)
        +:+ " in package " +:+ printed (packageName info)))) in
  Host.loadBuilder P workspace info = failed
  ∧ FacadeHost.loadBuilder P facade info = failed.
Proof.
  intros I N. unfold Host.loadBuilder, FacadeHost.loadBuilder.
  by rewrite (bind_run _ _ _ _ (import_selected P _ _ _ I)),
             (bind_run _ _ _ _ (import_selected P _ _ _ I)), N.
Qed.

(** X5: [loadBuilder] fails with an [InvalidBuilderError] of its own when
    the import fails, with the message of the import's error at the end of
    its message, and when the selected export is [null] or [undefined].  In
    both cases nothing but the import is called, not even the adapter of a
    descriptor whose [isNx] is true, and both versions of the host do the
    same.  A named export that the module does not have is whatever the
    module object inherits under the name: [undefined], and the load fails,
    unless the name is that of a member of [Object.prototype]; then the
    member is taken for the implementation, and is handed to the adapter
    when [isNx] is true. *)
Theorem loadBuilder_load_failures P workspace facade info :
  (∀ msg, importModule P (implementationPath info) = inl msg →
     let failed : M Value :=
       ([Imported (implementationPath info)],
        Throw (mkError InvalidBuilderError
          ("Failed to load implementation for builder " +:+ quoted (builderName info)
           +:+ " in package " +:+ quoted (printed (packageName info)) +:+ ": " +:+ msg))) in
     Host.loadBuilder P workspace info = failed
     ∧ FacadeHost.loadBuilder P facade info = failed)
  ∧ (∀ exports, importModule P (implementationPath info) = inr exports →
       isNullish (selectExport info exports) = true →
       let failed : M Value :=
         ([Imported (implementationPath info)],
          Throw (mkError InvalidBuilderError
            ("Failed to load implementation for builder " +:+ quoted (builderName info)
             +:+ " in package " +:+ printed (packageName info)))) in
       Host.loadBuilder P workspace info = failed
       ∧ FacadeHost.loadBuilder P facade info = failed)
  ∧ (∀ exports key, importModule P (implementationPath info) = inr exports →
       implementationExport info = Some key → exports !! key = None →
       selectExport info exports = inherited key
       ∧ (isNullish (selectExport info exports) = true ↔ key ∉ objectPrototypeKeys)
       ∧ (key ∈ objectPrototypeKeys → isNx info = Some true →
          Host.loadBuilder P workspace info
          = ([Imported (implementationPath info); Converted (inherited key)],
             Return (makeExecutorIntoBuilder P (inherited key) workspace)))).
Proof.
  split; [|split].
  - intros msg I. by apply loadBuilder_import_failed.
  - intros exports I N. by apply (loadBuilder_nullish _ _ _ _ exports).
  - intros exports key I E K.
    assert (S : selectExport info exports = inherited key).
    { unfold selectExport, lookupProperty. by rewrite E, K. }
    split; [exact S|]. rewrite S. split.
    + pose proof (inherited_found key) as F.
      destruct (isNullish (inherited key)); split; try done.
      * intros _ Hk. by apply F in Hk.
      * intros Hk. destruct Hk. by apply F.
    + intros Hk Nx.
      assert (N : isNullish (selectExport info exports) = false).
      { rewrite S. by apply inherited_found. }
      rewrite (loadBuilder_loaded P workspace info exports I N true); [by rewrite S|].
      unfold isExecutor. by rewrite Nx.
Qed.

Lemma loadBuilder_load_failures_witness :
  (∃ msg, Host.loadBuilder Sample.node (Some Sample.workspace)
            (mkInfo (Some "pkg") "gone" None (VBool true)
               "/ws/node_modules/pkg/gone.js" None (Some true))
          = ([Imported "/ws/node_modules/pkg/gone.js"],
             Throw (mkError InvalidBuilderError msg)))
  ∧ (∃ msg, Host.loadBuilder Sample.node (Some Sample.workspace)
              (mkInfo (Some "pkg") "foo" None (VBool true)
                 "/ws/node_modules/pkg/exec.js" (Some "walk") (Some true))
            = ([Imported "/ws/node_modules/pkg/exec.js"],
               Throw (mkError InvalidBuilderError msg)))
  ∧ Host.loadBuilder Sample.node (Some Sample.workspace)
      (mkInfo (Some "pkg") "foo" None (VBool true)
         "/ws/node_modules/pkg/exec.js" (Some "toString") (Some true))
    = ([Imported "/ws/node_modules/pkg/exec.js";
        Converted (VFunction "toString" None)],
       Return (Sample.wrapExecutor (VFunction "toString" None) (Some Sample.workspace))).
Proof.
  split; [|split].
  - eexists.
    apply (proj1 (loadBuilder_load_failures Sample.node (Some Sample.workspace)
                    Sample.facade
                    (mkInfo (Some "pkg") "gone" None (VBool true)
                       "/ws/node_modules/pkg/gone.js" None (Some true)))
             (match importModule Sample.node "/ws/node_modules/pkg/gone.js" with
              | inl msg => msg
              | inr _ => EmptyString
              end)).
    vm_compute. reflexivity.
  - eexists.
    pose proof (loadBuilder_load_failures Sample.node (Some Sample.workspace)
                  Sample.facade
                  (mkInfo (Some "pkg") "foo" None (VBool true)
                     "/ws/node_modules/pkg/exec.js" (Some "walk") (Some true)))
      as (_ & N & K).
    refine (proj1 (N {[ "run" := VFunction "run" None ]} eq_refl _)).
    destruct (K {[ "run" := VFunction "run" None ]} "walk") as (_ & W & _);
      [reflexivity..|].
    apply W. intros H. apply list_elem_of_In in H. simpl in H.
    repeat destruct H as [H|H]; try discriminate. done.
  - pose proof (loadBuilder_load_failures Sample.node (Some Sample.workspace)
                  Sample.facade
                  (mkInfo (Some "pkg") "foo" None (VBool true)
                     "/ws/node_modules/pkg/exec.js" (Some "toString") (Some true)))
      as (_ & _ & K).
    destruct (K {[ "run" := VFunction "run" None ]} "toString") as (_ & _ & W);
      [reflexivity..|].
    apply W; [|reflexivity]. apply list_elem_of_In. simpl. tauto.
Defined.

(** X6: the two versions of [loadBuilder] give the same result, calls
    included, whenever the adapter of the facade is the adapter of the
    self-contained host and the selected export is not a boolean, a number
    or a string. *)
Theorem loadBuilder_versions_agree P workspace facade info :
  (∀ v, WorkspaceFacade.convertExecutorIntoBuilder facade v
        = makeExecutorIntoBuilder P v workspace) →
  (∀ exports, importModule P (implementationPath info) = inr exports →
              isPrimitive (selectExport info exports) = false) →
  FacadeHost.loadBuilder P facade info = Host.loadBuilder P workspace info.
Proof.
  intros A Hp. destruct (importModule P (implementationPath info)) as [msg|exports] eqn:I.
  - destruct (loadBuilder_import_failed P workspace facade info msg I) as [-> ->].
    done.
  - specialize (Hp exports eq_refl).
    destruct (isNullish (selectExport info exports)) eqn:N.
    + destruct (loadBuilder_nullish P workspace facade info exports I N) as [-> ->].
      done.
    + destruct (isExecutor info) as [tr [b| |]] eqn:E.
      * pose proof (isExecutor_trace info) as T. rewrite E in T. simpl in T. subst tr.
        rewrite (loadBuilder_loaded P _ _ _ I N _ E),
                (facade_loadBuilder_loaded P _ _ _ I N _ E).
        destruct b; [by rewrite A|].
        destruct (selectExport info exports) as [| | | | | |[s|] ?|? [s|]]; try done;
          simpl; by destruct (truthy s).
      * unfold Host.loadBuilder, FacadeHost.loadBuilder.
        by rewrite (bind_run _ _ _ _ (import_selected P _ _ _ I)),
                   (bind_run _ _ _ _ (import_selected P _ _ _ I)), N, E.
      * unfold Host.loadBuilder, FacadeHost.loadBuilder.
        by rewrite (bind_run _ _ _ _ (import_selected P _ _ _ I)),
                   (bind_run _ _ _ _ (import_selected P _ _ _ I)), N, E.
Qed.

Lemma loadBuilder_versions_agree_witness :
  FacadeHost.loadBuilder Sample.node Sample.facade Sample.fooInfo
  = Host.loadBuilder Sample.node (Some Sample.workspace) Sample.fooInfo.
Proof.
  apply loadBuilder_versions_agree; [reflexivity|].
  intros exports [= <-]. reflexivity.
Defined.

(** X7: the two versions part on a boolean, a number or a string that is
    not sent to the adapter: the self-contained host reads the symbol off
    it and rejects it with its [InvalidBuilderError], the host over the
    facades applies [in] to it and lets the [TypeError] through. *)
Theorem loadBuilder_versions_part P workspace facade info exports :
  importModule P (implementationPath info) = inr exports →
  isPrimitive (selectExport info exports) = true →
  isExecutor info = ([], Return false) →
  Host.loadBuilder P workspace info
  = ([Imported (implementationPath info)],
     Throw (mkError InvalidBuilderError
       ("Implementation for builder " +:+ quoted (builderName info) +:+ " in package "
        +:+ quoted (printed (packageName info)) +:+ " is not a builder")))
  ∧ ∃ e, FacadeHost.loadBuilder P facade info
         = ([Imported (implementationPath info)], Throw e)
         ∧ name e = TypeError.
Proof.
  intros I Hp E.
  assert (N : isNullish (selectExport info exports) = false)
    by (by destruct (selectExport info exports)).
  rewrite (loadBuilder_loaded P _ _ _ I N _ E),
          (facade_loadBuilder_loaded P _ _ _ I N _ E).
  destruct (selectExport info exports); try done; simpl; (split; [done|]);
    eexists; (split; [reflexivity|done]).
Qed.

Lemma loadBuilder_versions_part_witness :
  (∃ msg, Host.loadBuilder Monorepo.node (Some Monorepo.workspace) Monorepo.answerInfo
          = ([Imported "/repo/app/answer.js"], Throw (mkError InvalidBuilderError msg)))
  ∧ (∃ msg, FacadeHost.loadBuilder Monorepo.node Sample.facade Monorepo.answerInfo
            = ([Imported "/repo/app/answer.js"], Throw (mkError TypeError msg))).
Proof.
  destruct (loadBuilder_versions_part Monorepo.node (Some Monorepo.workspace)
              Sample.facade Monorepo.answerInfo {[ "default" := VNum 42 ]}
              eq_refl eq_refl eq_refl) as (H & e & F & N).
  split; [eexists; exact H|].
  destruct e as [n msg]. simpl in N. subst n. exists msg. exact F.
Defined.

(** X8: whatever the descriptor and the platform, the self-contained
    [loadBuilder] imports the implementation path once, calls the adapter
    at most once after that and nothing else, ends, and fails only with an
    [InvalidBuilderError] or, on a descriptor without [isNx] whose schema is
    [null], with the [TypeError] of reading [cli] off that schema: the error
    of a failed import never leaves it as it is. *)
Theorem loadBuilder_outcomes P workspace info :
  (trace (Host.loadBuilder P workspace info) = [Imported (implementationPath info)]
   ∨ ∃ v, Host.loadBuilder P workspace info
          = ([Imported (implementationPath info); Converted v],
             Return (makeExecutorIntoBuilder P v workspace)))
  ∧ match outcome (Host.loadBuilder P workspace info) with
    | Return _ => True
    | Throw e =>
        name e = InvalidBuilderError
        ∨ (name e = TypeError ∧ isNx info = None ∧ optionSchema info = VNull)
    | Diverge => False
    end.
Proof.
  destruct (importModule P (implementationPath info)) as [msg|exports] eqn:I.
  { destruct (loadBuilder_import_failed P workspace Sample.facade info msg I) as [-> _].
    split; [by left|by left]. }
  destruct (isNullish (selectExport info exports)) eqn:N.
  { destruct (loadBuilder_nullish P workspace Sample.facade info exports I N) as [-> _].
    split; [by left|by left]. }
  destruct (isExecutor info) as [tr [b| |]] eqn:E;
    pose proof (isExecutor_trace info) as T; rewrite E in T; simpl in T; subst tr.
  - rewrite (loadBuilder_loaded P _ _ _ I N _ E). destruct b.
    + split; [right; by eexists|done].
    + destruct (truthy _); simpl.
      * split; [by left|done].
      * split; [by left|by left].
  - unfold Host.loadBuilder.
    rewrite (bind_run _ _ _ _ (import_selected P _ _ _ I)), N, E. simpl.
    split; [by left|]. right. revert E. unfold isExecutor, getProp.
    repeat case_bool_decide; simpl; try done.
    destruct (optionSchema info); simpl; try done.
    intros [= <-]. split; [done|]. split; [|done].
    by destruct (isNx info) as [[]|].
  - exfalso. revert E. unfold isExecutor, getProp.
    repeat case_bool_decide; simpl; try done.
    destruct (typeofObject _); simpl; [|done].
    by destruct (isNullish (optionSchema info)).
Qed.

(** ** Loading a manifest, continued *)

Section ManifestMore.

Context (P : Platform).

(** A document that points at itself is loaded again and again. *)
Lemma followBuilders_self origin path doc next :
  load (createRequire P origin) path = Some doc →
  propOf doc "builders" = VStr next →
  join P (dirname P path) next = path →
  ∀ fuel, Host.followBuilders P fuel origin path doc
          = (replicate fuel (Required path), Diverge).
Proof.
  intros L B J.
  assert (N : isNullish doc = false) by (by destruct doc).
  induction fuel as [|fuel IH]; simpl; unfold getProp; rewrite N; simpl; rewrite B.
  - reflexivity.
  - rewrite J. unfold requireFrom. rewrite L. simpl. by rewrite IH.
Qed.

(** What [loadManifest] returns where the chain ends well. *)
Lemma loadManifest_result fuel0 fuel origin start pkg spec doc tr fpath fdoc :
  load (createRequire P origin) start = Some doc →
  Host.followBuilders P fuel0 origin start doc = (tr, Return (fpath, fdoc)) →
  (fuel0 ≤ fuel)%nat →
  isJsonObject (propOf fdoc "builders") = true →
  Host.loadManifest P fuel origin start pkg spec
  = (Required start :: tr,
     Return (fpath, ownProps (propOf fdoc "builders"),
             if isJsonObject (propOf fdoc "executors")
             then Some (ownProps (propOf fdoc "executors")) else None)).
Proof.
  intros L F Le B. unfold Host.loadManifest, requireFrom. rewrite L. simpl.
  rewrite (followBuilders_more_fuel P _ _ _ _ _ _ _ F Le). simpl.
  apply followBuilders_end in F as [N _]. unfold getProp. rewrite N. simpl.
  assert (Nb : isNullish (propOf fdoc "builders") = false)
    by (by destruct (propOf fdoc "builders")).
  rewrite Nb, B. simpl. by rewrite app_nil_r.
Qed.

End ManifestMore.

(** X9: a manifest whose [builders] points at the manifest itself is
    loaded without end: whatever the number of turns allowed to the loop,
    [loadBuilderJson] has not returned and has not failed. *)
Theorem loadBuilderJson_self_reference
    P ctx ws pkg spec skipped base rest start doc next :
  Host.basePaths ctx ws = skipped ++ base :: rest →
  Forall (fun b => startJsonPath P b pkg = None) skipped →
  startJsonPath P base pkg = Some start →
  load (createRequire P (join P base "<synthetic>")) start = Some doc →
  propOf doc "builders" = VStr next →
  join P (dirname P start) next = start →
  ∀ fuel, outcome (Host.loadBuilderJson P ctx ws fuel pkg spec) = Diverge
          ∧ Host.followBuilders P fuel (join P base "<synthetic>") start doc
            = (replicate fuel (Required start), Diverge).
Proof.
  intros Hb Hs Hr Hl Hn Hj fuel.
  pose proof (followBuilders_self P _ _ _ _ Hl Hn Hj fuel) as F.
  split; [|exact F].
  unfold Host.loadBuilderJson. rewrite Hb.
  rewrite (loadBuilderJsonIn_first P _ _ _ _ _ _ _ Hs Hr).
  unfold Host.loadManifest, requireFrom. rewrite Hl. simpl. by rewrite F.
Qed.

Lemma loadBuilderJson_self_reference_witness :
  outcome (Host.loadBuilderJson Monorepo.node Monorepo.context (Some Monorepo.workspace)
             1000 "loop" "loop:x") = Diverge.
Proof.
  refine (proj1 (loadBuilderJson_self_reference Monorepo.node Monorepo.context
            (Some Monorepo.workspace) "loop" "loop:x" [] "/repo/app" ["/repo"]
            "/repo/app/node_modules/loop/package.json"
            (plain {[ "builders" := VStr "./package.json" ]}) "./package.json"
            _ _ _ _ _ _ 1000)).
  - reflexivity.
  - constructor.
  - reflexivity.
  - reflexivity.
  - reflexivity.
  - reflexivity.
Defined.

(** X10: the first base directory from which the package resolves
    decides alone.  When the document found there cannot be loaded, or
    points at a document that cannot be loaded, [loadBuilderJson] fails with
    an [InvalidBuilderError] that names the path that failed, and all it
    has called by then is the resolution in the base directories up to
    that one and the [require] of the documents: the base directories
    after it are not tried, whatever they hold. *)
Theorem loadBuilderJson_unreadable P ctx ws pkg spec skipped base rest start :
  Host.basePaths ctx ws = skipped ++ base :: rest →
  Forall (fun b => startJsonPath P b pkg = None) skipped →
  startJsonPath P base pkg = Some start →
  let load := load (createRequire P (join P base "<synthetic>")) in
  let resolved :=
    flat_map (fun b => resolveCalls P b pkg) skipped ++ resolveCalls P base pkg in
  let failed path : Outcome (string * JsonObject * option JsonObject) :=
    Throw (mkError InvalidBuilderError
             ("Failed to load builder configuration file " +:+ quoted path)) in
  (load start = None →
   ∀ fuel, Host.loadBuilderJson P ctx ws fuel pkg spec
           = (resolved ++ [Required start], failed start))
  ∧ (∀ doc next,
       load start = Some doc → propOf doc "builders" = VStr next →
       load (join P (dirname P start) next) = None →
       ∀ fuel, Host.loadBuilderJson P ctx ws (S fuel) pkg spec
               = (resolved ++ [Required start; Required (join P (dirname P start) next)],
                  failed (join P (dirname P start) next))).
Proof.
  intros Hb Hs Hr ld resolved failed. subst ld resolved. split.
  - intros L fuel. unfold Host.loadBuilderJson. rewrite Hb.
    rewrite (loadBuilderJsonIn_first_run P _ _ _ _ _ _ _ Hs Hr), <- app_assoc.
    unfold Host.loadManifest, requireFrom. by rewrite L.
  - intros doc next L B L' fuel. unfold Host.loadBuilderJson. rewrite Hb.
    rewrite (loadBuilderJsonIn_first_run P _ _ _ _ _ _ _ Hs Hr), <- app_assoc.
    assert (N : isNullish doc = false) by (by destruct doc).
    unfold Host.loadManifest, requireFrom. rewrite L. simpl.
    unfold getProp. rewrite N. simpl. rewrite B. unfold requireFrom. by rewrite L'.
Qed.

Lemma loadBuilderJson_unreadable_witness :
  Host.loadBuilderJson Monorepo.node Monorepo.context (Some Monorepo.workspace)
    5 "ghost" "ghost:x"
  = ([Resolved "/repo/app/<synthetic>" "ghost/package.json";
      Required "/repo/app/node_modules/ghost/package.json"],
     Throw (mkError InvalidBuilderError
              ("Failed to load builder configuration file "
               +:+ quoted "/repo/app/node_modules/ghost/package.json")))
  ∧ startJsonPath Monorepo.node "/repo" "ghost"
    = Some "/repo/node_modules/ghost/package.json"
  ∧ Host.loadBuilderJson Monorepo.node Monorepo.context
      (Some Monorepo.workspace) 5 "dangling" "dangling:x"
    = ([Resolved "/repo/app/<synthetic>" "dangling/package.json";
        Required "/repo/app/node_modules/dangling/package.json";
        Required "/repo/app/node_modules/dangling/missing.json"],
       Throw (mkError InvalidBuilderError
                ("Failed to load builder configuration file "
                 +:+ quoted "/repo/app/node_modules/dangling/missing.json"))).
Proof.
  split; [|split].
  - apply (proj1 (loadBuilderJson_unreadable Monorepo.node Monorepo.context
                    (Some Monorepo.workspace) "ghost" "ghost:x" [] "/repo/app" ["/repo"]
                    "/repo/app/node_modules/ghost/package.json"
                    eq_refl (Forall_nil_2 _) eq_refl) eq_refl 5).
  - reflexivity.
  - apply (proj2 (loadBuilderJson_unreadable Monorepo.node Monorepo.context
                    (Some Monorepo.workspace) "dangling" "dangling:x" []
                    "/repo/app" ["/repo"]
                    "/repo/app/node_modules/dangling/package.json"
                    eq_refl (Forall_nil_2 _) eq_refl)
             (plain {[ "builders" := VStr "./missing.json" ]}) "./missing.json"
             eq_refl eq_refl eq_refl 4).
Defined.

(** X11: when the chain of documents ends at one whose [builders] is an
    object, [loadBuilderJson] returns the path of that last document, the
    entries of its [builders], and the entries of its [executors] if that
    is an object (none otherwise): what the documents before the last one
    have beside their pointer, executors included, is not returned. *)
Theorem loadBuilderJson_result
    P ctx ws pkg spec skipped base rest start doc fuel0 fuel tr fpath fdoc :
  Host.basePaths ctx ws = skipped ++ base :: rest →
  Forall (fun b => startJsonPath P b pkg = None) skipped →
  startJsonPath P base pkg = Some start →
  load (createRequire P (join P base "<synthetic>")) start = Some doc →
  Host.followBuilders P fuel0 (join P base "<synthetic>") start doc
  = (tr, Return (fpath, fdoc)) →
  (fuel0 ≤ fuel)%nat →
  isJsonObject (propOf fdoc "builders") = true →
  outcome (Host.loadBuilderJson P ctx ws fuel pkg spec)
  = Return (fpath, ownProps (propOf fdoc "builders"),
            if isJsonObject (propOf fdoc "executors")
            then Some (ownProps (propOf fdoc "executors")) else None).
Proof.
  intros Hb Hs Hr Hl Hf Hle Hm.
  unfold Host.loadBuilderJson. rewrite Hb.
  rewrite (loadBuilderJsonIn_first P _ _ _ _ _ _ _ Hs Hr).
  by rewrite (loadManifest_result P _ _ _ _ _ _ _ _ _ _ Hl Hf Hle Hm).
Qed.

Lemma loadBuilderJson_result_witness :
  ∃ builders executors,
    outcome (Host.loadBuilderJson Monorepo.node Monorepo.context
               (Some Monorepo.workspace) 5 "tools" "tools:lint")
    = Return ("/repo/node_modules/tools/builders.json", builders, Some executors)
    ∧ is_Some (builders !! "lint") ∧ executors !! "lint" = None
    ∧ is_Some (executors !! "test").
Proof.
  eexists _, _. split.
  - etransitivity.
    + eapply (loadBuilderJson_result Monorepo.node Monorepo.context
                (Some Monorepo.workspace) "tools" "tools:lint" ["/repo/app"] "/repo" []
                _ _ 1 5).
      * reflexivity.
      * repeat constructor.
      * reflexivity.
      * reflexivity.
      * vm_compute. reflexivity.
      * lia.
      * vm_compute. reflexivity.
    + vm_compute. reflexivity.
  - vm_compute. repeat split; by eexists.
Defined.

(** ** Resolving a builder, continued *)

Section ResolveMore.

Context (P : Platform).

(** What [describeBuilder] calls and how it fails. *)
Lemma describeBuilder_calls pkg bname path entry nx :
  (trace (describeBuilder P pkg bname path entry nx) = []
   ∨ ∃ s, propOf entry "schema" = VStr s
          ∧ trace (describeBuilder P pkg bname path entry nx)
            = [Required (join P (dirname P path) s)])
  ∧ match outcome (describeBuilder P pkg bname path entry nx) with
    | Return _ => True
    | Throw e => name e = InvalidBuilderError
    | Diverge => False
    end.
Proof.
  unfold describeBuilder.
  destruct (isJsonObject entry); simpl; [|by split; [left|]].
  destruct (propOf entry "implementation") as [| | | |impl| | |]; simpl;
    try (by split; [left|]).
  destruct (propOf entry "schema") as [| |b| |s| | |]; simpl;
    try (by split; [left|]).
  - destruct (includes "#" impl); simpl; by split; [left|].
  - unfold requireModule.
    destruct (require P (join P (dirname P path) s)) as [schema|]; simpl;
      [|by split; [right; exists s|]].
    destruct (isJsonObject schema); simpl; [|by split; [right; exists s|]].
    destruct (includes "#" impl); simpl; by split; [right; exists s|].
Qed.

(** The one call [describeBuilder] can make. *)
Lemma describeBuilder_trace pkg bname path entry nx :
  trace (describeBuilder P pkg bname path entry nx)
  = if isJsonObject entry && isString (propOf entry "implementation")
    then match propOf entry "schema" with
         | VStr s => [Required (join P (dirname P path) s)]
         | _ => []
         end
    else [].
Proof.
  unfold describeBuilder.
  destruct (isJsonObject entry); simpl; [|done].
  destruct (propOf entry "implementation") as [| | | |impl| | |]; simpl; try done.
  destruct (propOf entry "schema") as [| |b| |s| | |]; simpl; try done.
  - by destruct (includes "#" impl).
  - unfold requireModule.
    destruct (require P (join P (dirname P path) s)) as [schema|]; simpl; [|done].
    destruct (isJsonObject schema); simpl; [|done].
    by destruct (includes "#" impl).
Qed.

Lemma describeBuilder_description pkg bname path entry nx d :
  outcome (describeBuilder P pkg bname path entry nx) = Return d →
  description d = (if propOf entry "description" is VStr s then Some s else None).
Proof.
  unfold describeBuilder.
  destruct (isJsonObject entry); simpl; [|discriminate].
  destruct (propOf entry "implementation") as [| | | |impl| | |]; simpl;
    try discriminate.
  destruct (propOf entry "schema") as [| |b| |s| | |]; simpl; try discriminate.
  - destruct (includes "#" impl); simpl; intros [= <-]; simpl;
      by destruct (propOf entry "description").
  - unfold requireModule.
    destruct (require P (join P (dirname P path) s)) as [schema|]; simpl;
      [|discriminate].
    destruct (isJsonObject schema); simpl; [|discriminate].
    destruct (includes "#" impl); simpl; intros [= <-]; simpl;
      by destruct (propOf entry "description").
Qed.

(** [resolveBuilder] on a specifier that names a package, once the
    manifest of the package is loaded: the entry it describes, and the
    [isNx] it gives to it. *)
Lemma resolveBuilder_manifest ctx ws fuel spec pkg bname tr path builders executors :
  specifierParts spec = (pkg, Some bname) →
  pkg ≠ "$direct" →
  Host.loadBuilderJson P ctx ws fuel pkg spec = (tr, Return (path, builders, executors)) →
  Host.resolveBuilder P ctx ws fuel spec
  = match executors ≫= (fun ex => ex !! bname), builders !! bname with
    | Some entry, _ =>
        (tr ++ trace (describeBuilder P pkg bname path entry (Some true)),
         outcome (describeBuilder P pkg bname path entry (Some true)))
    | None, Some entry =>
        let nx := if executors is Some _ then Some false else None in
        (tr ++ trace (describeBuilder P pkg bname path entry nx),
         outcome (describeBuilder P pkg bname path entry nx))
    | None, None =>
        (tr, Throw (mkError UnknownBuilderError
                      ("Can't find " +:+ quoted bname +:+ " in " +:+ quoted pkg)))
    end.
Proof.
  intros Hs Hd Hl. unfold Host.resolveBuilder. rewrite Hs.
  destruct (String.eqb pkg "$direct") eqn:D; [by apply String.eqb_eq in D|].
  assert (Own : ∀ o : JsonObject,
            Host.hasOwnProperty o bname = (if o !! bname is Some _ then true else false)).
  { intros o. unfold Host.hasOwnProperty. destruct (o !! bname) eqn:E.
    - by apply bool_decide_eq_true.
    - apply bool_decide_eq_false. by intros [? ?]. }
  destruct executors as [ex|]; simpl.
  - destruct (ex !! bname) as [entry|] eqn:E.
    + match goal with
      | |- ?m ≫= _ = _ => assert (S : m = (tr, Return (path, entry, Some true)))
      end.
      { rewrite (bind_run _ _ _ _ Hl). simpl. rewrite Own, E. simpl.
        rewrite ?E. simpl. by rewrite app_nil_r. }
      by rewrite (bind_run _ _ _ _ S).
    + destruct (builders !! bname) as [entry|] eqn:B.
      * match goal with
        | |- ?m ≫= _ = _ => assert (S : m = (tr, Return (path, entry, Some false)))
        end.
        { rewrite (bind_run _ _ _ _ Hl). simpl. rewrite !Own, E, B. simpl.
          rewrite ?B. simpl. by rewrite app_nil_r. }
        by rewrite (bind_run _ _ _ _ S).
      * rewrite (bind_run _ _ _ _ Hl). simpl. rewrite !Own, E, B. simpl.
        by rewrite app_nil_r.
  - destruct (builders !! bname) as [entry|] eqn:B.
    + match goal with
      | |- ?m ≫= _ = _ => assert (S : m = (tr, Return (path, entry, None)))
      end.
      { rewrite (bind_run _ _ _ _ Hl). simpl. rewrite !Own, B. simpl.
        rewrite ?B. simpl. by rewrite app_nil_r. }
      by rewrite (bind_run _ _ _ _ S).
    + rewrite (bind_run _ _ _ _ Hl). simpl. rewrite !Own, B. simpl.
      by rewrite app_nil_r.
Qed.

End ResolveMore.

(** X12: the [isNx] of a descriptor that [resolveBuilder] returns for a
    package says where the entry was found: null when the manifest has no
    executors at all, true when the executors have the name, false when the
    manifest has executors but not under this name; in the last two cases
    the builders have the name. *)
Theorem resolveBuilder_isNx
    P ctx ws fuel spec pkg bname tr path builders executors d :
  specifierParts spec = (pkg, Some bname) →
  pkg ≠ "$direct" →
  Host.loadBuilderJson P ctx ws fuel pkg spec = (tr, Return (path, builders, executors)) →
  outcome (Host.resolveBuilder P ctx ws fuel spec) = Return d →
  isNx d = match executors with
           | None => None
           | Some ex => Some (bool_decide (is_Some (ex !! bname)))
           end
  ∧ (isNx d ≠ Some true → is_Some (builders !! bname)).
Proof.
  intros Hs Hd Hl. rewrite (resolveBuilder_manifest P _ _ _ _ _ _ _ _ _ _ Hs Hd Hl).
  destruct executors as [ex|]; simpl.
  - destruct (ex !! bname) as [entry|] eqn:E.
    + intros (_ & _ & -> & _)%describeBuilder_Return.
      split; [reflexivity|done].
    + destruct (builders !! bname) as [entry|]; [|discriminate].
      intros (_ & _ & -> & _)%describeBuilder_Return.
      split; [reflexivity|by eexists].
  - destruct (builders !! bname) as [entry|]; [|discriminate].
    intros (_ & _ & -> & _)%describeBuilder_Return. split; [done|by eexists].
Qed.

Lemma resolveBuilder_isNx_witness :
  ∃ d, outcome (Host.resolveBuilder Monorepo.node Monorepo.context
                  (Some Monorepo.workspace) 5 "tools:lint") = Return d
       ∧ isNx d = Some false.
Proof.
  destruct (Host.resolveBuilder Monorepo.node Monorepo.context
              (Some Monorepo.workspace) 5 "tools:lint") as [tr [d| |]] eqn:R;
    [|vm_compute in R; discriminate..].
  exists d. split; [reflexivity|].
  edestruct (resolveBuilder_isNx Monorepo.node Monorepo.context
               (Some Monorepo.workspace) 5 "tools:lint" "tools" "lint") as [E _].
  - reflexivity.
  - discriminate.
  - vm_compute. reflexivity.
  - rewrite R. reflexivity.
  - rewrite E. vm_compute. reflexivity.
Defined.

(** X13: a name that neither the builders nor the executors of the
    manifest have makes [resolveBuilder] fail with an [UnknownBuilderError]
    that names the builder and the package, having called nothing but what
    loading the manifest calls. *)
Theorem resolveBuilder_unknown_name
    P ctx ws fuel spec pkg bname tr path builders executors :
  specifierParts spec = (pkg, Some bname) →
  pkg ≠ "$direct" →
  Host.loadBuilderJson P ctx ws fuel pkg spec = (tr, Return (path, builders, executors)) →
  builders !! bname = None →
  executors ≫= (fun ex => ex !! bname) = None →
  Host.resolveBuilder P ctx ws fuel spec
  = (tr, Throw (mkError UnknownBuilderError
                  ("Can't find " +:+ quoted bname +:+ " in " +:+ quoted pkg))).
Proof.
  intros Hs Hd Hl Hb He.
  by rewrite (resolveBuilder_manifest P _ _ _ _ _ _ _ _ _ _ Hs Hd Hl), He, Hb.
Qed.

Lemma resolveBuilder_unknown_name_witness :
  outcome (Host.resolveBuilder Monorepo.node Monorepo.context (Some Monorepo.workspace)
             5 "tools:nope")
  = Throw (mkError UnknownBuilderError
             ("Can't find " +:+ quoted "nope" +:+ " in " +:+ quoted "tools")).
Proof.
  erewrite (resolveBuilder_unknown_name Monorepo.node Monorepo.context
              (Some Monorepo.workspace) 5 "tools:nope" "tools" "nope");
    [reflexivity|reflexivity|discriminate|vm_compute; reflexivity|..];
    vm_compute; reflexivity.
Defined.

(** X14: resolving an entry of a manifest calls, beyond what loading the
    manifest calls, exactly one [require] when the entry passes the
    validation and its schema is a string: that of the schema path taken
    from the directory of the last manifest document; and nothing when the
    schema of the entry is a boolean, when the entry is rejected, and when
    the manifest has no entry of the name.  No module is imported before
    [loadBuilder]. *)
Theorem resolveBuilder_calls
    P ctx ws fuel spec pkg bname tr path builders executors :
  specifierParts spec = (pkg, Some bname) →
  pkg ≠ "$direct" →
  Host.loadBuilderJson P ctx ws fuel pkg spec = (tr, Return (path, builders, executors)) →
  trace (Host.resolveBuilder P ctx ws fuel spec)
  = tr ++ match match executors ≫= (fun ex => ex !! bname) with
                | Some entry => Some entry
                | None => builders !! bname
                end with
          | Some entry =>
              if isJsonObject entry && isString (propOf entry "implementation")
              then match propOf entry "schema" with
                   | VStr s => [Required (join P (dirname P path) s)]
                   | _ => []
                   end
              else []
          | None => []
          end.
Proof.
  intros Hs Hd Hl. rewrite (resolveBuilder_manifest P _ _ _ _ _ _ _ _ _ _ Hs Hd Hl).
  destruct (executors ≫= _) as [entry|] eqn:E.
  - simpl. by rewrite describeBuilder_trace.
  - destruct (builders !! bname) as [entry|] eqn:B;
      [|simpl; by rewrite app_nil_r]. cbv zeta.
    simpl. by rewrite describeBuilder_trace.
Qed.

Lemma resolveBuilder_calls_witness :
  trace (Host.resolveBuilder Sample.node Sample.context (Some Sample.workspace)
           5 "legacy:run")
  = [Resolved "/ws/<synthetic>" "legacy/package.json";
     Required "/ws/node_modules/legacy/package.json";
     Required "/ws/node_modules/legacy/schema.json"]
  ∧ trace (Host.resolveBuilder Sample.node Sample.context (Some Sample.workspace)
             5 "pkg:a")
    = [Resolved "/ws/<synthetic>" "pkg/package.json";
       Required "/ws/node_modules/pkg/package.json";
       Required "/ws/node_modules/pkg/builders.json"].
Proof.
  split.
  - etransitivity.
    + eapply (resolveBuilder_calls Sample.node Sample.context (Some Sample.workspace)
                5 "legacy:run" "legacy" "run").
      * reflexivity.
      * discriminate.
      * vm_compute. reflexivity.
    + vm_compute. reflexivity.
  - etransitivity.
    + eapply (resolveBuilder_calls Sample.node Sample.context (Some Sample.workspace)
                5 "pkg:a" "pkg" "a").
      * reflexivity.
      * discriminate.
      * vm_compute. reflexivity.
    + vm_compute. reflexivity.
Defined.

(** X15: the implementation of an entry is cut at its first [#] only:
    the text before it, taken from the directory of the manifest, is the
    implementation path, and all the text after it, further [#] included,
    is the export name. *)
Theorem describeBuilder_export P pkg bname path entry nx d file export :
  outcome (describeBuilder P pkg bname path entry nx) = Return d →
  propOf entry "implementation" = VStr (file +:+ "#" +:+ export) →
  includes "#" file = false →
  implementationPath d = join P (dirname P path) file
  ∧ implementationExport d = Some export.
Proof.
  intros R I F.
  apply describeBuilder_Return in R as (_ & _ & _ & impl & I' & Hp & He & _).
  rewrite I in I'. injection I' as <-.
  assert (In : includes "#" (file +:+ "#" +:+ export) = true).
  { clear -F. induction file as [|c file IH]; simpl in *; [done|].
    destruct (Ascii.eqb c "#"); [done|]. by apply IH. }
  assert (Ix : indexOf "#" (file +:+ "#" +:+ export) = String.length file).
  { clear -F. induction file as [|c file IH]; simpl in *; [done|].
    destruct (Ascii.eqb c "#"); [done|]. by rewrite IH. }
  rewrite In, Ix in He. rewrite Ix in Hp. rewrite Hp, He. clear.
  split; [f_equal|f_equal].
  - induction file as [|c file IH]; simpl; [done|]. by rewrite IH.
  - induction file as [|c file IH]; simpl; [done|]. exact IH.
Qed.

Lemma describeBuilder_export_witness :
  ∃ d, outcome (Host.resolveBuilder Monorepo.node Monorepo.context
                  (Some Monorepo.workspace) 5 "tools:lint") = Return d
       ∧ implementationPath d = "/repo/node_modules/tools/lint.js"
       ∧ implementationExport d = Some "rules#strict".
Proof.
  eexists. split; [vm_compute; reflexivity|].
  apply (describeBuilder_export Monorepo.node "tools" "lint"
           "/repo/node_modules/tools/builders.json"
           (plain {[ "implementation" := VStr "./lint.js#rules#strict";
                     "schema" := VBool true;
                     "description" := VStr "Lint" ]})
           (Some false) _ "./lint.js" "rules#strict");
    vm_compute; reflexivity.
Defined.

Lemma bind_outcome_Throw {A B} (k : A → M B) (m : M A) e :
  outcome (m ≫= k) = Throw e →
  outcome m = Throw e ∨ ∃ a, outcome m = Return a ∧ outcome (k a) = Throw e.
Proof.
  unfold mbind, M_bind, bind. destruct m as [tr1 [a|e'|]]; simpl; try discriminate.
  - destruct (k a) as [tr2 o] eqn:E. simpl. intros ->. right. exists a. by rewrite E.
  - intros [= ->]. by left.
Qed.

Section DirectMore.

Context (P : Platform).

Lemma loadDirect_Throw resolved path e :
  outcome (Host.loadDirect P resolved path) = Throw e → name e = InvalidBuilderError.
Proof.
  unfold Host.loadDirect, import.
  destruct (importModule P resolved) as [msg|exports]; simpl; [by intros [= <-]|].
  destruct (isNullish _ || negb (typeofObject _) || isArray _); simpl;
    [by intros [= <-]|].
  destruct (Host.isBuilder _); simpl; [done|].
  by destruct (isString _ && isString _).
Qed.

Lemma resolveBuilderFromPathIn_Throw path e bases :
  outcome (Host.resolveBuilderFromPathIn P bases path) = Throw e →
  name e = UnknownBuilderError ∨ name e = InvalidBuilderError.
Proof.
  induction bases as [|b bases IH]; simpl; [intros [= <-]; by left|].
  unfold requireResolve. destruct (resolve _ path) as [resolved|]; simpl.
  - destruct (Host.loadDirect P resolved path) as [tr o] eqn:L. simpl.
    intros ->. right. eapply loadDirect_Throw. by rewrite L.
  - destruct (Host.resolveBuilderFromPathIn P bases path) as [tr o]. simpl in *.
    exact IH.
Qed.

Lemma loadBuilderJsonIn_Throw fuel pkg spec e bases :
  outcome (Host.loadBuilderJsonIn P fuel bases pkg spec) = Throw e →
  name e = UnknownBuilderError ∨ name e = InvalidBuilderError ∨ name e = TypeError.
Proof.
  induction bases as [|b bases IH]; simpl; [intros [= <-]; by left|].
  destruct (resolve_start P b pkg) as [tr E]. rewrite (bind_run _ _ _ _ E).
  destruct (startJsonPath P b pkg) as [start|]; simpl; [|exact IH].
  intros H%loadManifest_Throw. tauto.
Qed.

(** No base resolves the path: every base is asked once, in order. *)
Lemma resolveBuilderFromPathIn_none path bases :
  Forall (fun b => resolvesFrom P path b = None) bases →
  Host.resolveBuilderFromPathIn P bases path
  = ((fun b => Resolved (join P b "<synthetic>") path) <$> bases,
     Throw (mkError UnknownBuilderError ("Can't resolve builder " +:+ quoted path))).
Proof.
  induction 1 as [|b bases Hn _ IH]; simpl; [reflexivity|].
  unfold requireResolve. unfold resolvesFrom in Hn. rewrite Hn. simpl. by rewrite IH.
Qed.

(** [resolveBuilder] on a direct specifier. *)
Lemma resolveBuilder_direct ctx ws fuel X :
  includes ":" X = false →
  Host.resolveBuilder P ctx ws fuel ("$direct:" +:+ X)
  = ('(path, entry) ← Host.resolveBuilderFromPath P ctx ws X;
     describeBuilder P "$direct" X path entry None).
Proof.
  intros Hx. unfold Host.resolveBuilder.
  change ("$direct:" +:+ X) with ("$direct" +:+ String ":" X).
  rewrite (specifierParts_colon "$direct" X eq_refl), (sliceTo_without _ _ Hx).
  change (String.eqb "$direct" "$direct") with true. cbv iota.
  destruct (Host.resolveBuilderFromPath P ctx ws X) as [tr [[path entry]| |]];
    simpl; try done.
  destruct (describeBuilder P "$direct" X path entry None) as [tr' o].
  by rewrite app_nil_r.
Qed.

(** The first base that resolves the path decides, for a direct
    specifier. *)
Lemma resolveBuilder_direct_first ctx ws fuel X skipped base rest resolved :
  includes ":" X = false →
  Host.basePaths ctx ws = skipped ++ base :: rest →
  Forall (fun b => resolvesFrom P X b = None) skipped →
  resolvesFrom P X base = Some resolved →
  outcome (Host.resolveBuilder P ctx ws fuel ("$direct:" +:+ X))
  = outcome ('(path, entry) ← Host.loadDirect P resolved X;
             describeBuilder P "$direct" X path entry None).
Proof.
  intros Hx Hb Hs Hr. rewrite (resolveBuilder_direct _ _ _ _ Hx).
  pose proof (resolveBuilderFromPathIn_first P X skipped base rest resolved Hs Hr) as F.
  unfold Host.resolveBuilderFromPath. rewrite Hb.
  destruct (Host.resolveBuilderFromPathIn P _ X) as [tr o].
  destruct (Host.loadDirect P resolved X) as [tr' o']. simpl in F. subst o'.
  destruct o as [[path entry]| |]; simpl; try done.
  by destruct (describeBuilder P "$direct" X path entry None).
Qed.

End DirectMore.

(** X16: [resolveBuilder] fails with four kinds of error and no other:
    [InvalidBuilderSpecifiedError] for a specifier without a colon,
    [UnknownBuilderError], [InvalidBuilderError], and, for a package only,
    the [TypeError] of reading a manifest document that is [null].  What
    the module system throws when it cannot resolve, load or import never
    leaves [resolveBuilder] as it is. *)
Theorem resolveBuilder_errors P ctx ws fuel spec e :
  outcome (Host.resolveBuilder P ctx ws fuel spec) = Throw e →
  (name e = InvalidBuilderSpecifiedError ∧ includes ":" spec = false)
  ∨ name e = UnknownBuilderError
  ∨ name e = InvalidBuilderError
  ∨ (name e = TypeError ∧ fst (specifierParts spec) ≠ "$direct").
Proof.
  unfold Host.resolveBuilder.
  destruct (includes ":" spec) eqn:I.
  2:{ rewrite (specifierParts_without _ I). intros [= <-]. by left. }
  destruct (specifierParts spec) as [pkg [bname|]] eqn:S.
  2:{ rewrite (specifierParts_includes _ I) in S. discriminate. }
  simpl. intros [H|([[path entry] nx] & _ & H)]%bind_outcome_Throw.
  - destruct (String.eqb pkg "$direct") eqn:D.
    + apply bind_outcome_Throw in H as [H|([p i] & _ & H)]; [|discriminate].
      apply resolveBuilderFromPathIn_Throw in H. tauto.
    + apply bind_outcome_Throw in H as [H|([[p b] ex] & _ & H)].
      * apply loadBuilderJsonIn_Throw in H as [H|[H|H]]; [tauto..|].
        do 3 right. split; [done|]. intros ->. discriminate.
      * revert H. destruct (match ex with Some _ => _ | None => _ end); [done|].
        destruct (Host.hasOwnProperty b bname); [done|]. intros [= <-]. tauto.
  - pose proof (describeBuilder_calls P pkg bname path entry nx) as [_ C].
    rewrite H in C. tauto.
Qed.

Lemma resolveBuilder_errors_witness :
  ∃ e, outcome (Host.resolveBuilder Monorepo.node Monorepo.context
                  (Some Monorepo.workspace) 5 "$direct:./fn.js") = Throw e
       ∧ name e = InvalidBuilderError.
Proof.
  destruct (Host.resolveBuilder Monorepo.node Monorepo.context
              (Some Monorepo.workspace) 5 "$direct:./fn.js") as [tr [d|e|]] eqn:R;
    try (vm_compute in R; discriminate).
  exists e. split; [reflexivity|].
  destruct (resolveBuilder_errors Monorepo.node Monorepo.context
              (Some Monorepo.workspace) 5 "$direct:./fn.js" e)
    as [[_ H]|[H|[H|[_ H]]]].
  - by rewrite R.
  - discriminate.
  - vm_compute in R. injection R as _ <-. discriminate.
  - exact H.
  - by destruct H.
Defined.

(** ** Direct specifiers, continued *)

(** X17: a direct specifier whose path resolves from no base directory
    fails with an [UnknownBuilderError] that names the path, after one
    resolution per base directory, in their order, and nothing else. *)
Theorem resolveBuilder_direct_unresolved P ctx ws fuel X :
  includes ":" X = false →
  Forall (fun b => resolvesFrom P X b = None) (Host.basePaths ctx ws) →
  Host.resolveBuilder P ctx ws fuel ("$direct:" +:+ X)
  = ((fun b => Resolved (join P b "<synthetic>") X) <$> Host.basePaths ctx ws,
     Throw (mkError UnknownBuilderError ("Can't resolve builder " +:+ quoted X))).
Proof.
  intros Hx Hn. rewrite (resolveBuilder_direct P _ _ _ _ Hx).
  unfold Host.resolveBuilderFromPath.
  by rewrite (resolveBuilderFromPathIn_none P _ _ Hn).
Qed.

Lemma resolveBuilder_direct_unresolved_witness :
  Host.resolveBuilder Monorepo.node Monorepo.context (Some Monorepo.workspace) 5
    "$direct:./nothing.js"
  = ([Resolved "/repo/app/<synthetic>" "./nothing.js";
      Resolved "/repo/<synthetic>" "./nothing.js"],
     Throw (mkError UnknownBuilderError
              ("Can't resolve builder " +:+ quoted "./nothing.js"))).
Proof.
  apply (resolveBuilder_direct_unresolved Monorepo.node Monorepo.context
           (Some Monorepo.workspace) 5 "./nothing.js" eq_refl).
  repeat constructor.
Defined.

(** X18: a module resolved for a direct specifier must export an
    object: when its default export, or the module for want of one, is a
    function, an array or another value that is not an object,
    [resolveBuilder] fails with an [InvalidBuilderError] about the file, and
    the builder symbol on a function does not change that. *)
Theorem resolveBuilder_direct_not_an_object
    P ctx ws fuel X skipped base rest resolved exports :
  includes ":" X = false →
  Host.basePaths ctx ws = skipped ++ base :: rest →
  Forall (fun b => resolvesFrom P X b = None) skipped →
  resolvesFrom P X base = Some resolved →
  importModule P resolved = inr exports →
  typeofObject (defaultOrModule exports) = false ∨ isArray (defaultOrModule exports) = true →
  outcome (Host.resolveBuilder P ctx ws fuel ("$direct:" +:+ X))
  = Throw (mkError InvalidBuilderError
             ("File " +:+ quoted resolved +:+ " for builder " +:+ quoted X
              +:+ " does not contain a valid builder")).
Proof.
  intros Hx Hb Hs Hr Hi Hv.
  rewrite (resolveBuilder_direct_first P _ _ _ _ _ _ _ _ Hx Hb Hs Hr).
  unfold Host.loadDirect, import. rewrite Hi. simpl.
  destruct Hv as [-> | ->]; simpl; [by rewrite orb_true_r|by rewrite orb_true_r].
Qed.

Lemma resolveBuilder_direct_not_an_object_witness :
  Host.isBuilder (VFunction "build" (Some (VBool true))) = true
  ∧ ∃ msg, outcome (Host.resolveBuilder Monorepo.node Monorepo.context
                      (Some Monorepo.workspace) 5 "$direct:./fn.js")
           = Throw (mkError InvalidBuilderError msg).
Proof.
  split; [reflexivity|]. eexists.
  apply (resolveBuilder_direct_not_an_object Monorepo.node Monorepo.context
           (Some Monorepo.workspace) 5 "./fn.js" [] "/repo/app" ["/repo"]
           "/repo/app/fn.js" {[ "default" := VFunction "build" (Some (VBool true)) ]});
    try reflexivity; [constructor|by left].
Defined.

(** X19: a module that exports an object without a truthy builder
    symbol and with strings for [type] and [implementation] is taken for
    the schema of a builder: [resolveBuilder] then loads the very file of
    the module as the option schema, splits the [implementation] of the
    export as it splits that of a manifest entry, from the directory of the
    file, and gives the descriptor no description. *)
Theorem resolveBuilder_direct_schema
    P ctx ws fuel X skipped base rest resolved exports sym props kind impl schema :
  includes ":" X = false →
  Host.basePaths ctx ws = skipped ++ base :: rest →
  Forall (fun b => resolvesFrom P X b = None) skipped →
  resolvesFrom P X base = Some resolved →
  importModule P resolved = inr exports →
  defaultOrModule exports = VObject sym props →
  truthy (default VUndefined sym) = false →
  props !! "type" = Some (VStr kind) →
  props !! "implementation" = Some (VStr impl) →
  require P (join P (dirname P resolved) (basename P resolved)) = Some schema →
  isJsonObject schema = true →
  outcome (Host.resolveBuilder P ctx ws fuel ("$direct:" +:+ X))
  = Return {| packageName := Some "$direct";
              builderName := X;
              description := None;
              optionSchema := schema;
              implementationPath :=
                join P (dirname P resolved) (sliceTo (indexOf "#" impl) impl);
              implementationExport :=
                if includes "#" impl then Some (sliceFrom (indexOf "#" impl + 1) impl)
                else None;
              isNx := None |}.
Proof.
  intros Hx Hb Hs Hr Hi Hd Ht Hk Hm Hq Hj.
  rewrite (resolveBuilder_direct_first P _ _ _ _ _ _ _ _ Hx Hb Hs Hr).
  assert (L : outcome (Host.loadDirect P resolved X)
              = Return (resolved,
                        plain {[ "schema" := VStr (basename P resolved);
                                 "implementation" := VStr impl ]})).
  { unfold Host.loadDirect, import. rewrite Hi. simpl. rewrite Hd.
    unfold Host.isBuilder.
    destruct sym as [s|]; simpl in *; rewrite ?Ht; simpl; by rewrite Hk, Hm. }
  rewrite (bind_outcome _ _ _ L).
  unfold describeBuilder. simpl.
  rewrite lookup_insert_ne, lookup_singleton_eq by done.
  rewrite lookup_insert_eq, lookup_insert_ne, lookup_singleton_ne by done.
  simpl. unfold requireModule. rewrite Hq. simpl. rewrite Hj. simpl.
  destruct (includes "#" impl) eqn:I; simpl; [done|].
  by rewrite (sliceTo_without _ _ I).
Qed.

Lemma resolveBuilder_direct_schema_witness :
  outcome (Host.resolveBuilder Monorepo.node Monorepo.context (Some Monorepo.workspace)
             5 "$direct:./described.js")
  = Return {| packageName := Some "$direct";
              builderName := "./described.js";
              description := None;
              optionSchema :=
                plain {[ "type" := VStr "object";
                         "implementation" := VStr "./impl.js#make" ]};
              implementationPath := "/repo/app/impl.js";
              implementationExport := Some "make";
              isNx := None |}.
Proof.
  etransitivity.
  - eapply (resolveBuilder_direct_schema Monorepo.node Monorepo.context
              (Some Monorepo.workspace) 5 "./described.js" [] "/repo/app" ["/repo"]
              "/repo/app/described.js"
              {[ "default" := plain {[ "type" := VStr "object";
                                       "implementation" := VStr "./impl.js#make" ]} ]}
              None _ "object" "./impl.js#make").
    + reflexivity.
    + reflexivity.
    + constructor.
    + reflexivity.
    + reflexivity.
    + reflexivity.
    + reflexivity.
    + vm_compute. reflexivity.
    + vm_compute. reflexivity.
    + vm_compute. reflexivity.
    + reflexivity.
  - vm_compute. reflexivity.
Defined.

(** The descriptor of a module that exports a builder. *)
Lemma direct_builder_descriptor
    P ctx ws fuel X skipped base rest resolved exports sym props :
  includes ":" X = false →
  Host.basePaths ctx ws = skipped ++ base :: rest →
  Forall (fun b => resolvesFrom P X b = None) skipped →
  resolvesFrom P X base = Some resolved →
  importModule P resolved = inr exports →
  defaultOrModule exports = VObject (Some sym) props →
  truthy sym = true →
  includes "#" (basename P resolved) = false →
  join P (dirname P resolved) (basename P resolved) = resolved →
  outcome (Host.resolveBuilder P ctx ws fuel ("$direct:" +:+ X))
  = Return (mkInfo (Some "$direct") X None (VBool true) resolved None None).
Proof.
  intros Hx Hb Hs Hr Hi Hd Ht Hh Hj.
  rewrite (resolveBuilder_direct_first P _ _ _ _ _ _ _ _ Hx Hb Hs Hr).
  rewrite (bind_outcome _ _ _ (loadDirect_builder P _ X _ _ _ Hi Hd Ht)).
  unfold describeBuilder. simpl.
  rewrite lookup_insert_ne, lookup_singleton_eq by done.
  rewrite lookup_insert_eq, lookup_insert_ne, lookup_singleton_ne by done.
  simpl. rewrite Hh. simpl. by rewrite Hj.
Qed.

(** X20: resolving and then loading a direct specifier gives back the
    builder that the module exports: when [$direct:X] resolves to a module
    whose export is an object with a truthy builder symbol, in a file whose
    name has no [#], [loadBuilder] on the descriptor that [resolveBuilder]
    returns imports the same file and returns that object as it is, without
    a call of the adapter. *)
Theorem direct_builder_round_trip
    P ctx ws fuel X skipped base rest resolved exports sym props :
  includes ":" X = false →
  Host.basePaths ctx ws = skipped ++ base :: rest →
  Forall (fun b => resolvesFrom P X b = None) skipped →
  resolvesFrom P X base = Some resolved →
  importModule P resolved = inr exports →
  defaultOrModule exports = VObject (Some sym) props →
  truthy sym = true →
  includes "#" (basename P resolved) = false →
  join P (dirname P resolved) (basename P resolved) = resolved →
  ∃ d, outcome (Host.resolveBuilder P ctx ws fuel ("$direct:" +:+ X)) = Return d
       ∧ Host.loadBuilder P ws d
         = ([Imported resolved], Return (VObject (Some sym) props)).
Proof.
  intros Hx Hb Hs Hr Hi Hd Ht Hh Hj. eexists. split.
  - by eapply direct_builder_descriptor.
  - set (d := mkInfo (Some "$direct") X None (VBool true) resolved None None).
    assert (S : selectExport d exports = VObject (Some sym) props) by exact Hd.
    assert (N : isNullish (selectExport d exports) = false) by (by rewrite S).
    rewrite (loadBuilder_loaded P ws d exports Hi N false eq_refl), S. simpl.
    by rewrite Ht.
Qed.

Lemma direct_builder_round_trip_witness :
  ∃ d, outcome (Host.resolveBuilder Monorepo.node Monorepo.context
                  (Some Monorepo.workspace) 5 "$direct:./shared.js") = Return d
       ∧ Host.loadBuilder Monorepo.node (Some Monorepo.workspace) d
         = ([Imported "/repo/shared.js"], Return (Sample.nativeBuilder "shared")).
Proof.
  eapply (direct_builder_round_trip Monorepo.node Monorepo.context
            (Some Monorepo.workspace) 5 "./shared.js" ["/repo/app"] "/repo" []
            "/repo/shared.js" {[ "default" := Sample.nativeBuilder "shared" ]});
    try reflexivity; repeat constructor.
Defined.

(** X21: a descriptor returned for a direct specifier has a null
    [isNx], in both versions of the host, whatever the resolver behind the
    facade answers. *)
Theorem resolveBuilder_direct_isNx P ctx ws fuel resolver spec bname d :
  specifierParts spec = ("$direct", Some bname) →
  outcome (Host.resolveBuilder P ctx ws fuel spec) = Return d
  ∨ outcome (FacadeHost.resolveBuilder P resolver spec) = Return d →
  isNx d = None.
Proof.
  intros Hs. unfold Host.resolveBuilder, FacadeHost.resolveBuilder. rewrite Hs.
  change (String.eqb "$direct" "$direct") with true. cbv iota.
  intros [H|H];
    apply bind_outcome_Return in H as ([[path entry] nx] & H & D);
    apply bind_outcome_Return in H as ([p i] & _ & [= _ _ <-]);
    by apply describeBuilder_Return in D as (_ & _ & -> & _).
Qed.

Lemma resolveBuilder_direct_isNx_witness :
  ∃ d, outcome (Host.resolveBuilder Monorepo.node Monorepo.context
                  (Some Monorepo.workspace) 5 "$direct:./described.js") = Return d
       ∧ isNx d = None.
Proof.
  destruct (Host.resolveBuilder Monorepo.node Monorepo.context
              (Some Monorepo.workspace) 5 "$direct:./described.js")
    as [tr [d| |]] eqn:R; [|vm_compute in R; discriminate..].
  exists d. split; [reflexivity|].
  apply (resolveBuilder_direct_isNx Monorepo.node Monorepo.context
           (Some Monorepo.workspace) 5 Sample.resolver "$direct:./described.js"
           "./described.js" d eq_refl).
  left. by rewrite R.
Defined.

(** ** From the specifier to the runnable *)

(** X22: an entry found under the executors always goes through the
    adapter: when the name of a specifier is among the executors of the
    manifest and [resolveBuilder] returns a descriptor, [loadBuilder] on
    that descriptor hands whatever export it loads to the adapter and
    returns what the adapter returns, be the export a builder already. *)
Theorem executor_is_adapted
    P ctx ws fuel spec pkg bname tr path builders ex entry d exports :
  specifierParts spec = (pkg, Some bname) →
  pkg ≠ "$direct" →
  Host.loadBuilderJson P ctx ws fuel pkg spec = (tr, Return (path, builders, Some ex)) →
  ex !! bname = Some entry →
  outcome (Host.resolveBuilder P ctx ws fuel spec) = Return d →
  importModule P (implementationPath d) = inr exports →
  isNullish (selectExport d exports) = false →
  Host.loadBuilder P ws d
  = ([Imported (implementationPath d); Converted (selectExport d exports)],
     Return (makeExecutorIntoBuilder P (selectExport d exports) ws)).
Proof.
  intros Hs Hd Hl He R I N.
  rewrite (resolveBuilder_manifest P _ _ _ _ _ _ _ _ _ _ Hs Hd Hl) in R.
  simpl in R. rewrite He in R. simpl in R.
  apply describeBuilder_Return in R as (_ & _ & X & _).
  assert (E : isExecutor d = ([], Return true)).
  { apply isExecutor_run, isExecutor_true. by left. }
  by rewrite (loadBuilder_loaded P ws d exports I N true E).
Qed.

Lemma executor_is_adapted_witness :
  Host.loadBuilder Sample.node (Some Sample.workspace) Sample.fooInfo
  = ([Imported "/ws/node_modules/pkg/exec.js"; Converted (VFunction "run" None)],
     Return (Sample.wrapExecutor (VFunction "run" None) (Some Sample.workspace))).
Proof.
  etransitivity.
  - eapply (executor_is_adapted Sample.node Sample.context (Some Sample.workspace) 5
              "pkg:foo" "pkg" "foo" _ _ _ _ _ Sample.fooInfo
              {[ "run" := VFunction "run" None ]}).
    + reflexivity.
    + discriminate.
    + vm_compute. reflexivity.
    + vm_compute. reflexivity.
    + vm_compute. reflexivity.
    + reflexivity.
    + reflexivity.
  - vm_compute. reflexivity.
Defined.

(** ** Listing the builders of a package *)

Lemma objectKeys_elem (o : JsonObject) n : n ∈ objectKeys o ↔ is_Some (o !! n).
Proof.
  unfold objectKeys. rewrite list_elem_of_fmap. split.
  - intros ([k v] & -> & H%elem_of_map_to_list). by exists v.
  - intros [v H]. exists (n, v). split; [done|]. by apply elem_of_map_to_list.
Qed.

Lemma listed_name builders executors n :
  Listed.name (listed builders executors n) = n.
Proof. unfold listed. by destruct (isString _). Qed.

(** X23: [listBuilders] returns one element per name that the builders
    or the executors of the manifest have, and no name twice; it makes the
    calls of loading the manifest and fails as loading the manifest
    fails. *)
Theorem listBuilders_names P ctx ws fuel pkg :
  match Host.loadBuilderJson P ctx ws fuel pkg pkg with
  | (tr, Return (path, builders, executors)) =>
      ∃ l, Host.listBuilders P ctx ws fuel pkg = (tr, Return l)
           ∧ NoDup (Listed.name <$> l)
           ∧ (∀ n, n ∈ Listed.name <$> l
                   ↔ is_Some (builders !! n) ∨ is_Some (executors ≫= (fun ex => ex !! n)))
           ∧ ∀ item, item ∈ l → item = listed builders executors (Listed.name item)
  | (tr, Throw e) => Host.listBuilders P ctx ws fuel pkg = (tr, Throw e)
  | (tr, Diverge) => Host.listBuilders P ctx ws fuel pkg = (tr, Diverge)
  end.
Proof.
  unfold Host.listBuilders.
  destruct (Host.loadBuilderJson P ctx ws fuel pkg pkg)
    as [tr [[[path builders] executors]|e|]]; simpl; [|done..].
  eexists. split; [by rewrite app_nil_r|].
  assert (Names : Listed.name <$> (listed builders executors
                                     <$> listedNames builders executors)
                  = listedNames builders executors).
  { rewrite <- list_fmap_compose. rewrite <- (list_fmap_id (listedNames _ _)) at 2.
    apply list_fmap_ext. intros i n _. apply listed_name. }
  rewrite Names. split; [apply setOrder_NoDup|]. split.
  - intros n. unfold listedNames.
    rewrite setOrder_elem, elem_of_app, !objectKeys_elem, elem_of_nil.
    destruct executors as [ex|]; simpl.
    + tauto.
    + rewrite lookup_empty. split; [intros [[H|[? ?]] _]|intros [H|[? ?]]]; try done.
      * by left.
      * split; [by left|tauto].
  - intros item (n & -> & _)%list_elem_of_fmap. by rewrite listed_name.
Qed.

(** X24: [listBuilders] and [resolveBuilder] read the description of a
    name that the builders and the executors both have from different
    entries: [listBuilders] lists the description of the builders entry,
    [resolveBuilder] puts the description of the executors entry in the
    descriptor. *)
Theorem description_of_shared_name
    P ctx ws fuel spec pkg bname tr tr' path builders ex sb ob se oe db de :
  specifierParts spec = (pkg, Some bname) →
  pkg ≠ "$direct" →
  Host.loadBuilderJson P ctx ws fuel pkg spec = (tr, Return (path, builders, Some ex)) →
  Host.loadBuilderJson P ctx ws fuel pkg pkg = (tr', Return (path, builders, Some ex)) →
  builders !! bname = Some (VObject sb ob) → ob !! "description" = Some (VStr db) →
  ex !! bname = Some (VObject se oe) → oe !! "description" = Some (VStr de) →
  (∃ l, Host.listBuilders P ctx ws fuel pkg = (tr', Return l)
        ∧ Listed.make bname (Some db) ∈ l)
  ∧ (∀ d, outcome (Host.resolveBuilder P ctx ws fuel spec) = Return d →
          description d = Some de).
Proof.
  intros Hs Hd Hl Hl' Hb Hdb He Hde. split.
  - unfold Host.listBuilders. rewrite (bind_run _ _ _ _ Hl'). simpl.
    eexists. split; [by rewrite app_nil_r|].
    apply list_elem_of_fmap. exists bname. split.
    + unfold listed, optProp, lookupProperty. rewrite Hb. simpl. by rewrite Hdb.
    + unfold listedNames. rewrite setOrder_elem, elem_of_app, !objectKeys_elem.
      split; [left; by eexists|by intros ?%elem_of_nil].
  - intros d. rewrite (resolveBuilder_manifest P _ _ _ _ _ _ _ _ _ _ Hs Hd Hl).
    simpl. rewrite He. simpl. intros R%describeBuilder_description.
    rewrite R. simpl. by rewrite Hde.
Qed.

Lemma description_of_shared_name_witness :
  (∃ l, outcome (Host.listBuilders Monorepo.node Monorepo.context
                   (Some Monorepo.workspace) 5 "tools") = Return l
        ∧ Listed.make "fmt" (Some "Format, as builder") ∈ l)
  ∧ ∃ d, outcome (Host.resolveBuilder Monorepo.node Monorepo.context
                    (Some Monorepo.workspace) 5 "tools:fmt") = Return d
         ∧ description d = Some "Format, as executor".
Proof.
  edestruct (description_of_shared_name Monorepo.node Monorepo.context
               (Some Monorepo.workspace) 5 "tools:fmt" "tools" "fmt")
    as [(l & L & I) D].
  - reflexivity.
  - discriminate.
  - vm_compute. reflexivity.
  - vm_compute. reflexivity.
  - vm_compute. reflexivity.
  - vm_compute. reflexivity.
  - vm_compute. reflexivity.
  - vm_compute. reflexivity.
  - split.
    + exists l. split; [by rewrite L|exact I].
    + destruct (Host.resolveBuilder Monorepo.node Monorepo.context
                  (Some Monorepo.workspace) 5 "tools:fmt") as [t [d| |]] eqn:R;
        [|vm_compute in R; discriminate..].
      exists d. split; [reflexivity|]. by apply D.
Defined.

(** ** Project metadata *)

(** X25: the metadata of a project are its extensions over its [root],
    [sourceRoot] and [prefix]: a key that the extensions have has their
    value, [root] included; [root], [sourceRoot] and [prefix] are keys of
    the result in every case, with [undefined] for the two that a project
    may lack; and a target stands for its project.  An unknown project is
    an [UnknownTargetError]. *)
Theorem getProjectMetadata_keys workspace projectName :
  match workspace ≫= (fun ws => Metadata.projects ws !! projectName) with
  | Some p =>
      ∃ metadata,
        Metadata.getProjectMetadata workspace (inl projectName) = ([], Return metadata)
        ∧ (∀ key v, default ∅ (Metadata.extensions p) !! key = Some v →
                    metadata !! key = Some v)
        ∧ (default ∅ (Metadata.extensions p) !! "root" = None →
           metadata !! "root" = Some (VStr (Metadata.root p)))
        ∧ (default ∅ (Metadata.extensions p) !! "sourceRoot" = None →
           metadata !! "sourceRoot"
           = Some (if Metadata.sourceRoot p is Some s then VStr s else VUndefined))
        ∧ (default ∅ (Metadata.extensions p) !! "prefix" = None →
           metadata !! "prefix"
           = Some (if Metadata.prefix p is Some s then VStr s else VUndefined))
        ∧ (∀ key, is_Some (metadata !! key)
                  ↔ key = "root" ∨ key = "sourceRoot" ∨ key = "prefix"
                    ∨ is_Some (default ∅ (Metadata.extensions p) !! key))
  | None =>
      Metadata.getProjectMetadata workspace (inl projectName)
      = ([], Throw (mkError UnknownTargetError
                      ("Unknown project: " +:+ quoted projectName)))
  end
  ∧ ∀ t, project t = projectName →
         Metadata.getProjectMetadata workspace (inr t)
         = Metadata.getProjectMetadata workspace (inl projectName).
Proof.
  split; [|by intros t <-].
  unfold Metadata.getProjectMetadata, Metadata.getProject.
  destruct (workspace ≫= _) as [p|]; [|done]. simpl.
  eexists. split; [reflexivity|].
  set (ext := default ∅ (Metadata.extensions p)).
  split; [|split; [|split; [|split]]].
  - intros key v H. by rewrite assign_lookup, H.
  - intros H. rewrite assign_lookup, H. by rewrite lookup_insert_eq.
  - intros H. rewrite assign_lookup, H.
    rewrite lookup_insert_ne, lookup_insert_eq by done.
    by destruct (Metadata.sourceRoot p).
  - intros H. rewrite assign_lookup, H.
    rewrite !lookup_insert_ne, lookup_singleton_eq by done.
    by destruct (Metadata.prefix p).
  - intros key. rewrite assign_lookup.
    destruct (ext !! key) as [v|] eqn:E.
    + split; [intros _; do 3 right; by eexists|by eexists].
    + destruct (decide (key = "root")) as [->|N1];
        [rewrite lookup_insert_eq; split; [tauto|by eexists]|].
      rewrite lookup_insert_ne by done.
      destruct (decide (key = "sourceRoot")) as [->|N2];
        [rewrite lookup_insert_eq; split; [tauto|by eexists]|].
      rewrite lookup_insert_ne by done.
      destruct (decide (key = "prefix")) as [->|N3];
        [rewrite lookup_singleton_eq; split; [tauto|by eexists]|].
      rewrite lookup_singleton_ne by done.
      split; [by intros [? ?]|]. intros [?|[?|[?|[? ?]]]]; done.
Qed.

Lemma getProjectMetadata_keys_witness :
  ∃ metadata,
    Metadata.getProjectMetadata (Some Monorepo.described)
      (inr (mkTarget "app" "build" None)) = ([], Return metadata)
    ∧ metadata !! "root" = Some (VStr "elsewhere")
    ∧ metadata !! "sourceRoot" = Some VUndefined
    ∧ metadata !! "prefix" = Some (VStr "app").
Proof.
  pose proof (getProjectMetadata_keys (Some Monorepo.described) "app") as [K T].
  simpl in K. destruct K as (metadata & E & X & _ & S & F & _).
  exists metadata. rewrite (T (mkTarget "app" "build" None) eq_refl).
  split; [exact E|]. split; [|split].
  - apply X. reflexivity.
  - apply S. reflexivity.
  - apply F. reflexivity.
Defined.

Lemma listBuilders_names_witness :
  ∃ l, outcome (Host.listBuilders Monorepo.node Monorepo.context
                  (Some Monorepo.workspace) 5 "tools") = Return l
       ∧ NoDup (Listed.name <$> l)
       ∧ "test" ∈ Listed.name <$> l.
Proof.
  pose proof (listBuilders_names Monorepo.node Monorepo.context
                (Some Monorepo.workspace) 5 "tools") as L.
  destruct (Host.loadBuilderJson Monorepo.node Monorepo.context
              (Some Monorepo.workspace) 5 "tools" "tools")
    as [tr [[[path builders] executors]|e|]] eqn:J;
    try (vm_compute in J; discriminate).
  destruct L as (l & E & D & N & _). exists l. rewrite E.
  split; [reflexivity|]. split; [exact D|].
  apply N. right. vm_compute in J. injection J as _ _ <- <-.
  vm_compute. by eexists.
Defined.

Lemma basePaths_candidates_witness :
  Host.basePaths Sample.context (Some Sample.workspace) = ["/ws"]
  ∧ NoDup (Host.basePaths Monorepo.context (Some Monorepo.workspace)).
Proof.
  split.
  - apply (proj1 (proj2 (proj2 (proj2 (basePaths_candidates Sample.context
                                         (Some Sample.workspace)))))
             Sample.workspace); reflexivity.
  - apply (proj1 (basePaths_candidates Monorepo.context (Some Monorepo.workspace))).
Defined.
